(** * Classroom booking server: admission, reservation transaction, decisions,
      listing with aged priorities, availability and the reader/writer lock.

    A shallow embedding of [server.py].  The SQLite tables are lists of rows,
    a connection is the database file plus the working copy of the open
    transaction, request bodies are finite maps from keys to values, and the
    threading primitives are their counters.

    Conventions
    - A naive [datetime] is its number of microseconds since a fixed origin
      (the resolution of Python's [datetime]); a [timedelta] is a difference
      of two such numbers.  [isoformat]/[fromisoformat] round-trip on these
      values, so the [timestamp] column is kept as the instant it denotes.
    - The columns [start_time] and [end_time] are TEXT and are kept as the
      strings the request carried: SQLite compares them byte-wise.
    - Python's binary64 quotients in [calculate_priority_with_aging] are
      taken as exact rationals; [aging_bonus_binary64] is the same chain of
      quotients in IEEE binary64, compared with it at the day boundaries.
    - The body of a booking request is a JSON object whose values are
      strings; the body of a login is a JSON object with values of any
      kind. *)

From Stdlib Require Import ZArith QArith Qround SpecFloat String Ascii List Sorted
  Permutation Lia.
From stdpp Require Import base option list gmap strings pretty.

Open Scope string_scope.
Open Scope Z_scope.

(** ** Time *)

Definition datetime := Z.
Definition timedelta := Z.

(** [timedelta.total_seconds()] *)
Definition total_seconds (d : timedelta) : Q := d # 1000000.

(** Python's [int(x)] on a real number: truncation toward zero. *)
Definition int_of (x : Q) : Z := Z.quot (Qnum x) (Zpos (Qden x)).

(** ** 5. Priority scheduling with aging *)

Definition PRIORITY_LEVELS : list (string * Z) :=
  [("urgent", 1); ("high", 2); ("normal", 3); ("low", 4)].

(** [d.get(k, default)] on a dict given as its item list. *)
Fixpoint dict_get {V} (d : list (string * V)) (k : string) (default : V) : V :=
  match d with
  | [] => default
  | (k', v) :: d' => if String.eqb k' k then v else dict_get d' k default
  end.

Definition calculate_priority_with_aging
    (now : datetime) (base_priority : Z) (created_at : datetime) : Z :=
  let age_hours := (total_seconds (now - created_at)%Z / 3600)%Q in
  let aging_bonus := int_of (age_hours / 24)%Q in
  let final_priority := Z.max 1 (base_priority - aging_bonus) in
  final_priority.

(** ** Tables *)

Record booking := {
  b_id : Z;
  b_faculty : string;
  b_faculty_name : string;
  b_room : string;
  b_subject : string;
  b_purpose : string;
  b_start_time : string;
  b_end_time : string;
  b_notes : string;
  b_status : string;
  b_priority : string;
  b_timestamp : datetime;
  b_approved_at : option datetime;
  b_rejected_at : option datetime
}.

Record timetable_row := {
  tt_day : string;
  tt_time : string;
  tt_room : string;
  tt_faculty : string;
  tt_subject : string;
  tt_semester : string
}.

(** The database file: the two tables the handlers touch, and the
    [sqlite_sequence] entry that [AUTOINCREMENT] keeps for [bookings]. *)
Record database := {
  bookings : list booking;
  bookings_seq : Z;
  timetable : list timetable_row
}.

Definition empty_database : database :=
  {| bookings := []; bookings_seq := 0; timetable := [] |}.

(** ** A [sqlite3] connection

    [file] is the committed content of [bookings.db]; [txn] is the working
    copy of the transaction open on this connection, if any.  Statements
    read and write the working copy; [commit] installs it; [rollback] and
    [close] drop it. *)

Record connection := {
  file : database;
  txn : option database
}.

Definition connect (db : database) : connection :=
  {| file := db; txn := None |}.

Inductive exn :=
| KeyError (key : string)
| OperationalError
| OverflowError.

Inductive result (A : Type) :=
| Ok (a : A)
| Raise (e : exn).
Arguments Ok {A} a.
Arguments Raise {A} e.

(** Code running against a connection: it may raise, and it leaves the
    connection in a new state either way. *)
Definition sql (A : Type) : Type := connection -> result A * connection.

#[global] Instance sql_ret : MRet sql := fun A a c => (Ok a, c).
#[global] Instance sql_bind : MBind sql := fun A B k m c =>
  match m c with
  | (Ok a, c') => k a c'
  | (Raise e, c') => (Raise e, c')
  end.
#[global] Instance sql_throw : MThrow exn sql := fun A e c => (Raise e, c).

(** [try: body except e: handler e] *)
Definition try_except {A} (body : sql A) (handler : exn -> sql A) : sql A :=
  fun c =>
    match body c with
    | (Ok a, c') => (Ok a, c')
    | (Raise e, c') => handler e c'
    end.

(** [try: body finally: cleanup] *)
Definition try_finally {A} (body : sql A) (cleanup : sql unit) : sql A :=
  fun c =>
    match body c with
    | (r, c') =>
        match cleanup c' with
        | (Ok _, c'') => (r, c'')
        | (Raise e, c'') => (Raise e, c'')
        end
    end.

(** What a statement on this connection sees. *)
Definition snapshot (c : connection) : database :=
  match txn c with
  | Some w => w
  | None => file c
  end.

(** [conn.execute('BEGIN EXCLUSIVE')]; [locked] tells whether another
    connection keeps the file locked past the 10 s timeout. *)
Definition begin_exclusive (locked : bool) : sql unit :=
  fun c =>
    if locked then (Raise OperationalError, c)
    else (Ok tt, {| file := file c; txn := Some (file c) |}).

Definition query {A} (q : database -> A) : sql A :=
  fun c => (Ok (q (snapshot c)), c).

(** A data-changing statement; [sqlite3] opens a transaction for it when
    none is open. *)
Definition execute {A} (stmt : database -> A * database) : sql A :=
  fun c =>
    match stmt (snapshot c) with
    | (a, w) => (Ok a, {| file := file c; txn := Some w |})
    end.

Definition commit : sql unit :=
  fun c => (Ok tt, {| file := snapshot c; txn := None |}).

Definition rollback : sql unit :=
  fun c => (Ok tt, {| file := file c; txn := None |}).

Definition close : sql unit :=
  fun c => (Ok tt, {| file := file c; txn := None |}).

(** Run code on a fresh connection to the file: what it gives, and the file
    afterwards. *)
Definition on_connection {A} (m : sql A) (db : database) : result A * database :=
  match m (connect db) with
  | (r, c) => (r, file c)
  end.

(** ** Request bodies *)

(** [data[key]] *)
Definition item (data : gmap string string) (key : string) : sql string :=
  match data !! key with
  | Some v => mret v
  | None => mthrow (KeyError key)
  end.

(** [data.get(key, default)] *)
Definition get {V} (data : gmap string V) (key : string) (default : V) : V :=
  match data !! key with
  | Some v => v
  | None => default
  end.

(** ** Statements of [create_booking] *)

(** The [WHERE] clause of the availability re-check, on one row, with the
    parameters [(room_id, start, start, end, end)]. *)
Definition conflicts_with (room_id start end_ : string) (b : booking) : bool :=
  String.eqb (b_room b) room_id && String.eqb (b_status b) "approved" &&
  (String.leb (b_start_time b) start && String.ltb start (b_end_time b)
   || String.ltb (b_start_time b) end_ && String.leb end_ (b_end_time b)).

(** [SELECT COUNT( * ) FROM bookings WHERE ...] *)
Definition count_conflicts (room_id start end_ : string) (db : database) : Z :=
  Z.of_nat (length (List.filter (conflicts_with room_id start end_) (bookings db))).

(** The rowid [AUTOINCREMENT] picks: one more than the largest rowid the
    table ever held. *)
Definition next_rowid (db : database) : Z :=
  fold_right Z.max (bookings_seq db) (map b_id (bookings db)) + 1.

(** [INSERT INTO bookings (...) VALUES (?, ?, ?, ?, ?, ?, ?, ?, 'pending', ?, ?)];
    the result is [cursor.lastrowid]. *)
Definition insert_booking
    (faculty faculty_name room subject purpose start_time end_time notes
       priority : string) (timestamp : datetime) (db : database)
    : Z * database :=
  let rowid := next_rowid db in
  (rowid,
   {| bookings := bookings db ++
        [{| b_id := rowid; b_faculty := faculty; b_faculty_name := faculty_name;
            b_room := room; b_subject := subject; b_purpose := purpose;
            b_start_time := start_time; b_end_time := end_time;
            b_notes := notes; b_status := "pending"; b_priority := priority;
            b_timestamp := timestamp;
            b_approved_at := None; b_rejected_at := None |}];
      bookings_seq := rowid;
      timetable := timetable db |}).

(** ** Responses of [/api/request] *)

Inductive response :=
| Created (booking_id : Z) (priority : string)   (* 200, success *)
| Conflict                                       (* 409 *)
| ServiceBusy                                    (* 503, semaphore exhausted *)
| DatabaseLocked                                 (* 503, store locked *)
| Failed                                         (* 500, "Failed to create booking" *)
| Unhandled (e : exn).                           (* the exception leaves the view *)

(** The body of [with room_lock:] in [create_booking], against an open
    connection. *)
Definition reserve (now : datetime) (locked : bool)
    (data : gmap string string) (room_id : string) : sql response :=
  try_finally
    (try_except
       (begin_exclusive locked;;
        start ← item data "start";
        end_ ← item data "end";
        n ← query (count_conflicts room_id start end_);
        if 0 <? n then
          rollback;;
          mret Conflict
        else
          let priority := get data "priority" "normal" in
          faculty ← item data "faculty";
          purpose ← item data "purpose";
          start ← item data "start";
          end_ ← item data "end";
          booking_id ← execute (insert_booking faculty (get data "facultyName" "")
                                  room_id (get data "subject" "") purpose start end_
                                  (get data "notes" "") priority now);
          commit;;
          mret (Created booking_id priority))
       (fun e =>
          match e with
          | OperationalError => rollback;; mret DatabaseLocked
          | _ => rollback;; mret Failed
          end))
    close.

(** ** 1. Semaphore, 2. room locks *)

(** [threading.Semaphore.acquire(blocking=False)] on the counter: the
    answer and the new counter. *)
Definition acquire_nonblocking (value : Z) : bool * Z :=
  if value =? 0 then (false, value) else (true, value - 1).

(** [threading.Semaphore.release()] *)
Definition release (value : Z) : Z := value + 1.

(** The process-wide state a booking request touches: the counter of
    [booking_semaphore], the registry [room_locks] (room to "is its lock
    held"), and the database file. *)
Record server := {
  booking_semaphore : Z;
  room_locks : gmap string bool;
  store : database
}.

Definition boot (db : database) : server :=
  {| booking_semaphore := 5; room_locks := ∅; store := db |}.

Definition with_semaphore (v : Z) (s : server) : server :=
  {| booking_semaphore := v; room_locks := room_locks s; store := store s |}.

Definition with_room_locks (l : gmap string bool) (s : server) : server :=
  {| booking_semaphore := booking_semaphore s; room_locks := l; store := store s |}.

Definition with_store (db : database) (s : server) : server :=
  {| booking_semaphore := booking_semaphore s; room_locks := room_locks s; store := db |}.

(** [get_room_lock]: the registry after the call (the lock handed out is
    the entry of [room_id]). *)
Definition get_room_lock (room_id : string) (locks : gmap string bool)
    : gmap string bool :=
  match locks !! room_id with
  | None => <[room_id := false]> locks
  | Some _ => locks
  end.

Definition lock_held (room_id : string) (locks : gmap string bool) : bool :=
  match locks !! room_id with
  | Some held => held
  | None => false
  end.

(** What a view function hands to Flask. *)
Definition answer (r : result response) : response :=
  match r with
  | Ok resp => resp
  | Raise e => Unhandled e
  end.

(** [with room_lock:] once the lock is held: connect, run the transaction,
    leave the file as the connection left it, free the lock. *)
Definition locked_section (now : datetime) (locked : bool)
    (data : gmap string string) (room_id : string) (s : server)
    : response * server :=
  match on_connection (reserve now locked data room_id) (store s) with
  | (r, db) =>
      (answer r,
       with_room_locks (<[room_id := false]> (room_locks s)) (with_store db s))
  end.

(** [create_booking], run from the request to the response with no other
    thread in between.  [None]: the call is suspended on a room lock that
    someone else holds. *)
Definition create_booking (now : datetime) (locked : bool)
    (data : gmap string string) (s : server) : option (response * server) :=
  match acquire_nonblocking (booking_semaphore s) with
  | (false, _) => Some (ServiceBusy, s)
  | (true, v) =>
      let s := with_semaphore v s in
      let body :=
        match data !! "room" with
        | None => Some (Unhandled (KeyError "room"), s)
        | Some room_id =>
            let s := with_room_locks (get_room_lock room_id (room_locks s)) s in
            if lock_held room_id (room_locks s) then None
            else
              let s := with_room_locks (<[room_id := true]> (room_locks s)) s in
              Some (locked_section now locked data room_id s)
        end in
      match body with
      | None => None
      | Some (r, s) => Some (r, with_semaphore (release (booking_semaphore s)) s)
      end
  end.

(** ** Decisions: [/api/approve/<id>] and [/api/reject/<id>] *)

Inductive decision :=
| Ack (message : string)       (* 200, success *)
| NotFound.                    (* 404, "Booking not found" *)

Definition set_approved (now : datetime) (b : booking) : booking :=
  {| b_id := b_id b; b_faculty := b_faculty b; b_faculty_name := b_faculty_name b;
     b_room := b_room b; b_subject := b_subject b; b_purpose := b_purpose b;
     b_start_time := b_start_time b; b_end_time := b_end_time b;
     b_notes := b_notes b; b_status := "approved"; b_priority := b_priority b;
     b_timestamp := b_timestamp b;
     b_approved_at := Some now; b_rejected_at := b_rejected_at b |}.

Definition set_rejected (now : datetime) (b : booking) : booking :=
  {| b_id := b_id b; b_faculty := b_faculty b; b_faculty_name := b_faculty_name b;
     b_room := b_room b; b_subject := b_subject b; b_purpose := b_purpose b;
     b_start_time := b_start_time b; b_end_time := b_end_time b;
     b_notes := b_notes b; b_status := "rejected"; b_priority := b_priority b;
     b_timestamp := b_timestamp b;
     b_approved_at := b_approved_at b; b_rejected_at := Some now |}.

(** [UPDATE bookings SET ... WHERE id = ?] *)
Definition update_where_id (set : booking -> booking) (booking_id : Z)
    (db : database) : unit * database :=
  (tt,
   {| bookings := map (fun b => if b_id b =? booking_id then set b else b)
                      (bookings db);
      bookings_seq := bookings_seq db;
      timetable := timetable db |}).

(** [SELECT * FROM bookings WHERE id = ?] followed by [fetchone()] *)
Definition select_by_id (booking_id : Z) (db : database) : option booking :=
  find (fun b => b_id b =? booking_id) (bookings db).

(** Binding a Python [int] to a parameter of a statement: an SQLite
    integer has 64 bits, and [sqlite3] raises [OverflowError] for an [int]
    outside them before the statement runs. *)
Definition int64 (n : Z) : bool := (- 2 ^ 63 <=? n) && (n <? 2 ^ 63).

Definition bind_int (n : Z) : sql Z :=
  if int64 n then mret n else mthrow OverflowError.

(** A data-changing statement outside [BEGIN EXCLUSIVE] needs the write
    lock of the file; [locked] tells whether another connection keeps the
    file locked past the timeout of the connection (5 s). *)
Definition write_lock (locked : bool) : sql unit :=
  fun c => if locked then (Raise OperationalError, c) else (Ok tt, c).

(** The body shared by [approve_booking] and [reject_booking].  Neither
    catches anything: an exception leaves the view with the transaction
    uncommitted. *)
Definition decide_booking (set : booking -> booking) (verb : string)
    (locked : bool) (booking_id : Z) : sql decision :=
  booking_id ← bind_int booking_id;
  write_lock locked;;
  execute (update_where_id set booking_id);;
  commit;;
  row ← query (select_by_id booking_id);
  close;;
  match row with
  | Some r => mret (Ack ("Booking for " ++ b_room r ++ " has been " ++ verb))
  | None => mret NotFound
  end.

Definition approve_booking (now : datetime) (locked : bool) (booking_id : Z)
    (db : database) : result decision * database :=
  on_connection (decide_booking (set_approved now) "approved" locked booking_id) db.

Definition reject_booking (now : datetime) (locked : bool) (booking_id : Z)
    (db : database) : result decision * database :=
  on_connection (decide_booking (set_rejected now) "rejected" locked booking_id) db.

(** ** Listing: [/api/bookings] *)

(** Python truthiness of an optional query argument. *)
Definition given (arg : option string) : bool :=
  match arg with
  | Some s => negb (String.eqb s "")
  | None => false
  end.

(** The [WHERE] clause assembled from the arguments. *)
Definition listing_where (faculty status : option string) (b : booking) : bool :=
  (if given faculty then bool_decide (Some (b_faculty b) = faculty) else true) &&
  (if given status then bool_decide (Some (b_status b) = status) else true).

(** A sort that places each element before the first one it is not after:
    on equal elements the order of the input stays. *)
Fixpoint insert_sorted {A} (le : A -> A -> bool) (x : A) (l : list A) : list A :=
  match l with
  | [] => [x]
  | y :: l' => if le x y then x :: y :: l' else y :: insert_sorted le x l'
  end.

Definition sort_by {A} (le : A -> A -> bool) (l : list A) : list A :=
  fold_right (insert_sorted le) [] l.

(** [ORDER BY status ASC, id DESC] *)
Definition status_asc_id_desc (a b : booking) : bool :=
  match String.compare (b_status a) (b_status b) with
  | Lt => true
  | Gt => false
  | Eq => b_id b <=? b_id a
  end.

(** One entry of the JSON answer: the columns of the row, and
    [effectivePriority] when the row is pending.  ([waitingHours], a
    rounded float shown next to it, is left out.) *)
Record listed := {
  row : booking;
  effectivePriority : option Z
}.

Definition list_row (now : datetime) (r : booking) : listed :=
  {| row := r;
     effectivePriority :=
       if String.eqb (b_status r) "pending" then
         let base_priority := dict_get PRIORITY_LEVELS (b_priority r) 3 in
         Some (calculate_priority_with_aging now base_priority (b_timestamp r))
       else None |}.

(** [x.get('effectivePriority', 999)] *)
Definition sort_key (x : listed) : Z :=
  match effectivePriority x with
  | Some p => p
  | None => 999
  end.

(** [list.sort(key=...)]: stable, ascending in the key. *)
Definition sort_by_key (l : list listed) : list listed :=
  sort_by (fun x y => sort_key x <=? sort_key y) l.

(** [get_bookings].  [now] stands for every [datetime.now()] of one call.
    The read lock held around the body does not enter the answer. *)
Definition get_bookings (now : datetime) (faculty status : option string)
    (db : database) : list listed :=
  let rows := sort_by status_asc_id_desc
                (List.filter (listing_where faculty status) (bookings db)) in
  let bookings := map (list_row now) rows in
  if bool_decide (status = Some "pending") then sort_by_key bookings else bookings.

(** ** Availability: [/api/empty] *)

Definition all_rooms : list string := ["C-101"; "L-201"; "SH-301"].

(** SQL [<=] on two possibly-NULL texts, as a [WHERE] condition: NULL
    selects nothing. *)
Definition sql_le (a b : option string) : bool :=
  match a, b with
  | Some x, Some y => String.leb x y
  | _, _ => false
  end.

Section Availability.

(** SQLite's [datetime()] on a text: the normalised time string, or NULL
    when the text is not a time string. *)
Variable sql_datetime : string -> option string.

Definition get_empty_rooms (day time : string) (db : database) : list string :=
  let occupied :=
    remove_dups
      (map tt_room
         (List.filter (fun t => String.eqb (tt_day t) day && String.eqb (tt_time t) time)
            (timetable db))) in
  let instant := day ++ " " ++ time in
  let booked :=
    remove_dups
      (map b_room
         (List.filter
            (fun b => String.eqb (b_status b) "approved"
                      && sql_le (sql_datetime (b_start_time b)) (sql_datetime instant)
                      && sql_le (sql_datetime instant) (sql_datetime (b_end_time b)))
            (bookings db))) in
  let occupied_rooms : gset string := list_to_set (occupied ++ booked) in
  List.filter (fun room => bool_decide (room ∉ occupied_rooms)) all_rooms.

End Availability.

(** [datetime()] on the two shapes [YYYY-MM-DD HH:MM] and
    [YYYY-MM-DD HH:MM:SS] (a [T] may stand for the blank); other texts are
    not covered here and are given as NULL. *)
Definition is_digit (c : ascii) : bool :=
  let n := N_of_ascii c in ((48 <=? n) && (n <=? 57))%N.

Definition shape_ok (pattern s : string) : bool :=
  (fix go (p s : list ascii) : bool :=
     match p, s with
     | [], [] => true
     | c :: p', d :: s' =>
         (if Ascii.eqb c "9" then is_digit d
          else if Ascii.eqb c " " then Ascii.eqb d " " || Ascii.eqb d "T"
          else Ascii.eqb c d) && go p' s'
     | _, _ => false
     end) (list_ascii_of_string pattern) (list_ascii_of_string s).

Definition datetime_text (s : string) : option string :=
  if shape_ok "9999-99-99 99:99" s then
    Some (String.substring 0 10 s ++ " " ++ String.substring 11 5 s ++ ":00")
  else if shape_ok "9999-99-99 99:99:99" s then
    Some (String.substring 0 10 s ++ " " ++ String.substring 11 8 s)
  else None.

(** ** Booking requests as threads

    The points of [create_booking] at which another thread can run: before
    the semaphore, holding a slot, holding a slot and waiting for the room
    lock, inside [with room_lock:], past it with the slot still held, and
    after the [finally] clause. *)

Inductive pc :=
| Arrived (data : gmap string string)
| Holding (data : gmap string string)
| AtLock (room_id : string) (data : gmap string string)
| InRoom (room_id : string) (data : gmap string string)
| Leaving (r : response)
| Returned (r : response).

(** One move of a thread; [None] when it cannot move (suspended on a held
    room lock, or finished). *)
Definition thread_step (now : datetime) (locked : bool) (p : pc) (s : server)
    : option (pc * server) :=
  match p with
  | Arrived data =>
      match acquire_nonblocking (booking_semaphore s) with
      | (false, _) => Some (Returned ServiceBusy, s)
      | (true, v) => Some (Holding data, with_semaphore v s)
      end
  | Holding data =>
      match data !! "room" with
      | None => Some (Leaving (Unhandled (KeyError "room")), s)
      | Some room_id =>
          Some (AtLock room_id data,
                with_room_locks (get_room_lock room_id (room_locks s)) s)
      end
  | AtLock room_id data =>
      if lock_held room_id (room_locks s) then None
      else Some (InRoom room_id data,
                 with_room_locks (<[room_id := true]> (room_locks s)) s)
  | InRoom room_id data =>
      match locked_section now locked data room_id s with
      | (r, s') => Some (Leaving r, s')
      end
  | Leaving r =>
      Some (Returned r, with_semaphore (release (booking_semaphore s)) s)
  | Returned _ => None
  end.

(** A thread run on its own for at most [n] moves. *)
Fixpoint run_alone (n : nat) (now : datetime) (locked : bool) (p : pc) (s : server)
    : option (response * server) :=
  match p with
  | Returned r => Some (r, s)
  | _ =>
      match n with
      | O => None
      | S n' =>
          match thread_step now locked p s with
          | Some (p', s') => run_alone n' now locked p' s'
          | None => None
          end
      end
  end.

(** The server with its request threads. *)
Record pool := {
  shared : server;
  threads : list pc
}.

Inductive step : pool -> pool -> Prop :=
| step_arrive (P : pool) (data : gmap string string) :
    step P {| shared := shared P; threads := threads P ++ [Arrived data] |}
| step_thread (P : pool) (i : nat) (now : datetime) (locked : bool)
      (p p' : pc) (s' : server) :
    threads P !! i = Some p ->
    thread_step now locked p (shared P) = Some (p', s') ->
    step P {| shared := s'; threads := <[i := p']> (threads P) |}
| step_approve (P : pool) (now : datetime) (locked : bool) (booking_id : Z) :
    step P {| shared :=
                with_store (snd (approve_booking now locked booking_id (store (shared P))))
                           (shared P);
              threads := threads P |}
| step_reject (P : pool) (now : datetime) (locked : bool) (booking_id : Z) :
    step P {| shared :=
                with_store (snd (reject_booking now locked booking_id (store (shared P))))
                           (shared P);
              threads := threads P |}.

Inductive reachable (P0 : pool) : pool -> Prop :=
| reachable_start : reachable P0 P0
| reachable_step (P Q : pool) : reachable P0 P -> step P Q -> reachable P0 Q.

Definition started (db : database) : pool :=
  {| shared := boot db; threads := [] |}.

(** Does a thread at this point hold a semaphore slot? *)
Definition in_flight (p : pc) : bool :=
  match p with
  | Holding _ | AtLock _ _ | InRoom _ _ | Leaving _ => true
  | Arrived _ | Returned _ => false
  end.

Definition slots_held (ts : list pc) : Z :=
  Z.of_nat (length (List.filter in_flight ts)).

(** ** 3. Reader-writer lock

    The two counters of [ReaderWriterLock], the threads asleep in
    [read_ready.wait()] and [write_ready.wait()], the threads a
    [notify_all] has woken and that have yet to test their [while]
    condition again, the order in which requests were granted, and, for
    each of the two conditions, the thread that keeps its mutex from one
    step to the next.

    [acquire_read] and [release_read] run under the mutex of [read_ready],
    [acquire_write] and [release_write] under that of [write_ready]: two
    methods of one side never overlap, but a method of one side can run
    between two steps of a method of the other side.  The methods are cut
    where that shows: between the [while] test of an [acquire_*] and its
    increment, and in [release_write] before [read_ready.acquire()]. *)

Inductive mode := Shared | Exclusive.

(** Where the thread that keeps a mutex stands. *)
Inductive holder :=
| Passed (t : nat)   (* in [acquire_*], past the [while] test *)
| Notified.          (* in [release_write], past [write_ready.notify_all()] *)

Record rw_state := {
  readers : Z;
  writers : Z;
  read_ready : list nat;
  write_ready : list nat;
  woken : list (nat * mode);
  granted : list (nat * mode);
  read_mutex : option holder;
  write_mutex : option holder
}.

Definition rw_init : rw_state :=
  {| readers := 0; writers := 0; read_ready := []; write_ready := [];
     woken := []; granted := []; read_mutex := None; write_mutex := None |}.

Definition free (mutex : option holder) : bool :=
  match mutex with
  | None => true
  | Some _ => false
  end.

Definition passed (t : nat) (mutex : option holder) : bool :=
  match mutex with
  | Some (Passed u) => Nat.eqb u t
  | _ => false
  end.

Definition notified (mutex : option holder) : bool :=
  match mutex with
  | Some Notified => true
  | _ => false
  end.

(** The [while] test of [acquire_read] by thread [t], which has the mutex:
    [wait()], which gives the mutex back, or on with the mutex kept. *)
Definition test_read (t : nat) (l : rw_state) : rw_state :=
  if 0 <? writers l then
    {| readers := readers l; writers := writers l;
       read_ready := read_ready l ++ [t]; write_ready := write_ready l;
       woken := woken l; granted := granted l;
       read_mutex := None; write_mutex := write_mutex l |}
  else
    {| readers := readers l; writers := writers l;
       read_ready := read_ready l; write_ready := write_ready l;
       woken := woken l; granted := granted l;
       read_mutex := Some (Passed t); write_mutex := write_mutex l |}.

(** [self.readers += 1] and [self.read_ready.release()] *)
Definition enter_read (t : nat) (l : rw_state) : rw_state :=
  {| readers := readers l + 1; writers := writers l;
     read_ready := read_ready l; write_ready := write_ready l;
     woken := woken l; granted := granted l ++ [(t, Shared)];
     read_mutex := None; write_mutex := write_mutex l |}.

(** The [while] test of [acquire_write] by thread [t], which has the
    mutex. *)
Definition test_write (t : nat) (l : rw_state) : rw_state :=
  if (0 <? writers l) || (0 <? readers l) then
    {| readers := readers l; writers := writers l;
       read_ready := read_ready l; write_ready := write_ready l ++ [t];
       woken := woken l; granted := granted l;
       read_mutex := read_mutex l; write_mutex := None |}
  else
    {| readers := readers l; writers := writers l;
       read_ready := read_ready l; write_ready := write_ready l;
       woken := woken l; granted := granted l;
       read_mutex := read_mutex l; write_mutex := Some (Passed t) |}.

(** [self.writers += 1] and [self.write_ready.release()] *)
Definition enter_write (t : nat) (l : rw_state) : rw_state :=
  {| readers := readers l; writers := writers l + 1;
     read_ready := read_ready l; write_ready := write_ready l;
     woken := woken l; granted := granted l ++ [(t, Exclusive)];
     read_mutex := read_mutex l; write_mutex := None |}.

(** [acquire_read] from the [while] test to the end, for thread [t], with
    no step of another thread in between. *)
Definition acquire_read (t : nat) (l : rw_state) : rw_state :=
  if 0 <? writers l then test_read t l else enter_read t (test_read t l).

(** [acquire_write] from the [while] test to the end, for thread [t], with
    no step of another thread in between. *)
Definition acquire_write (t : nat) (l : rw_state) : rw_state :=
  if (0 <? writers l) || (0 <? readers l) then test_write t l
  else enter_write t (test_write t l).

Definition release_read (l : rw_state) : rw_state :=
  let n := readers l - 1 in
  if n =? 0 then
    {| readers := n; writers := writers l;
       read_ready := []; write_ready := write_ready l;
       woken := woken l ++ map (fun t => (t, Shared)) (read_ready l);
       granted := granted l;
       read_mutex := None; write_mutex := write_mutex l |}
  else
    {| readers := n; writers := writers l;
       read_ready := read_ready l; write_ready := write_ready l;
       woken := woken l; granted := granted l;
       read_mutex := None; write_mutex := write_mutex l |}.

(** [release_write] up to [self.write_ready.notify_all()]; the mutex of
    [write_ready] stays with the thread. *)
Definition release_write_begin (l : rw_state) : rw_state :=
  {| readers := readers l; writers := writers l - 1;
     read_ready := read_ready l; write_ready := [];
     woken := woken l ++ map (fun t => (t, Exclusive)) (write_ready l);
     granted := granted l;
     read_mutex := read_mutex l; write_mutex := Some Notified |}.

(** The rest of [release_write], from [self.read_ready.acquire()] on. *)
Definition release_write_end (l : rw_state) : rw_state :=
  {| readers := readers l; writers := writers l;
     read_ready := []; write_ready := write_ready l;
     woken := woken l ++ map (fun t => (t, Shared)) (read_ready l);
     granted := granted l;
     read_mutex := None; write_mutex := None |}.

(** [release_write] with no step of another thread in between. *)
Definition release_write (l : rw_state) : rw_state :=
  release_write_end (release_write_begin l).

Definition mode_eqb (a b : mode) : bool :=
  match a, b with
  | Shared, Shared | Exclusive, Exclusive => true
  | _, _ => false
  end.

(** The mutex of the condition a request of this mode works under. *)
Definition mutex (m : mode) (l : rw_state) : option holder :=
  match m with
  | Shared => read_mutex l
  | Exclusive => write_mutex l
  end.

Definition unwake (t : nat) (m : mode) (l : rw_state) : rw_state :=
  {| readers := readers l; writers := writers l;
     read_ready := read_ready l; write_ready := write_ready l;
     woken := List.filter (fun x => negb (Nat.eqb (fst x) t && mode_eqb (snd x) m)) (woken l);
     granted := granted l;
     read_mutex := read_mutex l; write_mutex := write_mutex l |}.

(** What a thread does in one go.  The first five are whole methods (for
    [Retest], the rest of an [acquire_*] after a wake-up), run with no step
    of another thread in between; the last four are the pieces of the
    methods that can be cut: the [while] test of a thread that arrives or
    was woken, the increment after it, and the two halves of
    [release_write]. *)
Inductive rw_event :=
| AcquireRead (t : nat)
| AcquireWrite (t : nat)
| ReleaseRead
| ReleaseWrite
| Retest (t : nat) (m : mode)
| Test (t : nat) (m : mode)
| Enter (t : nat) (m : mode)
| ReleaseWriteBegin
| ReleaseWriteEnd.

(** An event that cannot happen in a state, because its thread would be
    kept out by a mutex, leaves the state as it is. *)
Definition rw_step (l : rw_state) (e : rw_event) : rw_state :=
  match e with
  | AcquireRead t => if free (read_mutex l) then acquire_read t l else l
  | AcquireWrite t => if free (write_mutex l) then acquire_write t l else l
  | ReleaseRead => if free (read_mutex l) then release_read l else l
  | ReleaseWrite =>
      if free (write_mutex l) && free (read_mutex l) then release_write l else l
  | Retest t m =>
      if existsb (fun x => Nat.eqb (fst x) t && mode_eqb (snd x) m) (woken l)
         && free (mutex m l)
      then
        match m with
        | Shared => acquire_read t (unwake t m l)
        | Exclusive => acquire_write t (unwake t m l)
        end
      else l
  | Test t m =>
      if free (mutex m l) then
        match m with
        | Shared => test_read t (unwake t m l)
        | Exclusive => test_write t (unwake t m l)
        end
      else l
  | Enter t m =>
      if passed t (mutex m l) then
        match m with
        | Shared => enter_read t l
        | Exclusive => enter_write t l
        end
      else l
  | ReleaseWriteBegin =>
      if free (write_mutex l) then release_write_begin l else l
  | ReleaseWriteEnd =>
      if notified (write_mutex l) && free (read_mutex l)
      then release_write_end l else l
  end.

Definition rw_run (evs : list rw_event) (l : rw_state) : rw_state :=
  fold_left rw_step evs l.

(** ** Vocabulary of the properties, and sample data *)

(** The elapsed wait, in hours, between two instants. *)
Definition elapsed_hours (created_at now : datetime) : Q :=
  (now - created_at) # 3600000000.

(** The effective priority as the design document words it. *)
Definition effective_priority_formula (rank : Z) (created_at now : datetime) : Z :=
  Z.max 1 (rank - Qfloor (elapsed_hours created_at now / 24)).

(** A day, in microseconds. *)
Definition day_us : Z := 86400000000.

(** The quotients of [calculate_priority_with_aging] in IEEE binary64, for a
    wait of [d] microseconds with [|d| < 2^53] (so that [d] is a binary64
    number): [int(d / 10**6 / 3600 / 24)]. *)
Definition binary64_of_int (z : Z) : spec_float :=
  binary_normalize 53 1024 z 0 false.

Definition binary64_div : spec_float -> spec_float -> spec_float := SFdiv 53 1024.

Definition int_of_binary64 (x : spec_float) : Z :=
  match x with
  | S754_finite s m e =>
      let magnitude := if 0 <=? e then Zpos m * 2 ^ e else Zpos m / 2 ^ (- e) in
      if s then - magnitude else magnitude
  | _ => 0
  end.

Definition aging_bonus_binary64 (d : timedelta) : Z :=
  let total_seconds := binary64_div (binary64_of_int d) (binary64_of_int 1000000) in
  let age_hours := binary64_div total_seconds (binary64_of_int 3600) in
  int_of_binary64 (binary64_div age_hours (binary64_of_int 24)).

(** The row [create_booking] inserts for a request. *)
Definition new_row (now : datetime) (data : gmap string string)
    (room_id faculty purpose start end_ : string) (db : database) : booking :=
  {| b_id := next_rowid db; b_faculty := faculty;
     b_faculty_name := get data "facultyName" "";
     b_room := room_id; b_subject := get data "subject" ""; b_purpose := purpose;
     b_start_time := start; b_end_time := end_;
     b_notes := get data "notes" ""; b_status := "pending";
     b_priority := get data "priority" "normal";
     b_timestamp := now;
     b_approved_at := None; b_rejected_at := None |}.

(** What the transaction does to the file, case by case. *)
Definition reserve_outcome (now : datetime) (locked : bool)
    (data : gmap string string) (room_id : string) (db : database)
    : response * database :=
  if locked then (DatabaseLocked, db)
  else
    match data !! "start", data !! "end" with
    | Some start, Some end_ =>
        if 0 <? count_conflicts room_id start end_ db then (Conflict, db)
        else
          match data !! "faculty", data !! "purpose" with
          | Some faculty, Some purpose =>
              (Created (next_rowid db) (get data "priority" "normal"),
               {| bookings := bookings db ++
                    [new_row now data room_id faculty purpose start end_ db];
                  bookings_seq := next_rowid db;
                  timetable := timetable db |})
          | _, _ => (Failed, db)
          end
    | _, _ => (Failed, db)
    end.

Ltac run_sql :=
  cbv [on_connection reserve try_finally try_except begin_exclusive query execute
       commit rollback close item mbind mret mthrow sql_bind sql_ret sql_throw
       connect snapshot txn file insert_booking decide_booking update_where_id
       write_lock].

(** The overlap test of the design document on half-open intervals:
    [existing.start < requested.end AND existing.end > requested.start]. *)
Definition half_open_overlap (existing_start existing_end requested_start requested_end : string)
    : bool :=
  String.ltb existing_start requested_end && String.ltb requested_start existing_end.

(** Sample data. *)
Definition sample_request (room_id start end_ : string) : gmap string string :=
  {[ "room" := room_id; "start" := start; "end" := end_;
     "faculty" := "2000001@geu.ac.in"; "purpose" := "Seminar" ]}.

(** An approved booking of C-101, 10:00 to 11:00, and a file holding it. *)
Definition approved_row : booking :=
  {| b_id := 1; b_faculty := "2000001@geu.ac.in"; b_faculty_name := "";
     b_room := "C-101"; b_subject := ""; b_purpose := "Seminar";
     b_start_time := "2024-03-04 10:00"; b_end_time := "2024-03-04 11:00";
     b_notes := ""; b_status := "approved"; b_priority := "normal";
     b_timestamp := 1000000;
     b_approved_at := Some 2000000; b_rejected_at := None |}.

Definition one_approved : database :=
  {| bookings := [approved_row]; bookings_seq := 1; timetable := [] |}.

(** Two pending requests of normal priority, made an hour apart. *)
Definition two_pending : database :=
  {| bookings :=
       [{| b_id := 1; b_faculty := "2000001@geu.ac.in"; b_faculty_name := "";
           b_room := "C-101"; b_subject := ""; b_purpose := "Seminar";
           b_start_time := "2024-03-04 10:00"; b_end_time := "2024-03-04 11:00";
           b_notes := ""; b_status := "pending"; b_priority := "normal";
           b_timestamp := 0;
           b_approved_at := None; b_rejected_at := None |};
        {| b_id := 2; b_faculty := "2000001@geu.ac.in"; b_faculty_name := "";
           b_room := "L-201"; b_subject := ""; b_purpose := "Seminar";
           b_start_time := "2024-03-05 10:00"; b_end_time := "2024-03-05 11:00";
           b_notes := ""; b_status := "pending"; b_priority := "normal";
           b_timestamp := 3600000000;
           b_approved_at := None; b_rejected_at := None |}];
     bookings_seq := 2;
     timetable := [] |}.

(** A pending request whose priority is not one of the four levels. *)
Definition odd_priority : database :=
  {| bookings :=
       [{| b_id := 1; b_faculty := "2000001@geu.ac.in"; b_faculty_name := "";
           b_room := "C-101"; b_subject := ""; b_purpose := "Seminar";
           b_start_time := "2024-03-04 10:00"; b_end_time := "2024-03-04 11:00";
           b_notes := ""; b_status := "pending"; b_priority := "asap";
           b_timestamp := 0;
           b_approved_at := None; b_rejected_at := None |}];
     bookings_seq := 1;
     timetable := [] |}.

Definition slot (p : pc) : Z := if in_flight p then 1 else 0.

(** The room whose lock a slot holder has still to take. *)
Definition waits_for (p : pc) : option string :=
  match p with
  | Holding data => data !! "room"
  | AtLock room_id _ => Some room_id
  | _ => None
  end.

(** Five requests holding a slot each. *)
Definition five_in_flight : pool :=
  {| shared := with_semaphore 0 (boot empty_database);
     threads :=
       map (fun room_id =>
              Holding (sample_request room_id "2024-03-04 10:00" "2024-03-04 11:00"))
           ["C-101"; "C-101"; "L-201"; "SH-301"; "L-201"] |}.




(** Ascending in a key and, among equal keys, in the order [R]. *)
Definition by_key_then {A} (key : A -> Z) (R : A -> A -> Prop) (a b : A) : Prop :=
  key a < key b \/ (key a = key b /\ R a b).

(** ** Vocabulary of the further properties *)

(** Byte-wise order of two texts, as SQLite compares them. *)
Definition text_lt (a b : string) : Prop := String.ltb a b = true.
Definition text_le (a b : string) : Prop := String.leb a b = true.

(** The same body posted once at each of the given instants, one call after
    the other. *)
Fixpoint create_bookings (nows : list datetime) (data : gmap string string)
    (s : server) : option (list response * server) :=
  match nows with
  | [] => Some ([], s)
  | now :: later =>
      match create_booking now false data s with
      | Some (r, s1) =>
          match create_bookings later data s1 with
          | Some (rs, s2) => Some (r :: rs, s2)
          | None => None
          end
      | None => None
      end
  end.

(** No approved booking of the room in the table. *)
Definition no_approved (room_id : string) (db : database) : Prop :=
  forall b, In b (bookings db) -> b_room b = room_id -> b_status b <> "approved".

(** Is the thread inside [with room_lock:] for this room? *)
Definition in_room (room_id : string) (p : pc) : bool :=
  match p with
  | InRoom r _ => String.eqb r room_id
  | _ => false
  end.

Definition count_where (f : pc -> bool) (ts : list pc) : Z :=
  Z.of_nat (length (List.filter f ts)).

Definition returned (p : pc) : bool :=
  match p with
  | Returned _ => true
  | _ => false
  end.

(** The columns of a booking that no handler writes after the insertion. *)
Definition fixed_part (b : booking)
    : Z * string * string * string * string * string * string * string * string
      * string * datetime :=
  (b_id b, b_faculty b, b_faculty_name b, b_room b, b_subject b, b_purpose b,
   b_start_time b, b_end_time b, b_notes b, b_priority b, b_timestamp b).

(** Five requests in flight: the first inside the section of C-101, the
    second waiting for the lock of C-101. *)
Definition one_in_room : pool :=
  {| shared :=
       with_room_locks {[ "C-101" := true ]}
                       (with_semaphore 0 (boot empty_database));
     threads :=
       [InRoom "C-101" (sample_request "C-101" "2024-03-04 10:00" "2024-03-04 11:00");
        AtLock "C-101" (sample_request "C-101" "2024-03-04 10:00" "2024-03-04 11:00");
        Holding (sample_request "L-201" "2024-03-04 10:00" "2024-03-04 11:00");
        Holding (sample_request "SH-301" "2024-03-04 10:00" "2024-03-04 11:00");
        Holding (sample_request "L-201" "2024-03-04 10:00" "2024-03-04 11:00")] |}.

(** The order [ORDER BY status ASC, id DESC] puts distinct rows in. *)
Definition status_then_newest (a b : booking) : Prop :=
  text_lt (b_status a) (b_status b)
  \/ (b_status a = b_status b /\ b_id b < b_id a).

(** A table with an approved, two pending and a rejected booking. *)
Definition mixed_statuses : database :=
  {| bookings :=
       [approved_row;
        {| b_id := 2; b_faculty := "2000002@geu.ac.in"; b_faculty_name := "";
           b_room := "L-201"; b_subject := ""; b_purpose := "Lab";
           b_start_time := "2024-03-05 10:00"; b_end_time := "2024-03-05 11:00";
           b_notes := ""; b_status := "pending"; b_priority := "low";
           b_timestamp := 3000000;
           b_approved_at := None; b_rejected_at := None |};
        {| b_id := 3; b_faculty := "2000002@geu.ac.in"; b_faculty_name := "";
           b_room := "SH-301"; b_subject := ""; b_purpose := "Talk";
           b_start_time := "2024-03-06 10:00"; b_end_time := "2024-03-06 11:00";
           b_notes := ""; b_status := "rejected"; b_priority := "high";
           b_timestamp := 4000000;
           b_approved_at := None; b_rejected_at := Some 5000000 |};
        {| b_id := 4; b_faculty := "2000001@geu.ac.in"; b_faculty_name := "";
           b_room := "C-101"; b_subject := ""; b_purpose := "Exam";
           b_start_time := "2024-03-07 10:00"; b_end_time := "2024-03-07 11:00";
           b_notes := ""; b_status := "pending"; b_priority := "urgent";
           b_timestamp := 6000000;
           b_approved_at := None; b_rejected_at := None |}];
     bookings_seq := 4;
     timetable :=
       [{| tt_day := "Monday"; tt_time := "09:00-10:00"; tt_room := "L-201";
           tt_faculty := "Dr. Iyer"; tt_subject := "DBMS"; tt_semester := "4" |}] |}.

(** Does an approved booking cover the instant, both ends included, as
    [get_empty_rooms] asks it of SQLite? *)
Definition covers (sql_datetime : string -> option string) (instant : string)
    (b : booking) : Prop :=
  exists starts at_ ends,
    sql_datetime (b_start_time b) = Some starts
    /\ sql_datetime instant = Some at_
    /\ sql_datetime (b_end_time b) = Some ends
    /\ text_le starts at_ /\ text_le at_ ends.

(** ** Accounts: [init_db] and [/api/login] *)

Definition HOD_EMAIL : string := "deveshsir@geu.ac.in".

(** [FACULTY_NAMES], in the order the dict is written. *)
Definition FACULTY_NAMES : list (string * string) :=
  [("2000001@geu.ac.in", "Prof. Gupta");
   ("2000002@geu.ac.in", "Dr. Iyer");
   ("2000003@geu.ac.in", "Prof. Joshi");
   ("2000004@geu.ac.in", "Dr. Khan");
   ("2000005@geu.ac.in", "Prof. Kapoor");
   ("2000006@geu.ac.in", "Prof. Kaur");
   ("2000007@geu.ac.in", "Dr. Mehta");
   ("2000008@geu.ac.in", "Prof. Nair");
   ("2000009@geu.ac.in", "Prof. Patel");
   ("2000010@geu.ac.in", "Dr. Rao");
   ("2000011@geu.ac.in", "Prof. Reddy");
   ("2000012@geu.ac.in", "Dr. Sharma");
   ("2000013@geu.ac.in", "Prof. Singh")].

Definition ALLOWED_EMAILS : gset string :=
  list_to_set
    ["deveshsir@geu.ac.in";
     "2000001@geu.ac.in"; "2000002@geu.ac.in"; "2000003@geu.ac.in";
     "2000004@geu.ac.in"; "2000005@geu.ac.in"; "2000006@geu.ac.in";
     "2000007@geu.ac.in"; "2000008@geu.ac.in"; "2000009@geu.ac.in";
     "2000010@geu.ac.in"; "2000011@geu.ac.in"; "2000012@geu.ac.in";
     "2000013@geu.ac.in"].

(** A row of [users]; [password] may be NULL. *)
Record user := {
  u_id : Z;
  u_email : string;
  u_password : option string;
  u_role : string;
  u_name : string;
  u_first_login : Z;
  u_created_at : datetime
}.

(** The table [users] with its [sqlite_sequence] entry. *)
Record accounts := {
  users : list user;
  users_seq : Z
}.

Definition no_accounts : accounts := {| users := []; users_seq := 0 |}.

(** [SELECT COUNT( * ) FROM users WHERE email = ?] *)
Definition count_email (email : string) (a : accounts) : Z :=
  Z.of_nat (length (List.filter (fun u => String.eqb (u_email u) email) (users a))).

(** [INSERT INTO users (email, password, role, name, first_login, created_at)] *)
Definition insert_user (email : string) (password : option string)
    (role name : string) (first_login : Z) (created_at : datetime) (a : accounts)
    : accounts :=
  let rowid := fold_right Z.max (users_seq a) (map u_id (users a)) + 1 in
  {| users := users a ++
       [{| u_id := rowid; u_email := email; u_password := password; u_role := role;
           u_name := name; u_first_login := first_login;
           u_created_at := created_at |}];
     users_seq := rowid |}.

(** The part of [init_db] that fills [users]; [now] stands for every
    [datetime.now()] of the call. *)
Definition init_db (now : datetime) (a : accounts) : accounts :=
  let a :=
    if count_email HOD_EMAIL a =? 0
    then insert_user HOD_EMAIL (Some "qwerty123") "hod" "Dr. Devesh" 0 now a
    else a in
  fold_left
    (fun a '(email, name) =>
       if count_email email a =? 0
       then insert_user email None "faculty" name 1 now a
       else a)
    FACULTY_NAMES a.

(** *** JSON values

    What [request.json] hands to [login] under a key: Python's [None], a
    [bool], an [int], a [float], a [str], a [list] or a [dict]. *)
#[warnings="-register-all"]
Inductive json :=
| JNull
| JBool (b : bool)
| JInt (n : Z)
| JFloat (x : spec_float)
| JString (s : string)
| JArray (items : list json)
| JObject (members : list (string * json)).

(** Python's truth value of an object: [not v] is its negation. *)
Definition truthy (v : json) : bool :=
  match v with
  | JNull => false
  | JBool b => b
  | JInt n => negb (n =? 0)
  | JFloat (S754_zero _) => false
  | JFloat _ => true
  | JString s => negb (String.eqb s "")
  | JArray items => match items with [] => false | _ => true end
  | JObject members => match members with [] => false | _ => true end
  end.

(** [v.strip()]: only a [str] has the method; on anything else the
    attribute lookup raises. *)
Definition strip_of (strip : string -> string) (v : json) : option string :=
  match v with
  | JString s => Some (strip s)
  | _ => None
  end.

(** [v == text] for a [str] [text]: a [str] equals no object of another
    type. *)
Definition is_text (v : json) (text : string) : bool :=
  match v with
  | JString s => String.eqb s text
  | _ => false
  end.

(** [column == v] for what a TEXT column holds, a [str] or [None] for NULL. *)
Definition same_text (column : option string) (v : json) : bool :=
  match column, v with
  | Some text, JString s => String.eqb text s
  | None, JNull => true
  | _, _ => false
  end.

(** What a column of TEXT affinity holds once [v] has been bound to the
    parameter that sets it; [None] when [sqlite3] refuses the value (an
    [int] outside 64 bits, a [list], a [dict]) and raises.  A [bool] is
    bound as the integer 1 or 0, a number is turned into its text, NULL
    stays NULL.  [real_text] is SQLite's text of a REAL, NULL for a NaN. *)
Definition text_column (real_text : spec_float -> option string) (v : json)
    : option (option string) :=
  match v with
  | JNull => Some None
  | JBool b => Some (Some (if b then "1" else "0"))
  | JInt n => if int64 n then Some (Some (pretty n)) else None
  | JFloat x => Some (real_text x)
  | JString s => Some (Some s)
  | JArray _ | JObject _ => None
  end.

Inductive login_response :=
| LoggedIn (message role email name : string) (first_login : option bool)  (* 200 *)
| Refused (code : Z) (message : string).

(** [UPDATE users SET password = ?, first_login = 0 WHERE email = ?], with
    what the column [password] comes to hold. *)
Definition set_password (password : option string) (email : string)
    (a : accounts) : accounts :=
  {| users :=
       map (fun u =>
              if String.eqb (u_email u) email
              then {| u_id := u_id u; u_email := u_email u;
                      u_password := password; u_role := u_role u;
                      u_name := u_name u; u_first_login := 0;
                      u_created_at := u_created_at u |}
              else u)
           (users a);
     users_seq := users_seq a |}.

Section Login.

(** Python's [str.strip()], and SQLite's text of a REAL. *)
Variable strip : string -> string.
Variable real_text : spec_float -> option string.

(** The [try] block of [login]; [None] when it raises.  The only statement
    that writes is the [UPDATE] of a first login, and what raises does so
    before it has run. *)
Definition login_body (data : gmap string json) (a : accounts)
    : option (login_response * accounts) :=
  email ← strip_of strip (get data "email" (JString ""));
  let password := get data "password" (JString "") in
  let role := get data "role" (JString "") in
  if String.eqb email "" || negb (truthy password) then
    Some (Refused 400 "Email and password are required", a)
  else if bool_decide (email ∉ ALLOWED_EMAILS) then
    Some (Refused 401
            "Unauthorized email ID. Only assigned faculty emails are allowed.", a)
  else
    let user := find (fun u => String.eqb (u_email u) email) (users a) in
    if is_text role "hod" then
      if negb (String.eqb email HOD_EMAIL) then
        Some (Refused 401 "Invalid HOD email ID", a)
      else
        match user with
        | Some u =>
            if same_text (u_password u) password && String.eqb (u_role u) "hod"
            then Some (LoggedIn "Login successful" "hod" email (u_name u) None, a)
            else Some (Refused 401 "Invalid credentials", a)
        | None => Some (Refused 401 "Invalid credentials", a)
        end
    else if is_text role "faculty" then
      match user with
      | None =>
          Some (Refused 401 "Faculty account not found. Contact administrator.", a)
      | Some u =>
          if u_first_login u =? 1 then
            stored ← text_column real_text password;
            Some (LoggedIn
                    "Password set successfully! Please remember this password for future logins."
                    "faculty" email (u_name u) (Some true),
                  set_password stored email a)
          else if negb (same_text (u_password u) password) then
            Some (Refused 401 "Invalid password", a)
          else
            Some (LoggedIn "Login successful" "faculty" email (u_name u) (Some false), a)
      end
    else Some (Refused 400 "Invalid role", a).

(** [login]: the [except] clause answers 500 to whatever the block raises. *)
Definition login (data : gmap string json) (a : accounts)
    : login_response * accounts :=
  match login_body data a with
  | Some answer => answer
  | None => (Refused 500 "Server error", a)
  end.

End Login.

(** One step of [init_db]: insert the account unless the email has a row. *)
Definition ensure_user (now : datetime) (password : option string)
    (role : string) (first_login : Z) (a : accounts) (email name : string)
    : accounts :=
  if count_email email a =? 0
  then insert_user email password role name first_login now a
  else a.

Definition ensure_faculty (now : datetime) (l : list (string * string))
    (a : accounts) : accounts :=
  fold_left (fun a en => ensure_user now None "faculty" 1 a (fst en) (snd en)) l a.

(** The columns of an account that [login] never writes. *)
Definition account_identity (u : user) : Z * string * string * string * datetime :=
  (u_id u, u_email u, u_role u, u_name u, u_created_at u).

(** [SELECT * FROM users WHERE email = ?] followed by [fetchone()]. *)
Definition account_of (email : string) (a : accounts) : option user :=
  find (fun u => String.eqb (u_email u) email) (users a).

(** ** Catalogue: [/api/rooms] and [/api/faculty] *)

(** [SELECT DISTINCT column FROM timetable ORDER BY column] *)
Definition distinct_ordered (column : timetable_row -> string) (db : database)
    : list string :=
  sort_by String.leb (remove_dups (map column (timetable db))).

(** [get_faculty] *)
Definition get_faculty (db : database) : list string :=
  distinct_ordered tt_faculty db.

(** One entry of the answer of [get_rooms]. *)
Record room_info := {
  r_id : string;
  r_type : string;
  r_capacity : string
}.

(** Type and capacity by the prefix of the room name. *)
Definition describe_room (room_name : string) : room_info :=
  if String.prefix "A" room_name || String.prefix "B" room_name then
    {| r_id := room_name; r_type := "Classroom"; r_capacity := "60 Students" |}
  else if String.prefix "Lab" room_name then
    {| r_id := room_name; r_type := "Computer Lab"; r_capacity := "35 Systems" |}
  else if String.prefix "Seminar" room_name then
    {| r_id := room_name; r_type := "Seminar Hall"; r_capacity := "100 People" |}
  else if String.prefix "LT" room_name then
    {| r_id := room_name; r_type := "Lecture Theatre"; r_capacity := "80 Students" |}
  else
    {| r_id := room_name; r_type := "Room"; r_capacity := "Various" |}.

(** [get_rooms] *)
Definition get_rooms (db : database) : list room_info :=
  map describe_room (distinct_ordered tt_room db).

(** A timetable that names some rooms and teachers more than once, out of
    order. *)
Definition campus : database :=
  {| bookings := []; bookings_seq := 0;
     timetable :=
       map (fun rf =>
              {| tt_day := "Monday"; tt_time := "09:00-10:00"; tt_room := fst rf;
                 tt_faculty := snd rf; tt_subject := "DBMS"; tt_semester := "4" |})
           [("Lab-2", "Dr. Rao"); ("A-101", "Dr. Iyer"); ("Lab-2", "Dr. Iyer");
            ("LT-1", "Prof. Singh"); ("Seminar Hall", "Dr. Rao");
            ("C-101", "Dr. Khan"); ("B-12", "Dr. Iyer"); ("A-101", "Dr. Khan")] |}.

(** The events of the lock that the server issues: [get_bookings] takes and
    gives back the read side; nothing takes the write side. *)
Definition read_side (e : rw_event) : bool :=
  match e with
  | AcquireRead _ | ReleaseRead => true
  | _ => false
  end.

Definition acquired (evs : list rw_event) : list nat :=
  flat_map (fun e => match e with AcquireRead t => [t] | _ => [] end) evs.

Definition released (evs : list rw_event) : Z :=
  Z.of_nat (length (List.filter (fun e => match e with ReleaseRead => true | _ => false end)
                                evs)).

(** * Properties *)

(** ** Aging *)

Lemma aging_bonus_quot (now created_at : datetime) :
  int_of (total_seconds (now - created_at) / 3600 / 24) = (now - created_at) ÷ day_us.
Proof.
  unfold int_of, total_seconds, Qdiv, Qmult, Qinv; cbn [Qnum Qden].
  rewrite !Z.mul_1_r. reflexivity.
Qed.

Lemma calculate_priority_with_aging_quot (now base created_at : Z) :
  calculate_priority_with_aging now base created_at
  = Z.max 1 (base - (now - created_at) ÷ day_us).
Proof.
  unfold calculate_priority_with_aging. cbv zeta.
  rewrite aging_bonus_quot. reflexivity.
Qed.

Lemma effective_priority_formula_div (rank created_at now : Z) :
  effective_priority_formula rank created_at now
  = Z.max 1 (rank - (now - created_at) / day_us).
Proof.
  unfold effective_priority_formula, elapsed_hours, Qfloor, Qdiv, Qmult, Qinv;
    cbn [Qnum Qden].
  rewrite Z.mul_1_r. reflexivity.
Qed.

Lemma rank_of_level (level : string) :
  In level ["urgent"; "high"; "normal"; "low"] ->
  In (level, dict_get PRIORITY_LEVELS level 3)
     [("urgent", 1); ("high", 2); ("normal", 3); ("low", 4)].
Proof.
  cbn [In]. intros [<- | [<- | [<- | [<- | []]]]]; cbn; tauto.
Qed.

(** C4. For a base priority among urgent, high, normal, low (ranks 1, 2, 3,
    4) and a current time not before the creation time, the computed
    priority is [max(1, rank - floor(ageHours / 24))]; it is at least 1; it
    does not grow when more time has passed; and a low request is at
    priority 1 once 72 hours have passed. *)
Theorem calculate_priority_with_aging_spec
    (level : string) (created_at now : datetime) :
  In level ["urgent"; "high"; "normal"; "low"] ->
  created_at <= now ->
  In (level, dict_get PRIORITY_LEVELS level 3)
     [("urgent", 1); ("high", 2); ("normal", 3); ("low", 4)]
  /\ calculate_priority_with_aging now (dict_get PRIORITY_LEVELS level 3) created_at
     = effective_priority_formula (dict_get PRIORITY_LEVELS level 3) created_at now
  /\ 1 <= calculate_priority_with_aging now (dict_get PRIORITY_LEVELS level 3) created_at
  /\ (forall later : datetime, now <= later ->
        calculate_priority_with_aging later (dict_get PRIORITY_LEVELS level 3) created_at
        <= calculate_priority_with_aging now (dict_get PRIORITY_LEVELS level 3) created_at)
  /\ calculate_priority_with_aging (created_at + 72 * 3600 * 1000000)
       (dict_get PRIORITY_LEVELS "low" 3) created_at = 1.
Proof.
  intros Hlevel Hnow.
  split; [exact (rank_of_level level Hlevel)|].
  generalize (dict_get PRIORITY_LEVELS level 3); intros rank.
  rewrite !calculate_priority_with_aging_quot, effective_priority_formula_div.
  split; [|split; [|split]].
  - rewrite Z.quot_div_nonneg; [reflexivity | lia | reflexivity].
  - lia.
  - intros later Hlater. rewrite calculate_priority_with_aging_quot.
    rewrite !Z.quot_div_nonneg by (unfold day_us; lia).
    assert ((now - created_at) / day_us <= (later - created_at) / day_us)
      by (apply Z.div_le_mono; unfold day_us; lia).
    lia.
  - replace (created_at + 72 * 3600 * 1000000 - created_at) with (3 * day_us)
      by (unfold day_us; lia).
    rewrite Z.quot_mul by (unfold day_us; lia). reflexivity.
Qed.

Lemma calculate_priority_with_aging_spec_witness :
  In "low" ["urgent"; "high"; "normal"; "low"]
  /\ 0 <= 100000000000
  /\ calculate_priority_with_aging 100000000000 (dict_get PRIORITY_LEVELS "low" 3) 0
     = effective_priority_formula (dict_get PRIORITY_LEVELS "low" 3) 0 100000000000.
Proof.
  assert (Hlevel : In "low" ["urgent"; "high"; "normal"; "low"]) by (simpl; tauto).
  assert (Hnow : 0 <= 100000000000) by lia.
  split; [exact Hlevel|]. split; [exact Hnow|].
  exact (proj1 (proj2 (calculate_priority_with_aging_spec
                         "low" 0 100000000000 Hlevel Hnow))).
Defined.

(** At the day boundaries up to the third day the binary64 quotients give
    the bonus of the exact ones. *)
Example aging_bonus_binary64_boundaries :
  map aging_bonus_binary64
      [0; day_us - 1; day_us; 2 * day_us - 1; 2 * day_us; 3 * day_us - 1; 3 * day_us]
  = map (fun d => d ÷ day_us)
        [0; day_us - 1; day_us; 2 * day_us - 1; 2 * day_us; 3 * day_us - 1; 3 * day_us].
Proof. vm_compute. reflexivity. Qed.

(** ** The reservation transaction *)

Lemma reserve_on_connection now locked data room_id db :
  on_connection (reserve now locked data room_id) db
  = (Ok (fst (reserve_outcome now locked data room_id db)),
     snd (reserve_outcome now locked data room_id db)).
Proof.
  unfold reserve_outcome.
  destruct locked; [reflexivity|].
  run_sql.
  destruct (data !! "start") as [start|]; [|reflexivity].
  destruct (data !! "end") as [end_|]; [|reflexivity].
  destruct (0 <? count_conflicts room_id start end_ db); [reflexivity|].
  destruct (data !! "faculty") as [faculty|]; [|reflexivity].
  destruct (data !! "purpose") as [purpose|]; reflexivity.
Qed.

Lemma lock_held_get_room_lock room_id locks :
  lock_held room_id (get_room_lock room_id locks) = lock_held room_id locks.
Proof.
  unfold get_room_lock, lock_held.
  destruct (locks !! room_id) eqn:E; [rewrite E; reflexivity|].
  rewrite lookup_insert_eq. reflexivity.
Qed.

(** The whole call, for an admitted request that names a room whose lock
    is free. *)
Lemma create_booking_through now locked data s room_id :
  booking_semaphore s <> 0 ->
  data !! "room" = Some room_id ->
  lock_held room_id (room_locks s) = false ->
  exists s',
    create_booking now locked data s
    = Some (fst (reserve_outcome now locked data room_id (store s)), s')
    /\ store s' = snd (reserve_outcome now locked data room_id (store s))
    /\ booking_semaphore s' = booking_semaphore s
    /\ lock_held room_id (room_locks s') = false.
Proof.
  intros Hsem Hroom Hfree.
  unfold create_booking, acquire_nonblocking.
  destruct (Z.eqb_spec (booking_semaphore s) 0) as [|_]; [contradiction|].
  rewrite Hroom. cbn [room_locks with_semaphore with_room_locks].
  rewrite lock_held_get_room_lock, Hfree.
  unfold locked_section. cbn [store with_room_locks with_semaphore room_locks].
  rewrite reserve_on_connection.
  eexists. split; [reflexivity|].
  cbn [store booking_semaphore room_locks with_semaphore with_room_locks with_store].
  split; [reflexivity|]. split; [unfold release; lia|].
  unfold lock_held. rewrite lookup_insert_eq. reflexivity.
Qed.

(** How a call can end: turned away at the semaphore, stopped by the missing
    key [room], or through the transaction. *)
Lemma create_booking_cases now locked data s r s' :
  create_booking now locked data s = Some (r, s') ->
  (r = ServiceBusy /\ s' = s)
  \/ (r = Unhandled (KeyError "room") /\ store s' = store s)
  \/ exists room_id,
       data !! "room" = Some room_id
       /\ (r, store s') = reserve_outcome now locked data room_id (store s).
Proof.
  unfold create_booking, acquire_nonblocking.
  destruct (booking_semaphore s =? 0); [intros [= <- <-]; left; split; reflexivity|].
  destruct (data !! "room") as [room_id|];
    [|intros [= <- <-]; right; left; split; reflexivity].
  cbn [room_locks with_semaphore with_room_locks].
  destruct (lock_held room_id _); [discriminate|].
  unfold locked_section. cbn [store with_room_locks with_semaphore room_locks].
  rewrite reserve_on_connection.
  intros [= <- <-]. right. right. exists room_id. split; [reflexivity|].
  cbn [store with_semaphore with_room_locks with_store].
  destruct (reserve_outcome now locked data room_id (store s)); reflexivity.
Qed.

(** C6. When the call answers Conflict, no row was written: the bookings
    file is exactly what it was before the call. *)
Theorem conflict_writes_nothing now locked data s s' :
  create_booking now locked data s = Some (Conflict, s') ->
  store s' = store s.
Proof.
  intros H.
  apply create_booking_cases in H as [[? _] | [[? _] | (room_id & _ & H)]];
    [discriminate | discriminate |].
  unfold reserve_outcome in H.
  destruct locked; [discriminate|].
  destruct (data !! "start") as [start|]; [|discriminate].
  destruct (data !! "end") as [end_|]; [|discriminate].
  destruct (0 <? count_conflicts room_id start end_ (store s)).
  - injection H as ->. reflexivity.
  - destruct (data !! "faculty"), (data !! "purpose"); discriminate.
Qed.

(** [one_approved] is what a request and its approval leave behind. *)
Example one_approved_reached :
  exists s,
    create_booking 1000000 false
      (sample_request "C-101" "2024-03-04 10:00" "2024-03-04 11:00")
      (boot empty_database) = Some (Created 1 "normal", s)
    /\ approve_booking 2000000 false 1 (store s)
       = (Ok (Ack "Booking for C-101 has been approved"), one_approved).
Proof. eexists. split; vm_compute; reflexivity. Qed.

Lemma conflict_writes_nothing_witness :
  exists s',
    create_booking 3000000 false
      (sample_request "C-101" "2024-03-04 10:30" "2024-03-04 11:30") (boot one_approved)
    = Some (Conflict, s')
    /\ store s' = store (boot one_approved).
Proof.
  eexists. split.
  - vm_compute. reflexivity.
  - apply (conflict_writes_nothing 3000000 false
             (sample_request "C-101" "2024-03-04 10:30" "2024-03-04 11:30")
             (boot one_approved)).
    vm_compute. reflexivity.
Defined.

(** C1, evaluated.  C-101 has an approved booking 10:00 to 11:00.  A request
    for C-101 from 09:00 to 12:00 contains it, so the two overlap under the
    half-open test; the call does not answer Conflict but inserts the
    request as row 2. *)
Theorem contained_booking_not_detected :
  half_open_overlap "2024-03-04 10:00" "2024-03-04 11:00"
                    "2024-03-04 09:00" "2024-03-04 12:00" = true
  /\ count_conflicts "C-101" "2024-03-04 09:00" "2024-03-04 12:00" one_approved = 0
  /\ exists s',
       create_booking 3000000 false
         (sample_request "C-101" "2024-03-04 09:00" "2024-03-04 12:00") (boot one_approved)
       = Some (Created 2 "normal", s')
       /\ map (fun b => (b_id b, b_status b, b_start_time b, b_end_time b))
              (bookings (store s'))
          = [(1, "approved", "2024-03-04 10:00", "2024-03-04 11:00");
             (2, "pending", "2024-03-04 09:00", "2024-03-04 12:00")].
Proof.
  split; [reflexivity|]. split; [reflexivity|].
  eexists. split; vm_compute; reflexivity.
Qed.

(** C3, refuted.  A request whose end is a day before its start is
    answered with success and stored. *)
Lemma reversed_interval_is_stored :
  String.leb "2024-03-04 10:00" "2024-03-05 10:00" = true
  /\ exists s',
       create_booking 1000000 false
         (sample_request "C-101" "2024-03-05 10:00" "2024-03-04 10:00")
         (boot empty_database)
       = Some (Created 1 "normal", s')
       /\ map (fun b => (b_id b, b_status b, b_start_time b, b_end_time b))
              (bookings (store s'))
          = [(1, "pending", "2024-03-05 10:00", "2024-03-04 10:00")].
Proof.
  split; [reflexivity|].
  eexists. split; vm_compute; reflexivity.
Qed.

(** C3, amended.  The interval is not validated.  A request with
    [start >= end] that is admitted, names a room whose lock is free, finds
    the store unlocked and carries faculty and purpose is treated like any
    other: Conflict, with nothing written, when an approved row of the room
    passes the re-check; otherwise success, and the row is appended as
    pending with that start and end. *)
Theorem reversed_interval_not_validated
    now data s room_id start end_ faculty purpose :
  data !! "room" = Some room_id ->
  data !! "start" = Some start ->
  data !! "end" = Some end_ ->
  data !! "faculty" = Some faculty ->
  data !! "purpose" = Some purpose ->
  String.leb end_ start = true ->
  booking_semaphore s <> 0 ->
  lock_held room_id (room_locks s) = false ->
  exists s',
    create_booking now false data s
    = Some (if 0 <? count_conflicts room_id start end_ (store s) then Conflict
            else Created (next_rowid (store s)) (get data "priority" "normal"),
            s')
    /\ bookings (store s')
       = if 0 <? count_conflicts room_id start end_ (store s) then bookings (store s)
         else (bookings (store s)
               ++ [new_row now data room_id faculty purpose start end_ (store s)])%list.
Proof.
  intros Hroom Hstart Hend Hfac Hpur _ Hsem Hfree.
  destruct (create_booking_through now false data s room_id Hsem Hroom Hfree)
    as (s' & Hcall & Hstore & _).
  exists s'. rewrite Hcall, Hstore. unfold reserve_outcome.
  rewrite Hstart, Hend, Hfac, Hpur.
  destruct (0 <? count_conflicts room_id start end_ (store s)); split; reflexivity.
Qed.

Lemma reversed_interval_not_validated_witness :
  String.leb "2024-03-04 10:00" "2024-03-05 10:00" = true
  /\ exists s',
       create_booking 1000000 false
         (sample_request "C-101" "2024-03-05 10:00" "2024-03-04 10:00")
         (boot empty_database)
       = Some (Created 1 "normal", s')
       /\ length (bookings (store s')) = 1%nat.
Proof.
  split; [reflexivity|].
  destruct (reversed_interval_not_validated 1000000
              (sample_request "C-101" "2024-03-05 10:00" "2024-03-04 10:00")
              (boot empty_database) "C-101" "2024-03-05 10:00" "2024-03-04 10:00"
              "2000001@geu.ac.in" "Seminar")
    as (s' & Hcall & Hrows);
    try (vm_compute; reflexivity).
  - vm_compute. discriminate.
  - exists s'. split; [exact Hcall|]. rewrite Hrows. reflexivity.
Defined.

(** ** Sorting *)

Lemma insert_sorted_perm {A} (le : A -> A -> bool) x l :
  Permutation (insert_sorted le x l) (x :: l).
Proof.
  induction l as [|y l IH]; cbn; [reflexivity|].
  destruct (le x y); [reflexivity|].
  rewrite IH. apply perm_swap.
Qed.

Lemma sort_by_cons {A} (le : A -> A -> bool) x l :
  sort_by le (x :: l) = insert_sorted le x (sort_by le l).
Proof. reflexivity. Qed.

Lemma sort_by_perm {A} (le : A -> A -> bool) l : Permutation (sort_by le l) l.
Proof.
  induction l as [|x l IH]; [reflexivity|].
  rewrite sort_by_cons, insert_sorted_perm. constructor. exact IH.
Qed.

Section InsertionSort.
Context {A : Type} (le : A -> A -> bool) (R : A -> A -> Prop) (P : A -> Prop).
Hypothesis R_trans : forall a b c, R a b -> R b c -> R a c.
Hypothesis le_R : forall a b, P a -> P b -> le a b = true -> R a b.
Hypothesis nle_R : forall a b, P a -> P b -> le a b = false -> R b a.

Lemma insert_sorted_sorted x l :
  P x -> Forall P l -> StronglySorted R l -> StronglySorted R (insert_sorted le x l).
Proof using R_trans le_R nle_R.
  intros Px Pl Hs. induction Hs as [|y l Hs IH Hy]; cbn.
  - repeat constructor.
  - apply Forall_cons_iff in Pl as [Py Pl].
    destruct (le x y) eqn:E.
    + constructor; [constructor; assumption|].
      constructor; [auto|].
      eapply Forall_impl; [exact Hy|]. cbv beta. eauto.
    + constructor; [auto|].
      rewrite (insert_sorted_perm le x l). constructor; auto.
Qed.

Lemma sort_by_sorted l : Forall P l -> StronglySorted R (sort_by le l).
Proof using R_trans le_R nle_R.
  induction 1 as [|x l Px Pl IH]; [constructor|].
  rewrite sort_by_cons. apply insert_sorted_sorted; auto.
  rewrite (sort_by_perm le l). exact Pl.
Qed.
End InsertionSort.

(** Sorting by a key keeps, among equal keys, the order the list had. *)
Section StableByKey.
Context {A : Type} (key : A -> Z) (R : A -> A -> Prop).

Lemma insert_by_key_sorted x l :
  Forall (R x) l -> StronglySorted (by_key_then key R) l ->
  StronglySorted (by_key_then key R)
    (insert_sorted (fun a b => key a <=? key b) x l).
Proof.
  intros Hx Hs. induction Hs as [|y l Hs IH Hy]; cbn.
  - repeat constructor.
  - apply Forall_cons_iff in Hx as [Hxy Hx].
    destruct (Z.leb_spec (key x) (key y)) as [Hle|Hgt].
    + constructor; [constructor; assumption|].
      constructor.
      { unfold by_key_then.
        destruct (Z.eq_dec (key x) (key y)); [right; split; assumption | left; lia]. }
      rewrite Forall_forall in Hy, Hx |- *. intros z Hz.
      specialize (Hy z Hz). specialize (Hx z Hz). unfold by_key_then in *.
      destruct (Z.eq_dec (key x) (key z)); [right; split; assumption | left; lia].
    + constructor; [auto|].
      rewrite (insert_sorted_perm _ x l).
      constructor; [unfold by_key_then; lia | exact Hy].
Qed.

Lemma sort_by_key_stable l :
  StronglySorted R l ->
  StronglySorted (by_key_then key R) (sort_by (fun a b => key a <=? key b) l).
Proof.
  induction 1 as [|x l Hs IH Hx]; [constructor|].
  rewrite sort_by_cons. apply insert_by_key_sorted; [|exact IH].
  rewrite (sort_by_perm _ l). exact Hx.
Qed.
End StableByKey.

(** ** Listing *)

Lemma get_bookings_perm now faculty status db :
  Permutation (get_bookings now faculty status db)
    (map (list_row now) (List.filter (listing_where faculty status) (bookings db))).
Proof.
  unfold get_bookings, sort_by_key.
  destruct (bool_decide (status = Some "pending")).
  - rewrite sort_by_perm. apply Permutation_map, sort_by_perm.
  - apply Permutation_map, sort_by_perm.
Qed.

Lemma get_bookings_In now faculty status db x :
  In x (get_bookings now faculty status db) ->
  exists r, x = list_row now r /\ In r (bookings db)
            /\ listing_where faculty status r = true.
Proof.
  intros Hx.
  apply (Permutation_in _ (get_bookings_perm now faculty status db)) in Hx.
  apply in_map_iff in Hx as (r & <- & Hr).
  apply filter_In in Hr as [Hr Hw]. eauto.
Qed.

Lemma listing_where_pending faculty r :
  listing_where faculty (Some "pending") r = true -> b_status r = "pending".
Proof.
  unfold listing_where. cbn [given]. intros H.
  apply andb_prop in H as [_ H]. cbn in H.
  apply bool_decide_eq_true in H. congruence.
Qed.

Lemma dict_get_unknown_level (level : string) :
  ~ In level ["urgent"; "high"; "normal"; "low"] ->
  dict_get PRIORITY_LEVELS level 3 = 3.
Proof.
  cbn [In]. intros H. unfold PRIORITY_LEVELS, dict_get.
  repeat match goal with
         | |- context [String.eqb ?a level] =>
             destruct (String.eqb_spec a level); [exfalso; tauto|]
         end.
  reflexivity.
Qed.

Lemma strictly_descending_ids (l : list booking) :
  NoDup (map b_id l) ->
  StronglySorted (fun a b => b_id b <= b_id a) l ->
  StronglySorted (fun a b => b_id b < b_id a) l.
Proof.
  intros Hnd Hs. induction Hs as [|x l Hs IH Hx]; [constructor|].
  cbn in Hnd. apply NoDup_cons in Hnd as [Hnotin Hnd].
  constructor; [auto|].
  rewrite Forall_forall in Hx |- *. intros y Hy.
  specialize (Hx y Hy). cbv beta in *.
  assert (b_id y <> b_id x).
  { intros E. apply Hnotin. rewrite <- E.
    apply list_elem_of_In, in_map, list_elem_of_In, Hy. }
  lia.
Qed.

Lemma StronglySorted_map {A B} (f : A -> B) (R : B -> B -> Prop) l :
  StronglySorted (fun a b => R (f a) (f b)) l -> StronglySorted R (map f l).
Proof.
  induction 1 as [|x l Hs IH Hx]; cbn; [constructor|].
  constructor; [exact IH|]. apply Forall_map. exact Hx.
Qed.

Lemma rows_newest_first (l : list booking) :
  Forall (fun r => b_status r = "pending") l ->
  StronglySorted (fun a b => b_id b <= b_id a) (sort_by status_asc_id_desc l).
Proof.
  apply sort_by_sorted; cbv beta.
  - intros; lia.
  - intros a b Ha Hb. unfold status_asc_id_desc. rewrite Ha, Hb. cbn.
    intros H. apply Z.leb_le in H. exact H.
  - intros a b Ha Hb. unfold status_asc_id_desc. rewrite Ha, Hb. cbn.
    intros H. apply Z.leb_gt in H. lia.
Qed.

(** C5, amended.  The listing with the filter [status=pending] holds the
    pending rows (of the faculty asked for), each with its effective
    priority, in ascending order of effective priority; rows of equal
    effective priority come in descending order of id, the most recently
    inserted first. *)
Theorem pending_listing_order now faculty db :
  NoDup (map b_id (bookings db)) ->
  StronglySorted
    (by_key_then sort_key (fun a b => b_id (row b) < b_id (row a)))
    (get_bookings now faculty (Some "pending") db)
  /\ Forall (fun x => b_status (row x) = "pending"
                     /\ effectivePriority x = Some (sort_key x))
       (get_bookings now faculty (Some "pending") db)
  /\ Permutation (get_bookings now faculty (Some "pending") db)
       (map (list_row now)
            (List.filter (listing_where faculty (Some "pending")) (bookings db))).
Proof.
  intros Hkey. split; [|split; [|apply get_bookings_perm]].
  - unfold get_bookings. rewrite bool_decide_eq_true_2 by reflexivity.
    apply sort_by_key_stable, StronglySorted_map.
    apply strictly_descending_ids.
    + rewrite (sort_by_perm status_asc_id_desc).
      clear -Hkey. induction (bookings db) as [|b l IH]; [constructor|].
      cbn in Hkey. apply NoDup_cons in Hkey as [Hb Hl]. cbn [List.filter].
      destruct (listing_where faculty (Some "pending") b); [|auto].
      cbn. apply NoDup_cons. split; [|auto].
      intros Hin. apply Hb.
      apply list_elem_of_In, in_map_iff in Hin as (r & <- & Hr).
      apply filter_In in Hr as [Hr _]. apply list_elem_of_In, in_map, Hr.
    + apply rows_newest_first. apply Forall_forall. intros r Hr.
      apply list_elem_of_In, filter_In in Hr as [_ Hr].
      exact (listing_where_pending _ _ Hr).
  - apply Forall_forall. intros x Hx.
    apply list_elem_of_In, get_bookings_In in Hx as (r & -> & _ & Hw).
    apply listing_where_pending in Hw.
    unfold sort_key, list_row. cbn [row effectivePriority]. rewrite Hw. cbn.
    split; reflexivity.
Qed.

Example two_pending_reached :
  exists s1 s2,
    create_booking 0 false
      (sample_request "C-101" "2024-03-04 10:00" "2024-03-04 11:00")
      (boot empty_database) = Some (Created 1 "normal", s1)
    /\ create_booking 3600000000 false
         (sample_request "L-201" "2024-03-05 10:00" "2024-03-05 11:00") s1
       = Some (Created 2 "normal", s2)
    /\ store s2 = two_pending.
Proof. do 2 eexists. repeat split; vm_compute; reflexivity. Qed.

(** C5, refuted.  Two hours after the first of the two requests was made
    both have effective priority 3; the listing puts the one created later
    (row 2) before the one created earlier (row 1). *)
Lemma equal_priority_newest_first :
  map (fun x => (b_id (row x), b_timestamp (row x), effectivePriority x))
      (get_bookings 7200000000 None (Some "pending") two_pending)
  = [(2, 3600000000, Some 3); (1, 0, Some 3)].
Proof. vm_compute. reflexivity. Qed.

Lemma pending_listing_order_witness :
  NoDup (map b_id (bookings two_pending))
  /\ StronglySorted
       (by_key_then sort_key (fun a b => b_id (row b) < b_id (row a)))
       (get_bookings 7200000000 None (Some "pending") two_pending).
Proof.
  assert (H : NoDup (map b_id (bookings two_pending))).
  { apply (bool_decide_unpack _). vm_compute. exact I. }
  split; [exact H|].
  exact (proj1 (pending_listing_order 7200000000 None two_pending H)).
Defined.

(** ** Default priority *)

(** C10.  [normal] has rank 3.  A request without the key [priority] is
    stored with priority [normal].  Every pending row whose priority is
    none of urgent, high, normal, low is listed, whenever it passes the
    filters of the call, with the effective priority computed from base
    rank 3, and no entry of such a row carries anything else. *)
Theorem missing_or_unknown_priority_is_normal :
  dict_get PRIORITY_LEVELS "normal" 3 = 3
  /\ (forall now locked data s booking_id priority s',
        data !! "priority" = None ->
        create_booking now locked data s = Some (Created booking_id priority, s') ->
        priority = "normal"
        /\ exists r,
             bookings (store s') = (bookings (store s) ++ [r])%list
             /\ b_id r = booking_id /\ b_status r = "pending"
             /\ b_priority r = "normal")
  /\ (forall now faculty status db x,
        In x (get_bookings now faculty status db) ->
        b_status (row x) = "pending" ->
        ~ In (b_priority (row x)) ["urgent"; "high"; "normal"; "low"] ->
        effectivePriority x
        = Some (calculate_priority_with_aging now 3 (b_timestamp (row x))))
  /\ (forall now faculty status db r,
        In r (bookings db) ->
        listing_where faculty status r = true ->
        b_status r = "pending" ->
        ~ In (b_priority r) ["urgent"; "high"; "normal"; "low"] ->
        In {| row := r;
              effectivePriority :=
                Some (calculate_priority_with_aging now 3 (b_timestamp r)) |}
           (get_bookings now faculty status db)).
Proof.
  split; [reflexivity|]. split; [|split].
  - intros now locked data s booking_id priority s' Hkey Hcall.
    apply create_booking_cases in Hcall as [[? _] | [[? _] | (room_id & _ & Hout)]];
      [discriminate | discriminate |].
    unfold reserve_outcome in Hout.
    destruct locked; [discriminate|].
    destruct (data !! "start") as [start|]; [|discriminate].
    destruct (data !! "end") as [end_|]; [|discriminate].
    destruct (0 <? count_conflicts room_id start end_ (store s)); [discriminate|].
    destruct (data !! "faculty") as [faculty|]; [|discriminate].
    destruct (data !! "purpose") as [purpose|]; [|discriminate].
    injection Hout as -> -> ->.
    unfold get at 1. rewrite Hkey. split; [reflexivity|].
    eexists. split; [reflexivity|]. cbn. unfold get. rewrite Hkey. auto.
  - intros now faculty status db x Hx Hpending Hlevel.
    apply get_bookings_In in Hx as (r & -> & _ & _).
    cbn [row list_row effectivePriority] in *.
    rewrite Hpending, (dict_get_unknown_level _ Hlevel). reflexivity.
  - intros now faculty status db r Hr Hwhere Hpending Hlevel.
    apply (Permutation_in _ (Permutation_sym (get_bookings_perm now faculty status db))).
    apply in_map_iff. exists r. split; [|apply filter_In; auto].
    unfold list_row. rewrite Hpending, (dict_get_unknown_level _ Hlevel).
    reflexivity.
Qed.

Example odd_priority_reached :
  exists s,
    create_booking 0 false
      (<["priority" := "asap"]>
         (sample_request "C-101" "2024-03-04 10:00" "2024-03-04 11:00"))
      (boot empty_database) = Some (Created 1 "asap", s)
    /\ store s = odd_priority.
Proof. eexists. split; vm_compute; reflexivity. Qed.

Lemma missing_or_unknown_priority_is_normal_witness :
  (exists s' r,
     create_booking 0 false
       (sample_request "C-101" "2024-03-04 10:00" "2024-03-04 11:00")
       (boot empty_database) = Some (Created 1 "normal", s')
     /\ bookings (store s') = [r] /\ b_priority r = "normal")
  /\ (exists x,
        In x (get_bookings 90000000000 None (Some "pending") odd_priority)
        /\ b_id (row x) = 1 /\ b_priority (row x) = "asap"
        /\ effectivePriority x = Some 2)
  /\ (forall x,
        In x (get_bookings 90000000000 None (Some "pending") odd_priority) ->
        effectivePriority x = Some 2).
Proof.
  split; [|split].
  - destruct (create_booking_through 0 false
                (sample_request "C-101" "2024-03-04 10:00" "2024-03-04 11:00")
                (boot empty_database) "C-101") as (s' & Hcall & _);
      [vm_compute; discriminate | reflexivity | reflexivity |].
    change (fst (reserve_outcome _ _ _ _ _)) with (Created 1 "normal") in Hcall.
    destruct (proj1 (proj2 missing_or_unknown_priority_is_normal)
                0 false
                (sample_request "C-101" "2024-03-04 10:00" "2024-03-04 11:00")
                (boot empty_database) 1 "normal" s' eq_refl Hcall)
      as (_ & r & Hrows & _ & _ & Hprio).
    exists s', r. auto.
  - eexists. split.
    + apply (proj2 (proj2 (proj2 missing_or_unknown_priority_is_normal))
               90000000000 None (Some "pending") odd_priority
               (hd approved_row (bookings odd_priority))).
      * left. reflexivity.
      * reflexivity.
      * reflexivity.
      * cbn. intros [H | [H | [H | [H | []]]]]; discriminate H.
    + repeat split.
  - intros x Hx.
    assert (Hx' := Hx). vm_compute in Hx'. destruct Hx' as [E | []].
    rewrite (proj1 (proj2 (proj2 missing_or_unknown_priority_is_normal))
               _ _ _ _ x Hx).
    + rewrite <- E. vm_compute. reflexivity.
    + rewrite <- E. reflexivity.
    + rewrite <- E. cbn. intros [H | [H | [H | [H | []]]]]; discriminate H.
Defined.

(** ** Decisions *)





(** What a decision leaves in the file. *)
Lemma decided_store set verb locked booking_id db :
  snd (on_connection (decide_booking set verb locked booking_id) db)
  = if int64 booking_id && negb locked
    then snd (update_where_id set booking_id db)
    else db.
Proof.
  unfold decide_booking, bind_int.
  destruct (int64 booking_id); [|reflexivity].
  destruct locked; [reflexivity|].
  run_sql. destruct (select_by_id booking_id _); reflexivity.
Qed.




(** ** Availability *)

Lemma leb_refl (s : string) : String.leb s s = true.
Proof. destruct (String.leb_total s s); assumption. Qed.

(** An approved booking that has started by the instant asked about and
    whose end is that very instant keeps its room out of the answer,
    whatever [datetime()] makes of the texts. *)
Lemma ending_booking_occupies
    (sql_datetime : string -> option string) day time db b starts at_ :
  In b (bookings db) ->
  b_status b = "approved" ->
  sql_datetime (b_start_time b) = Some starts ->
  sql_datetime (b_end_time b) = Some at_ ->
  sql_datetime (day ++ " " ++ time) = Some at_ ->
  String.leb starts at_ = true ->
  ~ In (b_room b) (get_empty_rooms sql_datetime day time db).
Proof.
  intros Hb Hst Hs He Ht Hle Hin.
  unfold get_empty_rooms in Hin. apply filter_In in Hin as [_ Hin].
  apply bool_decide_eq_true in Hin. apply Hin. clear Hin.
  apply elem_of_list_to_set, elem_of_app. right.
  apply elem_of_remove_dups, list_elem_of_In, in_map, filter_In.
  split; [exact Hb|].
  rewrite Hst, Hs, He, Ht. cbn [sql_le]. rewrite Hle, leb_refl. reflexivity.
Qed.

(** C9, evaluated.  C-101 has an approved booking from 10:00 to 11:00 and
    the timetable is empty.  Asked about 11:00, the handler leaves C-101
    out of the empty rooms, while a request for C-101 that starts at 11:00
    passes the re-check of [create_booking]; asked about 11:01 the handler
    lists C-101. *)
Theorem room_occupied_at_booking_end :
  get_empty_rooms datetime_text "2024-03-04" "11:00" one_approved
  = ["L-201"; "SH-301"]
  /\ get_empty_rooms datetime_text "2024-03-04" "11:01" one_approved
     = ["C-101"; "L-201"; "SH-301"]
  /\ count_conflicts "C-101" "2024-03-04 11:00" "2024-03-04 12:00" one_approved = 0.
Proof. repeat split; vm_compute; reflexivity. Qed.

Example ending_booking_occupies_example :
  ~ In "C-101" (get_empty_rooms datetime_text "2024-03-04" "11:00" one_approved).
Proof.
  refine (ending_booking_occupies datetime_text "2024-03-04" "11:00" one_approved
            approved_row "2024-03-04 10:00:00" "2024-03-04 11:00:00" _ _ _ _ _ _);
    [left; reflexivity | reflexivity ..].
Qed.

(** ** The semaphore *)

Lemma slots_held_cons p ts : slots_held (p :: ts) = slot p + slots_held ts.
Proof.
  unfold slots_held, slot. cbn [List.filter].
  destruct (in_flight p); cbn [length]; lia.
Qed.

Lemma slots_held_nonneg ts : 0 <= slots_held ts.
Proof. unfold slots_held. lia. Qed.

Lemma slots_held_arrive ts data : slots_held (ts ++ [Arrived data]) = slots_held ts.
Proof.
  induction ts as [|p ts IH]; [reflexivity|].
  cbn [app]. rewrite !slots_held_cons, IH. reflexivity.
Qed.

Lemma slots_held_insert ts i p p' :
  ts !! i = Some p ->
  slots_held (<[i := p']> ts) = slots_held ts - slot p + slot p'.
Proof.
  revert i. induction ts as [|q ts IH]; intros [|i] H; try discriminate.
  - injection H as ->.
    change (<[0%nat := p']> (p :: ts)) with (p' :: ts).
    rewrite !slots_held_cons. lia.
  - change (<[S i := p']> (q :: ts)) with (q :: <[i := p']> ts).
    change (ts !! i = Some p) in H.
    rewrite !slots_held_cons, (IH i H). lia.
Qed.

Lemma locked_section_semaphore now locked data room_id s :
  booking_semaphore (snd (locked_section now locked data room_id s))
  = booking_semaphore s.
Proof.
  unfold locked_section.
  destruct (on_connection _ _). reflexivity.
Qed.

(** A move of a thread changes the counter by exactly the slot it takes or
    gives back, and never takes it below zero. *)
Lemma thread_step_slots now locked p s p' s' :
  thread_step now locked p s = Some (p', s') ->
  booking_semaphore s' + slot p' = booking_semaphore s + slot p
  /\ (0 <= booking_semaphore s -> 0 <= booking_semaphore s').
Proof.
  destruct p as [data|data|room_id data|room_id data|r|r]; cbn [thread_step].
  - unfold acquire_nonblocking.
    destruct (Z.eqb_spec (booking_semaphore s) 0);
      intros [= <- <-]; cbn; lia.
  - destruct (data !! "room"); intros [= <- <-]; cbn; lia.
  - destruct (lock_held room_id (room_locks s)); [discriminate|].
    intros [= <- <-]; cbn; lia.
  - pose proof (locked_section_semaphore now locked data room_id s) as H.
    destruct (locked_section now locked data room_id s) as [r s1].
    intros [= <- <-]. cbn in *. lia.
  - intros [= <- <-]; cbn; unfold release; lia.
  - discriminate.
Qed.

Lemma semaphore_accounts db P :
  reachable (started db) P ->
  booking_semaphore (shared P) + slots_held (threads P) = 5
  /\ 0 <= booking_semaphore (shared P).
Proof.
  induction 1 as [|P Q _ [IH IH0] Hstep].
  - split; [reflexivity | cbn; lia].
  - destruct Hstep as [P data | P i now locked p p' s' Hi Hp | P now locked id | P now locked id];
      cbn [shared threads].
    + rewrite slots_held_arrive. auto.
    + rewrite (slots_held_insert _ _ _ _ Hi).
      destruct (thread_step_slots _ _ _ _ _ _ Hp). lia.
    + cbn. auto.
    + cbn. auto.
Qed.

Lemma create_booking_semaphore now locked data s r s' :
  create_booking now locked data s = Some (r, s') ->
  booking_semaphore s' = booking_semaphore s.
Proof.
  unfold create_booking, acquire_nonblocking.
  destruct (booking_semaphore s =? 0); [intros [= <- <-]; reflexivity|].
  destruct (data !! "room") as [room_id|].
  - cbn [room_locks with_semaphore with_room_locks].
    destruct (lock_held room_id _); [discriminate|].
    match goal with
    | |- context [locked_section ?a ?b ?c ?d ?e] =>
        pose proof (locked_section_semaphore a b c d e) as H;
        destruct (locked_section a b c d e) as [r1 s1]
    end.
    intros [= <- <-]. cbn in *. unfold release. lia.
  - intros [= <- <-]. cbn. unfold release. lia.
Qed.

(** A request thread run on its own goes the way [create_booking] does. *)
Lemma create_booking_run_alone now locked data s :
  run_alone 5 now locked (Arrived data) s = create_booking now locked data s.
Proof.
  unfold create_booking. cbn [run_alone thread_step].
  destruct (acquire_nonblocking (booking_semaphore s)) as [[|] v]; [|reflexivity].
  cbn [run_alone thread_step].
  destruct (data !! "room") as [room_id|]; [|reflexivity].
  cbn [run_alone thread_step].
  destruct (lock_held room_id _); [reflexivity|].
  cbn [run_alone thread_step].
  destruct (locked_section _ _ _ _ _) as [r s1]. reflexivity.
Qed.

(** A thread left to run gives back the slot it holds, if any, by the time
    it has returned. *)
Lemma run_alone_slots n now locked p s r s' :
  run_alone n now locked p s = Some (r, s') ->
  booking_semaphore s' = booking_semaphore s + slot p.
Proof.
  revert p s. induction n as [|n IH]; intros p s.
  - destruct p; cbn [run_alone]; try discriminate.
    intros [= <- <-]. cbn. lia.
  - destruct p as [data|data|room_id data|room_id data|r0|r0];
      try (intros [= <- <-]; cbn; lia);
      cbn [run_alone];
      match goal with
      | |- context [thread_step now locked ?q s] =>
          destruct (thread_step now locked q s) as [[p1 s1]|] eqn:E; [|discriminate];
          intros H; apply IH in H;
          destruct (thread_step_slots _ _ _ _ _ _ E) as [Hs _]; lia
      end.
Qed.

(** A slot holder whose room lock is free comes to its end within four
    moves, whatever happens in the transaction. *)
Lemma slot_holder_returns now locked p s :
  in_flight p = true ->
  (forall room_id, waits_for p = Some room_id ->
                   lock_held room_id (room_locks s) = false) ->
  exists r s', run_alone 4 now locked p s = Some (r, s').
Proof.
  intros Hp Hfree.
  destruct p as [data|data|room_id data|room_id data|r0|r0]; try discriminate.
  - cbn [waits_for] in Hfree. cbn [run_alone thread_step].
    destruct (data !! "room") as [room_id|]; [|eexists; eexists; reflexivity].
    cbn [run_alone thread_step room_locks with_room_locks].
    rewrite lock_held_get_room_lock, (Hfree room_id eq_refl).
    cbn [run_alone thread_step].
    destruct (locked_section _ _ _ _ _) as [r1 s1].
    eexists; eexists; reflexivity.
  - cbn [run_alone thread_step]. rewrite (Hfree room_id eq_refl).
    cbn [run_alone thread_step].
    destruct (locked_section _ _ _ _ _) as [r1 s1].
    eexists; eexists; reflexivity.
  - cbn [run_alone thread_step].
    destruct (locked_section _ _ _ _ _) as [r1 s1].
    eexists; eexists; reflexivity.
  - eexists; eexists; reflexivity.
Qed.

(** C7.  The semaphore starts at 5 and, in every state the server can
    reach, its counter plus the number of requests holding a slot is 5, so
    at most 5 requests are in flight.  A request at the semaphore always
    moves at once: with 5 in flight it is answered ServiceBusy and nothing
    changes; with fewer it takes a slot.  A request that holds a slot does
    come to its end once its room lock is free, within four moves and
    whatever the response (success, Conflict, the 503 of a locked file, the
    500 of a failed booking, or the [KeyError] of a body without room), and
    by then it has given the slot back; so a call that finds a slot and its
    room lock free returns and leaves the counter as it found it.  No move
    into the end keeps a slot, and no completed call changes the counter. *)
Theorem admission_limiter db P :
  reachable (started db) P ->
  booking_semaphore (shared (started db)) = 5
  /\ booking_semaphore (shared P) + slots_held (threads P) = 5
  /\ 0 <= slots_held (threads P) <= 5
  /\ (forall now locked data,
        thread_step now locked (Arrived data) (shared P)
        = if slots_held (threads P) =? 5
          then Some (Returned ServiceBusy, shared P)
          else Some (Holding data,
                     with_semaphore (booking_semaphore (shared P) - 1) (shared P)))
  /\ (forall now locked p r s',
        in_flight p = true ->
        thread_step now locked p (shared P) = Some (Returned r, s') ->
        booking_semaphore s' = booking_semaphore (shared P) + 1)
  /\ (forall now locked data s r s',
        create_booking now locked data s = Some (r, s') ->
        booking_semaphore s' = booking_semaphore s)
  /\ (forall now locked p s,
        in_flight p = true ->
        (forall room_id, waits_for p = Some room_id ->
                         lock_held room_id (room_locks s) = false) ->
        exists r s',
          run_alone 4 now locked p s = Some (r, s')
          /\ booking_semaphore s' = booking_semaphore s + 1)
  /\ (forall now locked data s,
        booking_semaphore s <> 0 ->
        (forall room_id, data !! "room" = Some room_id ->
                         lock_held room_id (room_locks s) = false) ->
        exists r s',
          create_booking now locked data s = Some (r, s')
          /\ r <> ServiceBusy
          /\ booking_semaphore s' = booking_semaphore s).
Proof.
  intros Hreach.
  destruct (semaphore_accounts db P Hreach) as [Hsum Hpos].
  pose proof (slots_held_nonneg (threads P)) as Hheld.
  split; [reflexivity|]. split; [exact Hsum|]. split; [lia|].
  split; [|split; [|split; [|split]]].
  - intros now locked data. cbn [thread_step]. unfold acquire_nonblocking.
    destruct (Z.eqb_spec (booking_semaphore (shared P)) 0),
             (Z.eqb_spec (slots_held (threads P)) 5); try lia; reflexivity.
  - intros now locked p r s' Hp Hstep.
    destruct (thread_step_slots _ _ _ _ _ _ Hstep) as [H _].
    unfold slot in H. rewrite Hp in H. cbn in H. lia.
  - intros now locked data s r s'. apply create_booking_semaphore.
  - intros now locked p s Hp Hfree.
    destruct (slot_holder_returns now locked p s Hp Hfree) as (r & s' & Hrun).
    exists r, s'. split; [exact Hrun|].
    rewrite (run_alone_slots _ _ _ _ _ _ _ Hrun). unfold slot. rewrite Hp. reflexivity.
  - intros now locked data s Hsem Hfree.
    destruct (data !! "room") as [room_id|] eqn:Hroom.
    + destruct (create_booking_through now locked data s room_id Hsem Hroom
                  (Hfree room_id eq_refl)) as (s' & Hcall & _ & Hsem' & _).
      eexists. exists s'. split; [exact Hcall|]. split; [|exact Hsem'].
      unfold reserve_outcome.
      destruct locked; [discriminate|].
      destruct (data !! "start"); [|discriminate].
      destruct (data !! "end"); [|discriminate].
      destruct (0 <? count_conflicts _ _ _ _); [discriminate|].
      destruct (data !! "faculty"); [|discriminate].
      destruct (data !! "purpose"); discriminate.
    + unfold create_booking, acquire_nonblocking.
      destruct (Z.eqb_spec (booking_semaphore s) 0) as [|_]; [contradiction|].
      rewrite Hroom. eexists. eexists. split; [reflexivity|].
      split; [discriminate|]. cbn. unfold release. lia.
Qed.

Lemma five_in_flight_reachable : reachable (started empty_database) five_in_flight.
Proof.
  pose (req := fun room_id =>
                 sample_request room_id "2024-03-04 10:00" "2024-03-04 11:00").
  pose (sem := fun v => with_semaphore v (boot empty_database)).
  assert (arrive : forall s ts d,
             reachable (started empty_database) {| shared := s; threads := ts |} ->
             reachable (started empty_database)
                       {| shared := s; threads := ts ++ [Arrived d] |}).
  { intros s ts d H. exact (reachable_step _ _ _ H (step_arrive _ d)). }
  assert (enter : forall v ts i d,
             reachable (started empty_database) {| shared := sem v; threads := ts |} ->
             ts !! i = Some (Arrived d) -> v <> 0 ->
             reachable (started empty_database)
                       {| shared := sem (v - 1);
                          threads := <[i := Holding d]> ts |}).
  { intros v ts i d H Hi Hv.
    refine (reachable_step _ _ _ H
              (step_thread {| shared := sem v; threads := ts |} i 0 false
                 (Arrived d) (Holding d) (sem (v - 1)) Hi _)).
    cbn [thread_step shared]. unfold acquire_nonblocking. cbn [booking_semaphore sem with_semaphore].
    destruct (Z.eqb_spec v 0); [contradiction | reflexivity]. }
  assert (H0 : reachable (started empty_database)
                         {| shared := sem 5; threads := [] |})
    by apply reachable_start.
  apply (arrive _ _ (req "C-101")) in H0.
  apply (arrive _ _ (req "C-101")) in H0.
  apply (arrive _ _ (req "L-201")) in H0.
  apply (arrive _ _ (req "SH-301")) in H0.
  apply (arrive _ _ (req "L-201")) in H0.
  apply (enter 5 _ 0%nat (req "C-101")) in H0; [|reflexivity|lia].
  apply (enter 4 _ 1%nat (req "C-101")) in H0; [|reflexivity|lia].
  apply (enter 3 _ 2%nat (req "L-201")) in H0; [|reflexivity|lia].
  apply (enter 2 _ 3%nat (req "SH-301")) in H0; [|reflexivity|lia].
  apply (enter 1 _ 4%nat (req "L-201")) in H0; [|reflexivity|lia].
  exact H0.
Defined.

(** With five requests in flight a sixth is turned away.  The first of the
    five then runs to its end, on the way of a stored booking, of a locked
    file, or (for a body without room) of the [KeyError]: each time it
    returns and the counter is back at 1, so that a request arriving then
    gets a slot. *)
Lemma admission_limiter_witness :
  reachable (started empty_database) five_in_flight
  /\ slots_held (threads five_in_flight) = 5
  /\ thread_step 0 false
       (Arrived (sample_request "C-101" "2024-03-04 12:00" "2024-03-04 13:00"))
       (shared five_in_flight)
     = Some (Returned ServiceBusy, shared five_in_flight)
  /\ (exists s',
        run_alone 4 0 false
          (Holding (sample_request "C-101" "2024-03-04 10:00" "2024-03-04 11:00"))
          (shared five_in_flight)
        = Some (Created 1 "normal", s')
        /\ booking_semaphore s' = 1
        /\ thread_step 0 false
             (Arrived (sample_request "C-101" "2024-03-04 12:00" "2024-03-04 13:00")) s'
           = Some (Holding (sample_request "C-101" "2024-03-04 12:00" "2024-03-04 13:00"),
                   with_semaphore 0 s'))
  /\ (exists s',
        run_alone 4 0 true
          (Holding (sample_request "C-101" "2024-03-04 10:00" "2024-03-04 11:00"))
          (shared five_in_flight)
        = Some (DatabaseLocked, s')
        /\ booking_semaphore s' = 1)
  /\ (exists s',
        run_alone 4 0 false (Holding ∅) (shared five_in_flight)
        = Some (Unhandled (KeyError "room"), s')
        /\ booking_semaphore s' = 1).
Proof.
  pose proof (admission_limiter empty_database five_in_flight
                five_in_flight_reachable)
    as (_ & _ & _ & Hsixth & _ & _ & Hreturns & _).
  split; [exact five_in_flight_reachable|]. split; [reflexivity|].
  split; [rewrite Hsixth; reflexivity|].
  split; [|split].
  - destruct (Hreturns 0 false
                (Holding (sample_request "C-101" "2024-03-04 10:00" "2024-03-04 11:00"))
                (shared five_in_flight) eq_refl) as (r & s' & Hrun & Hsem).
    { intros room_id [= <-]. reflexivity. }
    assert (Hr : r = Created 1 "normal").
    { assert (H := f_equal (option_map fst) Hrun). vm_compute in H.
      injection H as <-. reflexivity. }
    subst r. exists s'. split; [exact Hrun|]. split; [exact Hsem|].
    cbn [thread_step]. unfold acquire_nonblocking. rewrite Hsem. reflexivity.
  - destruct (Hreturns 0 true
                (Holding (sample_request "C-101" "2024-03-04 10:00" "2024-03-04 11:00"))
                (shared five_in_flight) eq_refl) as (r & s' & Hrun & Hsem).
    { intros room_id [= <-]. reflexivity. }
    assert (Hr : r = DatabaseLocked).
    { assert (H := f_equal (option_map fst) Hrun). vm_compute in H.
      injection H as <-. reflexivity. }
    subst r. exists s'. split; [exact Hrun | exact Hsem].
  - destruct (Hreturns 0 false (Holding ∅) (shared five_in_flight) eq_refl)
      as (r & s' & Hrun & Hsem).
    { intros room_id [=]. }
    assert (Hr : r = Unhandled (KeyError "room")).
    { assert (H := f_equal (option_map fst) Hrun). vm_compute in H.
      injection H as <-. reflexivity. }
    subst r. exists s'. split; [exact Hrun | exact Hsem].
Defined.

(** ** The reader-writer lock *)


Lemma acquire_read_granted t l :
  writers l <= 0 ->
  acquire_read t l
  = {| readers := readers l + 1; writers := writers l;
       read_ready := read_ready l; write_ready := write_ready l;
       woken := woken l; granted := granted l ++ [(t, Shared)];
       read_mutex := None; write_mutex := write_mutex l |}.
Proof.
  intros H. unfold acquire_read, test_read.
  destruct (Z.ltb_spec 0 (writers l)); [lia | reflexivity].
Qed.





(** ** The primary key

    The handlers keep the ids of [bookings] distinct, which is what the
    order of the pending listing relies on. *)

Lemma next_rowid_above db b : In b (bookings db) -> b_id b < next_rowid db.
Proof.
  unfold next_rowid. generalize (bookings_seq db).
  induction (bookings db) as [|c l IH]; intros seq Hb; [destruct Hb|].
  cbn [map fold_right]. destruct Hb as [<- | Hb].
  - lia.
  - specialize (IH seq Hb). lia.
Qed.

Lemma reserve_outcome_primary_key now locked data room_id db :
  NoDup (map b_id (bookings db)) ->
  NoDup (map b_id (bookings (snd (reserve_outcome now locked data room_id db)))).
Proof.
  intros Hkey. unfold reserve_outcome.
  destruct locked; [exact Hkey|].
  destruct (data !! "start") as [start|]; [|exact Hkey].
  destruct (data !! "end") as [end_|]; [|exact Hkey].
  destruct (0 <? count_conflicts room_id start end_ db); [exact Hkey|].
  destruct (data !! "faculty") as [faculty|]; [|exact Hkey].
  destruct (data !! "purpose") as [purpose|]; [|exact Hkey].
  cbn [snd bookings]. rewrite map_app. apply NoDup_app.
  split; [exact Hkey|]. split; [|cbn; apply NoDup_singleton].
  intros i Hi Hnew. cbn in Hnew. apply list_elem_of_singleton in Hnew. subst i.
  apply list_elem_of_In, in_map_iff in Hi as (b & Hid & Hb).
  apply next_rowid_above in Hb. lia.
Qed.

Lemma update_where_id_ids set booking_id db :
  (forall b, b_id (set b) = b_id b) ->
  map b_id (bookings (snd (update_where_id set booking_id db)))
  = map b_id (bookings db).
Proof.
  intros Hid. cbn [update_where_id snd bookings].
  induction (bookings db) as [|b l IH]; [reflexivity|].
  cbn [map]. rewrite IH. destruct (b_id b =? booking_id); [rewrite Hid|]; reflexivity.
Qed.

Lemma primary_key_reachable db P :
  NoDup (map b_id (bookings db)) ->
  reachable (started db) P ->
  NoDup (map b_id (bookings (store (shared P)))).
Proof.
  intros Hkey. induction 1 as [|P Q _ IH Hstep]; [exact Hkey|].
  destruct Hstep as [P data | P i now locked p p' s' Hi Hp | P now locked id | P now locked id];
    cbn [shared threads store with_store].
  - exact IH.
  - destruct p as [data|data|room_id data|room_id data|r|r]; cbn [thread_step] in Hp.
    + unfold acquire_nonblocking in Hp.
      destruct (booking_semaphore (shared P) =? 0); injection Hp as _ <-; exact IH.
    + destruct (data !! "room"); injection Hp as _ <-; exact IH.
    + destruct (lock_held room_id _); [discriminate|]. injection Hp as _ <-; exact IH.
    + unfold locked_section in Hp. rewrite reserve_on_connection in Hp.
      injection Hp as _ <-. cbn [store with_room_locks with_store].
      apply reserve_outcome_primary_key, IH.
    + injection Hp as _ <-; exact IH.
    + discriminate.
  - unfold approve_booking. rewrite decided_store.
    destruct (int64 id && negb locked); [|exact IH].
    rewrite update_where_id_ids by reflexivity. exact IH.
  - unfold reject_booking. rewrite decided_store.
    destruct (int64 id && negb locked); [|exact IH].
    rewrite update_where_id_ids by reflexivity. exact IH.
Qed.


(** * Further properties *)

(** ** The order of texts *)

Lemma ascii_compare_refl (c : ascii) : Ascii.compare c c = Eq.
Proof. unfold Ascii.compare. apply N.compare_refl. Qed.

Lemma ascii_compare_lt_trans (a b c : ascii) :
  Ascii.compare a b = Lt -> Ascii.compare b c = Lt -> Ascii.compare a c = Lt.
Proof.
  unfold Ascii.compare. rewrite !N.compare_lt_iff. apply N.lt_trans.
Qed.

Lemma string_compare_refl (s : string) : String.compare s s = Eq.
Proof.
  induction s as [|c s IH]; [reflexivity|].
  cbn. rewrite ascii_compare_refl. exact IH.
Qed.

Lemma string_compare_lt_trans (a b c : string) :
  String.compare a b = Lt -> String.compare b c = Lt -> String.compare a c = Lt.
Proof.
  revert b c. induction a as [|x a IH]; intros [|y b] [|z c]; cbn;
    try discriminate; try reflexivity.
  destruct (Ascii.compare x y) eqn:Exy; try discriminate.
  - apply Ascii.compare_eq_iff in Exy. subst y.
    destruct (Ascii.compare x z); try discriminate; [apply IH | reflexivity].
  - intros _. destruct (Ascii.compare y z) eqn:Eyz; try discriminate.
    + apply Ascii.compare_eq_iff in Eyz. subst z. rewrite Exy. reflexivity.
    + rewrite (ascii_compare_lt_trans x y z Exy Eyz). reflexivity.
Qed.

Lemma text_le_cases (a b : string) : text_le a b <-> text_lt a b \/ a = b.
Proof.
  unfold text_le, text_lt, String.leb, String.ltb. split.
  - destruct (String.compare a b) eqn:E; try discriminate.
    + right. apply String.compare_eq_iff, E.
    + left. reflexivity.
  - intros [H | ->]; [|rewrite string_compare_refl; reflexivity].
    destruct (String.compare a b); try discriminate; reflexivity.
Qed.

Lemma text_lt_trans (a b c : string) : text_lt a b -> text_lt b c -> text_lt a c.
Proof.
  unfold text_lt, String.ltb. intros Hab Hbc.
  destruct (String.compare a b) eqn:Eab; try discriminate.
  destruct (String.compare b c) eqn:Ebc; try discriminate.
  rewrite (string_compare_lt_trans a b c Eab Ebc). reflexivity.
Qed.

Lemma text_le_lt_trans (a b c : string) : text_le a b -> text_lt b c -> text_lt a c.
Proof.
  intros Hab Hbc. apply text_le_cases in Hab as [Hab | ->]; [|exact Hbc].
  exact (text_lt_trans a b c Hab Hbc).
Qed.

Lemma text_lt_le_trans (a b c : string) : text_lt a b -> text_le b c -> text_lt a c.
Proof.
  intros Hab Hbc. apply text_le_cases in Hbc as [Hbc | <-]; [|exact Hab].
  exact (text_lt_trans a b c Hab Hbc).
Qed.

Lemma text_le_trans (a b c : string) : text_le a b -> text_le b c -> text_le a c.
Proof.
  intros Hab Hbc. apply text_le_cases in Hab as [Hab | ->]; [|exact Hbc].
  apply text_le_cases. left. exact (text_lt_le_trans a b c Hab Hbc).
Qed.

Lemma text_lt_irrefl (a : string) : ~ text_lt a a.
Proof.
  unfold text_lt, String.ltb. rewrite string_compare_refl. discriminate.
Qed.

(** ** More on the reservation transaction *)

Lemma count_conflicts_positive room_id start end_ db :
  0 < count_conflicts room_id start end_ db
  <-> exists b, In b (bookings db) /\ conflicts_with room_id start end_ b = true.
Proof.
  unfold count_conflicts. induction (bookings db) as [|c l IH]; cbn [List.filter].
  - cbn. split; [lia | intros (b & [] & _)].
  - destruct (conflicts_with room_id start end_ c) eqn:E.
    + split; [intros _; exists c; split; [left; reflexivity | exact E]|].
      intros _. cbn [length]. lia.
    + rewrite IH. split.
      * intros (b & Hb & Hc). exists b. split; [right; exact Hb | exact Hc].
      * intros (b & [<- | Hb] & Hc); [congruence|]. exists b. auto.
Qed.

Lemma conflicts_with_spec room_id start end_ b :
  conflicts_with room_id start end_ b = true
  <-> b_room b = room_id /\ b_status b = "approved"
      /\ ((text_le (b_start_time b) start /\ text_lt start (b_end_time b))
          \/ (text_lt (b_start_time b) end_ /\ text_le end_ (b_end_time b))).
Proof.
  unfold conflicts_with, text_le, text_lt.
  rewrite !andb_true_iff, orb_true_iff, !andb_true_iff, !String.eqb_eq.
  tauto.
Qed.

(** X1.  A request whose start lies in an approved booking of the room
    (from its start on, before its end), or whose end lies in one (after
    its start, up to its end), is answered Conflict and nothing is
    written, whether or not it carries faculty and purpose. *)
Theorem endpoint_inside_approved_booking_is_refused
    now data s room_id start end_ b :
  booking_semaphore s <> 0 ->
  data !! "room" = Some room_id ->
  lock_held room_id (room_locks s) = false ->
  data !! "start" = Some start ->
  data !! "end" = Some end_ ->
  In b (bookings (store s)) ->
  b_room b = room_id ->
  b_status b = "approved" ->
  (text_le (b_start_time b) start /\ text_lt start (b_end_time b))
  \/ (text_lt (b_start_time b) end_ /\ text_le end_ (b_end_time b)) ->
  exists s', create_booking now false data s = Some (Conflict, s')
             /\ store s' = store s.
Proof.
  intros Hsem Hroom Hfree Hstart Hend Hb Hbroom Hbst Hin.
  destruct (create_booking_through now false data s room_id Hsem Hroom Hfree)
    as (s' & Hcall & Hstore & _).
  exists s'. rewrite Hcall, Hstore. unfold reserve_outcome. rewrite Hstart, Hend.
  assert (Hpos : 0 < count_conflicts room_id start end_ (store s)).
  { apply count_conflicts_positive. exists b. split; [exact Hb|].
    apply conflicts_with_spec. auto. }
  apply Z.ltb_lt in Hpos. rewrite Hpos. split; reflexivity.
Qed.

Lemma endpoint_inside_approved_booking_is_refused_witness :
  exists s',
    create_booking 3000000 false
      (sample_request "C-101" "2024-03-04 10:30" "2024-03-04 12:00") (boot one_approved)
    = Some (Conflict, s')
    /\ store s' = store (boot one_approved).
Proof.
  apply (endpoint_inside_approved_booking_is_refused 3000000
           (sample_request "C-101" "2024-03-04 10:30" "2024-03-04 12:00")
           (boot one_approved) "C-101" "2024-03-04 10:30" "2024-03-04 12:00"
           approved_row);
    try reflexivity.
  - vm_compute. discriminate.
  - left. reflexivity.
  - left. split; reflexivity.
Defined.

(** X2.  For a request with start before end, Conflict is only answered
    when some approved booking of the requested room overlaps the requested
    interval under the half-open test. *)
Theorem conflict_means_half_open_overlap now locked data s s' start end_ :
  data !! "start" = Some start ->
  data !! "end" = Some end_ ->
  text_lt start end_ ->
  create_booking now locked data s = Some (Conflict, s') ->
  exists room_id b,
    data !! "room" = Some room_id
    /\ In b (bookings (store s))
    /\ b_room b = room_id /\ b_status b = "approved"
    /\ half_open_overlap (b_start_time b) (b_end_time b) start end_ = true.
Proof.
  intros Hstart Hend Hlt Hcall.
  apply create_booking_cases in Hcall as [[? _] | [[? _] | (room_id & Hroom & Hout)]];
    [discriminate | discriminate |].
  unfold reserve_outcome in Hout. rewrite Hstart, Hend in Hout.
  destruct locked; [discriminate|].
  destruct (Z.ltb_spec 0 (count_conflicts room_id start end_ (store s))) as [Hpos|_].
  - apply count_conflicts_positive in Hpos as (b & Hb & Hc).
    apply conflicts_with_spec in Hc as (Hbroom & Hbst & Hc).
    exists room_id, b. repeat (split; [assumption|]).
    unfold half_open_overlap. apply andb_true_iff.
    destruct Hc as [[H1 H2] | [H1 H2]].
    + split; [exact (text_le_lt_trans _ _ _ H1 Hlt) | exact H2].
    + split; [exact H1 | exact (text_lt_le_trans _ _ _ Hlt H2)].
  - destruct (data !! "faculty"), (data !! "purpose"); discriminate.
Qed.

Lemma conflict_means_half_open_overlap_witness :
  exists room_id b,
    sample_request "C-101" "2024-03-04 10:30" "2024-03-04 12:00" !! "room" = Some room_id
    /\ In b (bookings (store (boot one_approved)))
    /\ b_room b = room_id /\ b_status b = "approved"
    /\ half_open_overlap (b_start_time b) (b_end_time b)
         "2024-03-04 10:30" "2024-03-04 12:00" = true.
Proof.
  destruct (create_booking_through 3000000 false
              (sample_request "C-101" "2024-03-04 10:30" "2024-03-04 12:00")
              (boot one_approved) "C-101") as (s' & Hcall & _);
    [vm_compute; discriminate | reflexivity | reflexivity |].
  change (fst (reserve_outcome _ _ _ _ _)) with Conflict in Hcall.
  exact (conflict_means_half_open_overlap 3000000 false
           (sample_request "C-101" "2024-03-04 10:30" "2024-03-04 12:00")
           (boot one_approved) s' "2024-03-04 10:30" "2024-03-04 12:00"
           eq_refl eq_refl eq_refl Hcall).
Defined.

(** What a call does to the store: nothing, unless it answers success, and
    then it appends one pending row that carries the returned id. *)
Lemma create_booking_effect now locked data s r s' :
  create_booking now locked data s = Some (r, s') ->
  (store s' = store s /\ forall booking_id priority, r <> Created booking_id priority)
  \/ exists room_id faculty purpose start end_,
       data !! "room" = Some room_id
       /\ data !! "faculty" = Some faculty /\ data !! "purpose" = Some purpose
       /\ data !! "start" = Some start /\ data !! "end" = Some end_
       /\ locked = false
       /\ count_conflicts room_id start end_ (store s) <= 0
       /\ r = Created (next_rowid (store s)) (get data "priority" "normal")
       /\ store s'
          = {| bookings := bookings (store s)
                 ++ [new_row now data room_id faculty purpose start end_ (store s)];
               bookings_seq := next_rowid (store s);
               timetable := timetable (store s) |}.
Proof.
  intros Hcall.
  apply create_booking_cases in Hcall
      as [[-> ->] | [[-> Hs] | (room_id & Hroom & Hout)]].
  - left. split; [reflexivity | discriminate].
  - left. split; [exact Hs | discriminate].
  - unfold reserve_outcome in Hout.
    destruct locked; [injection Hout as -> ->; left; split; [reflexivity|discriminate]|].
    destruct (data !! "start") as [start|];
      [|injection Hout as -> ->; left; split; [reflexivity|discriminate]].
    destruct (data !! "end") as [end_|];
      [|injection Hout as -> ->; left; split; [reflexivity|discriminate]].
    destruct (Z.ltb_spec 0 (count_conflicts room_id start end_ (store s)));
      [injection Hout as -> ->; left; split; [reflexivity|discriminate]|].
    destruct (data !! "faculty") as [faculty|];
      [|injection Hout as -> ->; left; split; [reflexivity|discriminate]].
    destruct (data !! "purpose") as [purpose|];
      [|injection Hout as -> ->; left; split; [reflexivity|discriminate]].
    injection Hout as -> ->. right.
    exists room_id, faculty, purpose, start, end_. repeat (split; [auto; fail|]).
    reflexivity.
Qed.

(** X3.  A call never removes or alters a row.  Either it answers success,
    and then the table is the old one followed by one new pending row whose
    id is the returned one and is larger than every id present before; or
    the table is exactly as it was. *)
Theorem create_booking_only_appends now locked data s r s' :
  create_booking now locked data s = Some (r, s') ->
  (exists booking_id priority row,
      r = Created booking_id priority
      /\ bookings (store s') = (bookings (store s) ++ [row])%list
      /\ b_id row = booking_id /\ b_status row = "pending"
      /\ b_approved_at row = None /\ b_rejected_at row = None
      /\ b_timestamp row = now
      /\ (forall b, In b (bookings (store s)) -> b_id b < booking_id))
  \/ ((forall booking_id priority, r <> Created booking_id priority)
      /\ store s' = store s).
Proof.
  intros Hcall.
  apply create_booking_effect in Hcall
      as [[Hs Hr] | (room_id & faculty & purpose & start & end_ & _ & _ & _ & _ & _
                     & _ & _ & -> & ->)].
  - right. auto.
  - left. do 3 eexists. split; [reflexivity|]. cbn [bookings].
    split; [reflexivity|]. cbn [new_row b_id b_status b_approved_at b_rejected_at b_timestamp].
    repeat (split; [reflexivity|]). intros b. apply next_rowid_above.
Qed.

Lemma create_booking_only_appends_witness :
  exists s' booking_id priority row,
    create_booking 3000000 false
      (sample_request "L-201" "2024-03-04 10:30" "2024-03-04 12:00") (boot one_approved)
    = Some (Created booking_id priority, s')
    /\ bookings (store s') = (bookings one_approved ++ [row])%list
    /\ b_id row = booking_id.
Proof.
  destruct (create_booking_through 3000000 false
              (sample_request "L-201" "2024-03-04 10:30" "2024-03-04 12:00")
              (boot one_approved) "L-201") as (s' & Hcall & _);
    [vm_compute; discriminate | reflexivity | reflexivity |].
  change (fst (reserve_outcome _ _ _ _ _)) with (Created 2 "normal") in Hcall.
  destruct (create_booking_only_appends _ _ _ _ _ _ Hcall)
    as [(booking_id & priority & row & Hr & Hrows & Hid & _) | [Hno _]].
  - exists s', booking_id, priority, row. rewrite <- Hr. auto.
  - exfalso. exact (Hno 2 "normal" eq_refl).
Defined.

Lemma reserve_outcome_no_interval now data room_id db :
  data !! "start" = None \/ data !! "end" = None ->
  reserve_outcome now false data room_id db = (Failed, db).
Proof.
  unfold reserve_outcome. intros [H | H]; rewrite H; [reflexivity|].
  destruct (data !! "start"); reflexivity.
Qed.

Lemma reserve_outcome_no_requester now data room_id db start end_ :
  data !! "start" = Some start -> data !! "end" = Some end_ ->
  data !! "faculty" = None \/ data !! "purpose" = None ->
  reserve_outcome now false data room_id db
  = (if 0 <? count_conflicts room_id start end_ db then Conflict else Failed, db).
Proof.
  unfold reserve_outcome. intros -> -> H.
  destruct (0 <? count_conflicts room_id start end_ db); [reflexivity|].
  destruct H as [H | H]; rewrite H; [reflexivity|].
  destruct (data !! "faculty"); reflexivity.
Qed.

(** X4.  How a request that holds a slot fails.  Without the key [room] the
    [KeyError] leaves the view, before any lock is touched.  With the store
    locked the answer is the 503 of the locked store, whatever else the
    body holds.  Without [start] or [end] the answer is the 500 of a failed
    booking.  Without [faculty] or [purpose] the re-check still runs first:
    Conflict if it finds a row, the 500 otherwise.  In all these cases the
    store and the semaphore are as before. *)
Theorem create_booking_failures now data s :
  booking_semaphore s <> 0 ->
  (data !! "room" = None ->
   forall locked,
     create_booking now locked data s
     = Some (Unhandled (KeyError "room"),
             with_semaphore (booking_semaphore s - 1 + 1) s))
  /\ (forall room_id,
        data !! "room" = Some room_id ->
        lock_held room_id (room_locks s) = false ->
        (exists s',
            create_booking now true data s = Some (DatabaseLocked, s')
            /\ store s' = store s /\ booking_semaphore s' = booking_semaphore s)
        /\ (data !! "start" = None \/ data !! "end" = None ->
            exists s',
              create_booking now false data s = Some (Failed, s')
              /\ store s' = store s /\ booking_semaphore s' = booking_semaphore s)
        /\ (forall start end_,
              data !! "start" = Some start -> data !! "end" = Some end_ ->
              data !! "faculty" = None \/ data !! "purpose" = None ->
              exists s',
                create_booking now false data s
                = Some (if 0 <? count_conflicts room_id start end_ (store s)
                        then Conflict else Failed, s')
                /\ store s' = store s
                /\ booking_semaphore s' = booking_semaphore s)).
Proof.
  intros Hsem. split.
  - intros Hroom locked. unfold create_booking, acquire_nonblocking.
    destruct (Z.eqb_spec (booking_semaphore s) 0); [contradiction|].
    rewrite Hroom. reflexivity.
  - intros room_id Hroom Hfree. split; [|split].
    + destruct (create_booking_through now true data s room_id Hsem Hroom Hfree)
        as (s' & Hcall & Hstore & Hsem' & _).
      exists s'. auto.
    + intros Hmiss.
      destruct (create_booking_through now false data s room_id Hsem Hroom Hfree)
        as (s' & Hcall & Hstore & Hsem' & _).
      rewrite (reserve_outcome_no_interval _ _ _ _ Hmiss) in Hcall, Hstore.
      exists s'. auto.
    + intros start end_ Hstart Hend Hmiss.
      destruct (create_booking_through now false data s room_id Hsem Hroom Hfree)
        as (s' & Hcall & Hstore & Hsem' & _).
      rewrite (reserve_outcome_no_requester _ _ _ _ _ _ Hstart Hend Hmiss)
        in Hcall, Hstore.
      exists s'. auto.
Qed.

Lemma create_booking_failures_witness :
  booking_semaphore (boot one_approved) <> 0
  /\ create_booking 0 false {[ "start" := "2024-03-04 10:00" ]} (boot one_approved)
     = Some (Unhandled (KeyError "room"), boot one_approved)
  /\ exists s',
       create_booking 0 false
         {[ "room" := "C-101"; "start" := "2024-03-04 10:30";
            "end" := "2024-03-04 10:45" ]} (boot one_approved)
       = Some (Conflict, s')
       /\ store s' = one_approved.
Proof.
  assert (Hsem : booking_semaphore (boot one_approved) <> 0)
    by (vm_compute; discriminate).
  split; [exact Hsem|]. split.
  - exact (proj1 (create_booking_failures 0 {[ "start" := "2024-03-04 10:00" ]}
                    (boot one_approved) Hsem) eq_refl false).
  - destruct (proj2 (create_booking_failures 0
                       {[ "room" := "C-101"; "start" := "2024-03-04 10:30";
                          "end" := "2024-03-04 10:45" ]}
                       (boot one_approved) Hsem) "C-101")
      as (_ & _ & H); [reflexivity | reflexivity |].
    destruct (H "2024-03-04 10:30" "2024-03-04 10:45") as (s' & Hcall & Hstore & _);
      [reflexivity | reflexivity | left; reflexivity |].
    exists s'. split; [exact Hcall | exact Hstore].
Defined.

Lemma no_approved_no_conflict room_id start end_ db :
  no_approved room_id db -> count_conflicts room_id start end_ db <= 0.
Proof.
  intros Hno.
  destruct (Z.ltb_spec 0 (count_conflicts room_id start end_ db)) as [Hpos|]; [|lia].
  apply count_conflicts_positive in Hpos as (b & Hb & Hc).
  apply conflicts_with_spec in Hc as (Hroom & Hst & _).
  exfalso. exact (Hno b Hb Hroom Hst).
Qed.

Lemma fold_max_le (l : list Z) (a m : Z) :
  a <= m -> (forall x, In x l -> x <= m) -> fold_right Z.max a l <= m.
Proof.
  intros Ha. induction l as [|x l IH]; intros Hl; cbn; [exact Ha|].
  apply Z.max_lub; [apply Hl; left; reflexivity | apply IH; intros y Hy; apply Hl; right; exact Hy].
Qed.

Lemma fold_max_ge_init (l : list Z) (a : Z) : a <= fold_right Z.max a l.
Proof. induction l as [|x l IH]; cbn; lia. Qed.

(** After an insertion the next rowid is one more. *)
Lemma next_rowid_after_insert (db : database) (row : booking) :
  b_id row = next_rowid db ->
  next_rowid {| bookings := bookings db ++ [row];
                bookings_seq := next_rowid db;
                timetable := timetable db |}
  = next_rowid db + 1.
Proof.
  intros Hid. unfold next_rowid at 1. cbn [bookings bookings_seq]. f_equal.
  apply Z.le_antisymm; [|apply fold_max_ge_init].
  apply fold_max_le; [lia|].
  intros x Hx. rewrite map_app in Hx. apply in_app_iff in Hx as [Hx | [<- | []]]; [|lia].
  apply in_map_iff in Hx as (b & <- & Hb). apply next_rowid_above in Hb. lia.
Qed.

(** X5.  Only approved bookings count in the re-check; there is no test for
    a repeated request.  With no approved booking of the room, a complete
    request posted any number of times in a row is stored every time, as
    pending rows with consecutive ids. *)
Theorem repeated_request_is_stored_each_time
    (nows : list datetime) data s room_id faculty purpose start end_ :
  booking_semaphore s <> 0 ->
  data !! "room" = Some room_id ->
  lock_held room_id (room_locks s) = false ->
  data !! "start" = Some start ->
  data !! "end" = Some end_ ->
  data !! "faculty" = Some faculty ->
  data !! "purpose" = Some purpose ->
  no_approved room_id (store s) ->
  exists s',
    create_bookings nows data s
    = Some (map (fun k => Created (next_rowid (store s) + Z.of_nat k)
                                  (get data "priority" "normal"))
                (seq 0 (length nows)),
            s')
    /\ map (fun b => (b_id b, b_status b, b_timestamp b))
           (bookings (store s'))
       = (map (fun b => (b_id b, b_status b, b_timestamp b)) (bookings (store s))
          ++ map (fun kn => (next_rowid (store s) + Z.of_nat (fst kn), "pending", snd kn))
                 (zip (seq 0 (length nows)) nows))%list.
Proof.
  intros Hsem Hroom Hfree Hstart Hend Hfac Hpur.
  revert s Hsem Hfree.
  induction nows as [|now later IH]; intros s Hsem Hfree Hno.
  - exists s. cbn. rewrite app_nil_r. split; reflexivity.
  - destruct (create_booking_through now false data s room_id Hsem Hroom Hfree)
      as (s1 & Hcall & Hstore & Hsem1 & Hfree1).
    pose proof (no_approved_no_conflict room_id start end_ (store s) Hno) as Hcount.
    unfold reserve_outcome in Hcall, Hstore.
    rewrite Hstart, Hend, Hfac, Hpur in Hcall, Hstore.
    destruct (Z.ltb_spec 0 (count_conflicts room_id start end_ (store s))); [lia|].
    cbn [fst snd] in Hcall, Hstore.
    assert (Hnext : next_rowid (store s1) = next_rowid (store s) + 1).
    { rewrite Hstore. apply next_rowid_after_insert. reflexivity. }
    destruct (IH s1) as (s2 & Hrest & Hrows).
    + rewrite Hsem1. exact Hsem.
    + exact Hfree1.
    + intros b Hb Hbroom. rewrite Hstore in Hb. cbn [bookings] in Hb.
      apply in_app_iff in Hb as [Hb | [<- | []]]; [exact (Hno b Hb Hbroom)|].
      cbn. discriminate.
    + exists s2. cbn [create_bookings]. rewrite Hcall, Hrest. split.
      * f_equal. f_equal. cbn [length seq map]. f_equal.
        -- rewrite Z.add_0_r. reflexivity.
        -- rewrite <- seq_shift, map_map. apply map_ext. intros k.
           rewrite Hnext. f_equal. lia.
      * rewrite Hrows, Hnext, Hstore. cbn [bookings]. rewrite map_app, <- app_assoc.
        f_equal. cbn [length seq zip zip_with map app fst snd new_row b_id b_status
                      b_timestamp].
        rewrite Z.add_0_r. f_equal.
        rewrite <- seq_shift.
        clear. generalize (seq 0 (length later)). intros ks.
        revert later. induction ks as [|k ks IHk]; intros [|n later]; cbn; try reflexivity.
        f_equal; [f_equal; f_equal; lia | apply IHk].
Qed.

Lemma repeated_request_is_stored_each_time_witness :
  no_approved "L-201" (store (boot one_approved))
  /\ exists s',
       create_bookings [10; 20; 30]
         (sample_request "L-201" "2024-03-04 10:00" "2024-03-04 11:00")
         (boot one_approved)
       = Some ([Created 2 "normal"; Created 3 "normal"; Created 4 "normal"], s')
       /\ map (fun b => (b_id b, b_status b, b_timestamp b)) (bookings (store s'))
          = [(1, "approved", 1000000); (2, "pending", 10); (3, "pending", 20);
             (4, "pending", 30)].
Proof.
  assert (Hno : no_approved "L-201" (store (boot one_approved))).
  { intros b [<- | []] H. discriminate H. }
  split; [exact Hno|].
  destruct (repeated_request_is_stored_each_time [10; 20; 30]
              (sample_request "L-201" "2024-03-04 10:00" "2024-03-04 11:00")
              (boot one_approved) "L-201" "2000001@geu.ac.in" "Seminar"
              "2024-03-04 10:00" "2024-03-04 11:00")
    as (s' & Hcall & Hrows);
    [vm_compute; discriminate | reflexivity .. | exact Hno |].
  exists s'. split; [exact Hcall | exact Hrows].
Defined.

(** ** From a stored request to the listing *)







(** ** Room locks *)

Lemma count_where_cons f p ts :
  count_where f (p :: ts) = (if f p then 1 else 0) + count_where f ts.
Proof.
  unfold count_where. cbn [List.filter]. destruct (f p); cbn [length]; lia.
Qed.

Lemma count_where_nonneg f ts : 0 <= count_where f ts.
Proof. unfold count_where. lia. Qed.

Lemma count_where_app f ts us :
  count_where f (ts ++ us) = count_where f ts + count_where f us.
Proof.
  unfold count_where. rewrite List.filter_app, length_app. lia.
Qed.

Lemma count_where_insert f ts i p p' :
  ts !! i = Some p ->
  count_where f (<[i := p']> ts)
  = count_where f ts - (if f p then 1 else 0) + (if f p' then 1 else 0).
Proof.
  revert i. induction ts as [|q ts IH]; intros [|i] H; try discriminate.
  - injection H as ->.
    change (<[0%nat := p']> (p :: ts)) with (p' :: ts).
    rewrite !count_where_cons. lia.
  - change (<[S i := p']> (q :: ts)) with (q :: <[i := p']> ts).
    change (ts !! i = Some p) in H.
    rewrite !count_where_cons, (IH i H). lia.
Qed.

Lemma count_where_positive f ts :
  0 < count_where f ts -> exists i p, ts !! i = Some p /\ f p = true.
Proof.
  induction ts as [|q ts IH]; [unfold count_where; cbn; lia|].
  rewrite count_where_cons. destruct (f q) eqn:E.
  - intros _. exists 0%nat, q. split; [reflexivity | exact E].
  - intros H. destruct IH as (i & p & Hi & Hp); [lia|].
    exists (S i), p. split; [exact Hi | exact Hp].
Qed.

Lemma count_where_member f ts i p :
  ts !! i = Some p -> f p = true -> 0 < count_where f ts.
Proof.
  revert i. induction ts as [|q ts IH]; intros [|i] Hi Hp; try discriminate;
    rewrite count_where_cons; pose proof (count_where_nonneg f ts).
  - injection Hi as ->. rewrite Hp. lia.
  - change (ts !! i = Some p) in Hi. specialize (IH i Hi Hp). destruct (f q); lia.
Qed.

Lemma count_where_two f ts i j p q :
  ts !! i = Some p -> ts !! j = Some q -> i <> j ->
  f p = true -> f q = true -> 2 <= count_where f ts.
Proof.
  revert i j. induction ts as [|r ts IH]; intros i j Hi Hj Hne Hp Hq;
    [destruct i; discriminate|].
  rewrite count_where_cons.
  destruct i as [|i], j as [|j]; try contradiction.
  - injection Hi as ->. rewrite Hp. change (ts !! j = Some q) in Hj.
    pose proof (count_where_member f ts j q Hj Hq). lia.
  - injection Hj as ->. rewrite Hq. change (ts !! i = Some p) in Hi.
    pose proof (count_where_member f ts i p Hi Hp). lia.
  - change (ts !! i = Some p) in Hi. change (ts !! j = Some q) in Hj.
    assert (i <> j) by congruence.
    specialize (IH i j Hi Hj H Hp Hq). destruct (f r); lia.
Qed.

Lemma lock_held_get_room_lock_any room_id other locks :
  lock_held other (get_room_lock room_id locks) = lock_held other locks.
Proof.
  unfold get_room_lock. destruct (locks !! room_id) eqn:E; [reflexivity|].
  unfold lock_held. destruct (decide (room_id = other)) as [<- | Hne].
  - rewrite lookup_insert_eq, E. reflexivity.
  - rewrite lookup_insert_ne by exact Hne. reflexivity.
Qed.

Lemma lock_held_insert room_id other held locks :
  lock_held other (<[room_id := held]> locks)
  = if String.eqb room_id other then held else lock_held other locks.
Proof.
  unfold lock_held. destruct (String.eqb_spec room_id other) as [<- | Hne].
  - rewrite lookup_insert_eq. reflexivity.
  - rewrite lookup_insert_ne by exact Hne. reflexivity.
Qed.

Lemma locked_section_room_locks now locked data room_id s :
  room_locks (snd (locked_section now locked data room_id s))
  = <[room_id := false]> (room_locks s).
Proof.
  unfold locked_section. destruct (on_connection _ _). reflexivity.
Qed.

(** The lock of a room is held exactly when one thread is inside the
    room's section, and no more than one ever is. *)
Lemma room_lock_accounts db P :
  reachable (started db) P ->
  forall room_id,
    count_where (in_room room_id) (threads P)
    = if lock_held room_id (room_locks (shared P)) then 1 else 0.
Proof.
  induction 1 as [|P Q _ IH Hstep]; intros room_id.
  - reflexivity.
  - specialize (IH room_id).
    destruct Hstep as [P data | P i now locked p p' s' Hi Hp | P now locked id | P now locked id];
      cbn [shared threads room_locks with_store].
    + rewrite count_where_app, IH.
      change (count_where (in_room room_id) [Arrived data]) with 0. lia.
    + rewrite (count_where_insert _ _ _ _ _ Hi).
      destruct p as [data|data|r data|r data|resp|resp]; cbn [thread_step] in Hp.
      * unfold acquire_nonblocking in Hp.
        destruct (booking_semaphore (shared P) =? 0); injection Hp as <- <-;
          cbn [in_room room_locks with_semaphore]; rewrite IH; lia.
      * destruct (data !! "room") as [r|]; injection Hp as <- <-;
          cbn [in_room room_locks with_room_locks];
          [rewrite lock_held_get_room_lock_any|]; rewrite IH; lia.
      * destruct (lock_held r (room_locks (shared P))) eqn:Hheld; [discriminate|].
        injection Hp as <- <-. cbn [in_room room_locks with_room_locks].
        rewrite lock_held_insert, IH.
        destruct (String.eqb_spec r room_id) as [-> | _]; [rewrite Hheld|]; lia.
      * pose proof (locked_section_room_locks now locked data r (shared P)) as Hl.
        destruct (locked_section now locked data r (shared P)) as [resp s1].
        injection Hp as <- <-. cbn [snd] in Hl. rewrite Hl.
        cbn [in_room]. rewrite lock_held_insert.
        destruct (String.eqb_spec r room_id) as [-> | _]; [|rewrite IH; lia].
        pose proof (count_where_insert (in_room room_id) _ _ _
                      (InRoom room_id data) Hi) as Hins.
        assert (0 < count_where (in_room room_id) (threads P)).
        { pose proof (count_where_nonneg (in_room room_id)
                        (<[i := InRoom room_id data]> (threads P))).
          cbn [in_room] in Hins. rewrite String.eqb_refl in Hins.
          clear -Hi. revert i Hi.
          induction (threads P) as [|q ts IHts]; intros [|i] Hi; try discriminate;
            rewrite count_where_cons; pose proof (count_where_nonneg (in_room room_id) ts).
          - injection Hi as ->. cbn [in_room]. rewrite String.eqb_refl. lia.
          - change (ts !! i = Some (InRoom room_id data)) in Hi.
            specialize (IHts i Hi). destruct (in_room room_id q); lia. }
        destruct (lock_held room_id (room_locks (shared P))); lia.
      * injection Hp as <- <-. cbn [in_room room_locks with_semaphore]. rewrite IH. lia.
      * discriminate.
    + exact IH.
    + exact IH.
Qed.

Lemma reachable_thread_step P0 s ts i now locked p p' s' :
  reachable P0 {| shared := s; threads := ts |} ->
  ts !! i = Some p ->
  thread_step now locked p s = Some (p', s') ->
  reachable P0 {| shared := s'; threads := <[i := p']> ts |}.
Proof.
  intros H Hi Hp.
  exact (reachable_step _ _ _ H
           (step_thread {| shared := s; threads := ts |} i now locked p p' s' Hi Hp)).
Qed.

Lemma one_in_room_reachable : reachable (started empty_database) one_in_room.
Proof.
  pose (req := sample_request "C-101" "2024-03-04 10:00" "2024-03-04 11:00").
  pose proof five_in_flight_reachable as H.
  unfold five_in_flight in H.
  eapply (reachable_thread_step _ _ _ 0%nat 0 false (Holding req)) in H;
    [|reflexivity|reflexivity].
  eapply (reachable_thread_step _ _ _ 1%nat 0 false (Holding req)) in H;
    [|reflexivity|reflexivity].
  eapply (reachable_thread_step _ _ _ 0%nat 0 false (AtLock "C-101" req)) in H;
    [|reflexivity|reflexivity].
  exact H.
Qed.

Lemma in_room_self room_id data : in_room room_id (InRoom room_id data) = true.
Proof. cbn. apply String.eqb_refl. Qed.

Lemma section_holds_lock db P i room_id data :
  reachable (started db) P ->
  threads P !! i = Some (InRoom room_id data) ->
  lock_held room_id (room_locks (shared P)) = true.
Proof.
  intros Hreach Hi.
  pose proof (room_lock_accounts db P Hreach room_id) as Hacc.
  pose proof (count_where_member _ _ _ _ Hi (in_room_self room_id data)).
  destruct (lock_held room_id (room_locks (shared P))); [reflexivity | lia].
Qed.

Lemma held_lock_has_owner db P room_id :
  reachable (started db) P ->
  lock_held room_id (room_locks (shared P)) = true ->
  exists i data, threads P !! i = Some (InRoom room_id data).
Proof.
  intros Hreach Hheld.
  pose proof (room_lock_accounts db P Hreach room_id) as Hacc. rewrite Hheld in Hacc.
  destruct (count_where_positive (in_room room_id) (threads P)) as (i & p & Hi & Hp);
    [lia|].
  destruct p as [| | |r' d| |]; try discriminate Hp.
  cbn in Hp. apply String.eqb_eq in Hp. subst r'. exists i, d. exact Hi.
Qed.

(** X7.  The room lock gives mutual exclusion: in every state the server
    can reach, two different requests are never both inside the section of
    the same room; a request inside a room's section holds that room's
    lock, and a held lock belongs to a request inside the section. *)
Theorem room_section_is_exclusive db P :
  reachable (started db) P ->
  (forall i j room_id data data',
      threads P !! i = Some (InRoom room_id data) ->
      threads P !! j = Some (InRoom room_id data') ->
      i = j)
  /\ (forall i room_id data,
        threads P !! i = Some (InRoom room_id data) ->
        lock_held room_id (room_locks (shared P)) = true)
  /\ (forall room_id,
        lock_held room_id (room_locks (shared P)) = true ->
        exists i data, threads P !! i = Some (InRoom room_id data)).
Proof.
  intros Hreach. split; [|split].
  - intros i j r d d' Hi Hj.
    destruct (decide (i = j)) as [|Hne]; [assumption|]. exfalso.
    pose proof (count_where_two (in_room r) _ i j _ _ Hi Hj Hne
                  (in_room_self r d) (in_room_self r d')).
    pose proof (room_lock_accounts db P Hreach r) as Hacc.
    destruct (lock_held r _); lia.
  - intros i r d Hi. exact (section_holds_lock db P i r d Hreach Hi).
  - intros r Hheld. exact (held_lock_has_owner db P r Hreach Hheld).
Qed.

Lemma room_section_is_exclusive_witness :
  reachable (started empty_database) one_in_room
  /\ lock_held "C-101" (room_locks (shared one_in_room)) = true
  /\ exists i data, threads one_in_room !! i = Some (InRoom "C-101" data).
Proof.
  split; [exact one_in_room_reachable|]. split; [reflexivity|].
  apply (proj2 (proj2 (room_section_is_exclusive empty_database one_in_room
                         one_in_room_reachable))).
  reflexivity.
Defined.

(** X8.  No deadlock among booking requests: in every state the server can
    reach, as long as some request has not returned, some request can make
    its next move.  A request can always move itself unless it waits for a
    room lock, and then the request inside that room's section can. *)
Theorem some_request_can_move db P :
  reachable (started db) P ->
  forall i p,
    threads P !! i = Some p ->
    returned p = false ->
    forall now locked,
      (exists p' s', thread_step now locked p (shared P) = Some (p', s'))
      \/ exists room_id data j data' p' s',
           p = AtLock room_id data
           /\ threads P !! j = Some (InRoom room_id data')
           /\ thread_step now locked (InRoom room_id data') (shared P) = Some (p', s').
Proof.
  intros Hreach i p Hi Hret now locked.
  destruct p as [data|data|r data|r data|resp|resp]; try discriminate Hret;
    cbn [thread_step].
  - left. destruct (acquire_nonblocking _) as [[|] v]; eauto.
  - left. destruct (data !! "room"); eauto.
  - destruct (lock_held r (room_locks (shared P))) eqn:Hheld; [|left; eauto].
    right.
    destruct (held_lock_has_owner db P r Hreach Hheld) as (j & d' & Hj).
    exists r, data, j, d',
      (Leaving (fst (locked_section now locked d' r (shared P)))),
      (snd (locked_section now locked d' r (shared P))).
    split; [reflexivity|]. split; [exact Hj|].
    cbn [thread_step]. destruct (locked_section now locked d' r (shared P)).
    reflexivity.
  - left. destruct (locked_section now locked data r (shared P)); eauto.
  - left. eauto.
Qed.

Lemma some_request_can_move_witness :
  reachable (started empty_database) one_in_room
  /\ thread_step 0 false
       (AtLock "C-101" (sample_request "C-101" "2024-03-04 10:00" "2024-03-04 11:00"))
       (shared one_in_room) = None
  /\ exists room_id data j data' p' s',
       AtLock "C-101" (sample_request "C-101" "2024-03-04 10:00" "2024-03-04 11:00")
       = AtLock room_id data
       /\ threads one_in_room !! j = Some (InRoom room_id data')
       /\ thread_step 0 false (InRoom room_id data') (shared one_in_room) = Some (p', s').
Proof.
  split; [exact one_in_room_reachable|]. split; [reflexivity|].
  destruct (some_request_can_move empty_database one_in_room one_in_room_reachable
              1%nat _ eq_refl eq_refl 0 false) as [(p' & s' & H) | H].
  - discriminate H.
  - exact H.
Defined.

(** ** What the handlers never do to a stored row *)

Lemma fixed_part_update set booking_id (l : list booking) :
  (forall b, fixed_part (set b) = fixed_part b) ->
  map fixed_part (map (fun b => if b_id b =? booking_id then set b else b) l)
  = map fixed_part l.
Proof.
  intros Hset. rewrite map_map. apply map_ext. intros b.
  destruct (b_id b =? booking_id); [apply Hset | reflexivity].
Qed.

Lemma reserve_outcome_appends now locked data room_id db :
  exists added,
    bookings (snd (reserve_outcome now locked data room_id db))
    = (bookings db ++ added)%list.
Proof.
  unfold reserve_outcome.
  destruct locked; [exists []; symmetry; apply app_nil_r|].
  destruct (data !! "start"); [|exists []; symmetry; apply app_nil_r].
  destruct (data !! "end"); [|exists []; symmetry; apply app_nil_r].
  destruct (0 <? count_conflicts _ _ _ _); [exists []; symmetry; apply app_nil_r|].
  destruct (data !! "faculty"); [|exists []; symmetry; apply app_nil_r].
  destruct (data !! "purpose"); [|exists []; symmetry; apply app_nil_r].
  eexists. reflexivity.
Qed.

(** X9.  No handler removes a booking or rewrites what was requested: in
    every state the server can reach, the table starts with the rows it
    had at the start, in the same order, with id, requester, room,
    subject, purpose, interval, notes, priority and creation time
    unchanged (only status and the two decision timestamps may differ),
    and the ids stay distinct. *)
Theorem stored_rows_stay db P :
  NoDup (map b_id (bookings db)) ->
  reachable (started db) P ->
  NoDup (map b_id (bookings (store (shared P))))
  /\ exists added,
       map fixed_part (bookings (store (shared P)))
       = (map fixed_part (bookings db) ++ added)%list.
Proof.
  intros Hkey Hreach. split; [exact (primary_key_reachable db P Hkey Hreach)|].
  clear Hkey. induction Hreach as [|P Q _ (added & IH) Hstep].
  - exists []. symmetry. apply app_nil_r.
  - destruct Hstep as [P data | P i now locked p p' s' Hi Hp | P now locked id | P now locked id];
      cbn [shared threads store with_store].
    + exists added. exact IH.
    + destruct p as [data|data|room_id data|room_id data|r|r]; cbn [thread_step] in Hp.
      * unfold acquire_nonblocking in Hp.
        destruct (booking_semaphore (shared P) =? 0); injection Hp as _ <-;
          exists added; exact IH.
      * destruct (data !! "room"); injection Hp as _ <-; exists added; exact IH.
      * destruct (lock_held room_id _); [discriminate|].
        injection Hp as _ <-. exists added. exact IH.
      * unfold locked_section in Hp. rewrite reserve_on_connection in Hp.
        injection Hp as _ <-. cbn [store with_room_locks with_store].
        destruct (reserve_outcome_appends now locked data room_id (store (shared P)))
          as (more & ->).
        exists (added ++ map fixed_part more)%list.
        rewrite map_app, IH, app_assoc. reflexivity.
      * injection Hp as _ <-. exists added. exact IH.
      * discriminate.
    + exists added. unfold approve_booking. rewrite decided_store.
      destruct (int64 id && negb locked); [|exact IH].
      cbn [snd update_where_id bookings].
      rewrite fixed_part_update by reflexivity. exact IH.
    + exists added. unfold reject_booking. rewrite decided_store.
      destruct (int64 id && negb locked); [|exact IH].
      cbn [snd update_where_id bookings].
      rewrite fixed_part_update by reflexivity. exact IH.
Qed.

(** From [two_pending]: a request for SH-301 is made and stored as row 3,
    row 1 is approved, row 2 is rejected. *)
Lemma stored_rows_stay_witness :
  exists P,
    reachable (started two_pending) P
    /\ map (fun b => (b_id b, b_room b, b_status b)) (bookings (store (shared P)))
       = [(1, "C-101", "approved"); (2, "L-201", "rejected");
          (3, "SH-301", "pending")]
    /\ NoDup (map b_id (bookings (store (shared P))))
    /\ exists added,
         map fixed_part (bookings (store (shared P)))
         = (map fixed_part (bookings two_pending) ++ added)%list.
Proof.
  pose (req := sample_request "SH-301" "2024-03-06 10:00" "2024-03-06 11:00").
  assert (H : reachable (started two_pending)
                        {| shared := boot two_pending; threads := [] |})
    by apply reachable_start.
  apply (fun H => reachable_step _ _ _ H (step_arrive _ req)) in H.
  cbn [shared threads app] in H.
  eapply (reachable_thread_step _ _ _ 0%nat 7000000 false (Arrived req)) in H;
    [|reflexivity|vm_compute; reflexivity].
  eapply (reachable_thread_step _ _ _ 0%nat 7000000 false) in H;
    [|reflexivity|vm_compute; reflexivity].
  eapply (reachable_thread_step _ _ _ 0%nat 7000000 false) in H;
    [|reflexivity|vm_compute; reflexivity].
  eapply (reachable_thread_step _ _ _ 0%nat 7000000 false) in H;
    [|reflexivity|vm_compute; reflexivity].
  eapply (reachable_thread_step _ _ _ 0%nat 7000000 false) in H;
    [|reflexivity|vm_compute; reflexivity].
  apply (fun H => reachable_step _ _ _ H (step_approve _ 8000000 false 1)) in H.
  apply (fun H => reachable_step _ _ _ H (step_reject _ 9000000 false 2)) in H.
  eexists. split; [exact H|]. split; [vm_compute; reflexivity|].
  apply (stored_rows_stay two_pending); [|exact H].
  apply (bool_decide_unpack _). vm_compute. exact I.
Defined.

(** ** More on the listing *)

(** X10.  The listing holds every row that passes the filters exactly once
    and nothing else; an empty [faculty] or [status] argument filters
    nothing, like an absent one; and an entry carries an effective
    priority exactly when its row is pending. *)
Theorem listing_holds_the_matching_rows now faculty status db :
  Permutation (map row (get_bookings now faculty status db))
              (List.filter (listing_where faculty status) (bookings db))
  /\ get_bookings now (Some "") status db = get_bookings now None status db
  /\ get_bookings now faculty (Some "") db = get_bookings now faculty None db
  /\ Permutation (map row (get_bookings now None None db)) (bookings db)
  /\ Forall (fun x =>
               (b_status (row x) = "pending" ->
                effectivePriority x
                = Some (calculate_priority_with_aging now
                          (dict_get PRIORITY_LEVELS (b_priority (row x)) 3)
                          (b_timestamp (row x))))
               /\ (b_status (row x) <> "pending" -> effectivePriority x = None))
       (get_bookings now faculty status db).
Proof.
  assert (Hrow : forall l, map row (map (list_row now) l) = l).
  { intros l. rewrite map_map. cbn [list_row row]. apply map_id. }
  split; [|split; [|split; [|split]]].
  - rewrite (Permutation_map row (get_bookings_perm now faculty status db)).
    rewrite Hrow. reflexivity.
  - reflexivity.
  - reflexivity.
  - rewrite (Permutation_map row (get_bookings_perm now None None db)), Hrow.
    cbn [listing_where given andb]. clear.
    induction (bookings db) as [|b l IH]; [reflexivity|].
    cbn [List.filter]. constructor. exact IH.
  - apply Forall_forall. intros x Hx.
    apply list_elem_of_In, get_bookings_In in Hx as (r & -> & _ & _).
    cbn [list_row row effectivePriority].
    destruct (String.eqb_spec (b_status r) "pending") as [E|E]; split; intros H;
      try reflexivity; contradiction.
Qed.

Lemma listing_holds_the_matching_rows_witness :
  Permutation
    (map row (get_bookings 0 None (Some "approved") mixed_statuses))
    (List.filter (listing_where None (Some "approved")) (bookings mixed_statuses)).
Proof.
  exact (proj1 (listing_holds_the_matching_rows 0 None (Some "approved")
                  mixed_statuses)).
Defined.

(** *** The order without the pending filter *)

Lemma status_asc_id_desc_true a b :
  status_asc_id_desc a b = true ->
  text_lt (b_status a) (b_status b)
  \/ (b_status a = b_status b /\ b_id b <= b_id a).
Proof.
  unfold status_asc_id_desc, text_lt, String.ltb.
  destruct (String.compare (b_status a) (b_status b)) eqn:E; try discriminate.
  - intros H. right. split; [apply String.compare_eq_iff, E | apply Z.leb_le, H].
  - intros _. left. reflexivity.
Qed.

Lemma status_asc_id_desc_false a b :
  status_asc_id_desc a b = false ->
  text_lt (b_status b) (b_status a)
  \/ (b_status b = b_status a /\ b_id a <= b_id b).
Proof.
  unfold status_asc_id_desc, text_lt, String.ltb.
  rewrite (String.compare_antisym (b_status b) (b_status a)).
  destruct (String.compare (b_status a) (b_status b)) eqn:E; try discriminate.
  - intros H. right. apply Z.leb_gt in H.
    split; [symmetry; apply String.compare_eq_iff, E | lia].
  - intros _. left. reflexivity.
Qed.

Lemma rows_by_status_then_newest (l : list booking) :
  StronglySorted
    (fun a b => text_lt (b_status a) (b_status b)
                \/ (b_status a = b_status b /\ b_id b <= b_id a))
    (sort_by status_asc_id_desc l).
Proof.
  apply (sort_by_sorted status_asc_id_desc _ (fun _ => True)).
  - intros a b c [Hab | [Eab Hab]] [Hbc | [Ebc Hbc]].
    + left. exact (text_lt_trans _ _ _ Hab Hbc).
    + left. rewrite <- Ebc. exact Hab.
    + left. rewrite Eab. exact Hbc.
    + right. split; [congruence | lia].
  - intros a b _ _. apply status_asc_id_desc_true.
  - intros a b _ _. apply status_asc_id_desc_false.
  - apply Forall_forall. intros; exact I.
Qed.

Lemma strictly_by_status_then_newest (l : list booking) :
  NoDup (map b_id l) ->
  StronglySorted
    (fun a b => text_lt (b_status a) (b_status b)
                \/ (b_status a = b_status b /\ b_id b <= b_id a)) l ->
  StronglySorted status_then_newest l.
Proof.
  intros Hnd Hs. induction Hs as [|x l Hs IH Hx]; [constructor|].
  cbn in Hnd. apply NoDup_cons in Hnd as [Hnotin Hnd].
  constructor; [auto|].
  rewrite Forall_forall in Hx |- *. intros y Hy.
  destruct (Hx y Hy) as [H | [E H]]; [left; exact H|].
  right. split; [exact E|].
  assert (b_id y <> b_id x).
  { intros Eid. apply Hnotin. rewrite <- Eid.
    apply list_elem_of_In, in_map, list_elem_of_In, Hy. }
  lia.
Qed.

Lemma NoDup_filter_ids (f : booking -> bool) (l : list booking) :
  NoDup (map b_id l) -> NoDup (map b_id (List.filter f l)).
Proof.
  induction l as [|b l IH]; [intros; constructor|].
  cbn [map List.filter]. intros Hnd. apply NoDup_cons in Hnd as [Hb Hl].
  destruct (f b); [|auto].
  cbn [map]. apply NoDup_cons. split; [|auto].
  intros Hin. apply Hb.
  apply list_elem_of_In, in_map_iff in Hin as (r & <- & Hr).
  apply filter_In in Hr as [Hr _]. apply list_elem_of_In, in_map, Hr.
Qed.

(** X11.  Unless the status asked for is exactly [pending], the listing is
    in the order of the query: ascending by status as text (approved
    before pending before rejected) and, within a status, by descending
    id, the newest first. *)
Theorem listing_order_by_status now faculty status db :
  NoDup (map b_id (bookings db)) ->
  status <> Some "pending" ->
  StronglySorted (fun x y => status_then_newest (row x) (row y))
                 (get_bookings now faculty status db)
  /\ text_lt "approved" "pending" /\ text_lt "pending" "rejected".
Proof.
  intros Hkey Hstatus. split; [|split; reflexivity].
  unfold get_bookings. rewrite bool_decide_eq_false_2 by exact Hstatus.
  assert (Hs : StronglySorted status_then_newest
                 (sort_by status_asc_id_desc
                    (List.filter (listing_where faculty status) (bookings db)))).
  { apply strictly_by_status_then_newest; [|apply rows_by_status_then_newest].
    rewrite (sort_by_perm status_asc_id_desc). apply NoDup_filter_ids, Hkey. }
  revert Hs. generalize (sort_by status_asc_id_desc
                           (List.filter (listing_where faculty status) (bookings db))).
  intros l Hs. induction Hs as [|r l Hs IH Hr]; cbn [map]; [constructor|].
  constructor; [exact IH|]. apply Forall_map. exact Hr.
Qed.

Lemma listing_order_by_status_witness :
  NoDup (map b_id (bookings mixed_statuses))
  /\ (None : option string) <> Some "pending"
  /\ StronglySorted (fun x y => status_then_newest (row x) (row y))
       (get_bookings 7000000 None None mixed_statuses)
  /\ map (fun x => (b_id (row x), b_status (row x)))
         (get_bookings 7000000 None None mixed_statuses)
     = [(1, "approved"); (4, "pending"); (2, "pending"); (3, "rejected")].
Proof.
  assert (Hkey : NoDup (map b_id (bookings mixed_statuses))).
  { apply (bool_decide_unpack _). vm_compute. exact I. }
  assert (Hstatus : (None : option string) <> Some "pending") by discriminate.
  split; [exact Hkey|]. split; [exact Hstatus|].
  split; [|vm_compute; reflexivity].
  exact (proj1 (listing_order_by_status 7000000 None None mixed_statuses Hkey Hstatus)).
Defined.

(** ** More on availability *)

Lemma sql_le_spec (a b : option string) :
  sql_le a b = true <-> exists x y, a = Some x /\ b = Some y /\ text_le x y.
Proof.
  unfold sql_le, text_le. destruct a as [x|], b as [y|]; split;
    try discriminate; try (intros (? & ? & ? & ? & _); discriminate).
  - intros H. exists x, y. auto.
  - intros (x' & y' & [= ->] & [= ->] & H). exact H.
Qed.

Lemma get_empty_rooms_In (sql_datetime : string -> option string) day time db room :
  In room (get_empty_rooms sql_datetime day time db)
  <-> In room all_rooms
      /\ (forall t, In t (timetable db) -> tt_room t = room ->
                    ~ (tt_day t = day /\ tt_time t = time))
      /\ (forall b, In b (bookings db) -> b_room b = room ->
                    b_status b = "approved" ->
                    ~ covers sql_datetime (day ++ " " ++ time) b).
Proof.
  unfold get_empty_rooms. rewrite filter_In, bool_decide_eq_true.
  rewrite elem_of_list_to_set, elem_of_app, !elem_of_remove_dups, !list_elem_of_In,
    !in_map_iff.
  split.
  - intros [Hall Hfree]. split; [exact Hall|]. split.
    + intros t Ht Hroom [Hday Htime]. apply Hfree. left. exists t.
      split; [exact Hroom|]. apply filter_In. split; [exact Ht|].
      rewrite Hday, Htime, !String.eqb_refl. reflexivity.
    + intros b Hb Hroom Hst (s & i & e & Hs & Hi & He & Hsi & Hie).
      apply Hfree. right. exists b. split; [exact Hroom|].
      apply filter_In. split; [exact Hb|].
      rewrite Hst, Hs, Hi, He. cbn [sql_le String.eqb].
      unfold text_le in Hsi, Hie. rewrite Hsi, Hie. reflexivity.
  - intros (Hall & Htt & Hbk). split; [exact Hall|].
    intros [(t & Hroom & Ht) | (b & Hroom & Hb)].
    + apply filter_In in Ht as [Ht Hm]. apply andb_prop in Hm as [Hday Htime].
      apply String.eqb_eq in Hday, Htime. exact (Htt t Ht Hroom (conj Hday Htime)).
    + apply filter_In in Hb as [Hb Hm].
      apply andb_prop in Hm as [Hm Hie]. apply andb_prop in Hm as [Hst Hsi].
      apply String.eqb_eq in Hst.
      apply sql_le_spec in Hsi as (s & i & Hs & Hi & Hsi).
      apply sql_le_spec in Hie as (i' & e & Hi' & He & Hie).
      rewrite Hi in Hi'. injection Hi' as <-.
      apply (Hbk b Hb Hroom Hst). exists s, i, e. auto.
Qed.

(** X12.  A room is reported empty exactly when it is one of the three
    rooms the handler knows, the timetable has no entry of the room with
    that very day and time text, and no approved booking of the room covers
    the instant [day time] (ends included).  Pending and rejected bookings
    never occupy a room, and the answer lists the rooms in the fixed order,
    none twice. *)
Theorem empty_rooms_characterised
    (sql_datetime : string -> option string) day time db :
  (forall room,
      In room (get_empty_rooms sql_datetime day time db)
      <-> In room all_rooms
          /\ (forall t, In t (timetable db) -> tt_room t = room ->
                        ~ (tt_day t = day /\ tt_time t = time))
          /\ (forall b, In b (bookings db) -> b_room b = room ->
                        b_status b = "approved" ->
                        ~ covers sql_datetime (day ++ " " ++ time) b))
  /\ sublist (get_empty_rooms sql_datetime day time db) all_rooms
  /\ NoDup (get_empty_rooms sql_datetime day time db).
Proof.
  split; [intros room; apply get_empty_rooms_In|].
  unfold get_empty_rooms.
  generalize (fun room : string =>
                bool_decide
                  (room ∉ (list_to_set
                             (remove_dups
                                (map tt_room
                                   (List.filter
                                      (fun t => String.eqb (tt_day t) day
                                                && String.eqb (tt_time t) time)
                                      (timetable db)))
                              ++ remove_dups
                                (map b_room
                                   (List.filter
                                      (fun b =>
                                         String.eqb (b_status b) "approved"
                                         && sql_le (sql_datetime (b_start_time b))
                                              (sql_datetime (day ++ " " ++ time))
                                         && sql_le (sql_datetime (day ++ " " ++ time))
                                              (sql_datetime (b_end_time b)))
                                      (bookings db)))) : gset string))).
  intros f. unfold all_rooms. cbn [List.filter].
  destruct (f "C-101"), (f "L-201"), (f "SH-301");
    (split; [repeat first [apply sublist_nil | apply sublist_skip | apply sublist_cons]
            | apply (bool_decide_unpack _); vm_compute; exact I]).
Qed.

Lemma empty_rooms_characterised_witness :
  In "SH-301" (get_empty_rooms datetime_text "2024-03-04" "10:30" mixed_statuses)
  /\ ~ In "C-101" (get_empty_rooms datetime_text "2024-03-04" "10:30" mixed_statuses)
  /\ forall b, In b (bookings mixed_statuses) -> b_room b = "SH-301" ->
               b_status b = "approved" ->
               ~ covers datetime_text ("2024-03-04" ++ " " ++ "10:30") b.
Proof.
  assert (H : In "SH-301"
                 (get_empty_rooms datetime_text "2024-03-04" "10:30" mixed_statuses))
    by (vm_compute; tauto).
  split; [exact H|]. split; [vm_compute; intuition discriminate|].
  exact (proj2 (proj2 (proj1 (proj1 (empty_rooms_characterised datetime_text
                                       "2024-03-04" "10:30" mixed_statuses)
                                    "SH-301") H))).
Defined.

Lemma filter_none {A} (f : A -> bool) (l : list A) :
  (forall x, f x = false) -> List.filter f l = [].
Proof.
  intros Hf. induction l as [|x l IH]; [reflexivity|].
  cbn [List.filter]. rewrite Hf. exact IH.
Qed.

(** X13.  When SQLite cannot read [day time] as a time (its [datetime()]
    is NULL, as for a weekday name), bookings play no part in the answer:
    it is the one an empty bookings table would give, so a room with an
    approved booking is still reported empty unless the timetable has
    it. *)
Theorem unreadable_instant_ignores_bookings
    (sql_datetime : string -> option string) day time db :
  sql_datetime (day ++ " " ++ time) = None ->
  get_empty_rooms sql_datetime day time db
  = get_empty_rooms sql_datetime day time
      {| bookings := []; bookings_seq := bookings_seq db; timetable := timetable db |}.
Proof.
  intros Hnull. unfold get_empty_rooms. cbn [bookings timetable].
  rewrite (filter_none _ (bookings db)); [reflexivity|].
  intros b. rewrite Hnull.
  destruct (String.eqb (b_status b) "approved"),
           (sql_datetime (b_start_time b)); reflexivity.
Qed.

Lemma unreadable_instant_ignores_bookings_witness :
  datetime_text ("Monday" ++ " " ++ "10:00-11:00") = None
  /\ get_empty_rooms datetime_text "Monday" "10:00-11:00" one_approved
     = ["C-101"; "L-201"; "SH-301"].
Proof.
  assert (H : datetime_text ("Monday" ++ " " ++ "10:00-11:00") = None) by reflexivity.
  split; [exact H|].
  rewrite (unreadable_instant_ignores_bookings datetime_text "Monday" "10:00-11:00"
             one_approved H).
  vm_compute. reflexivity.
Defined.

(** ** More on aging *)

Lemma quot_day_small d : - day_us < d < day_us -> d ÷ day_us = 0.
Proof.
  intros H. destruct (Z.le_gt_cases 0 d) as [Hd | Hd].
  - apply Z.quot_small. lia.
  - replace d with (- (- d)) by lia. rewrite Z.quot_opp_l by (unfold day_us; lia).
    rewrite Z.quot_small by lia. reflexivity.
Qed.

Lemma quot_day_nonpos d : d <= 0 -> d ÷ day_us <= 0.
Proof.
  intros H. replace d with (- (- d)) by lia.
  rewrite Z.quot_opp_l by (unfold day_us; lia).
  assert (0 <= (- d) ÷ day_us) by (apply Z.quot_pos; unfold day_us; lia). lia.
Qed.

(** X14.  Aging for any base rank.  A wait shorter than a day, in either
    direction, leaves the rank as it is (at least 1).  A rank of at least 1
    reaches 1 once rank - 1 full days have passed, and stays there.  A
    creation time that lies in the future never makes a request more
    urgent than its rank. *)
Theorem aging_bounds now base created_at :
  (- day_us < now - created_at < day_us ->
   calculate_priority_with_aging now base created_at = Z.max 1 base)
  /\ (1 <= base -> (base - 1) * day_us <= now - created_at ->
      calculate_priority_with_aging now base created_at = 1)
  /\ (now <= created_at ->
      Z.max 1 base <= calculate_priority_with_aging now base created_at).
Proof.
  rewrite calculate_priority_with_aging_quot. split; [|split].
  - intros H. rewrite (quot_day_small _ H), Z.sub_0_r. reflexivity.
  - intros Hbase Hwait.
    rewrite Z.quot_div_nonneg by (unfold day_us in *; lia).
    assert (base - 1 <= (now - created_at) / day_us)
      by (apply Z.div_le_lower_bound; unfold day_us in *; lia).
    lia.
  - intros H. pose proof (quot_day_nonpos (now - created_at)). lia.
Qed.

Lemma aging_bounds_witness :
  1 <= 4
  /\ (4 - 1) * day_us <= 300000000000 - 0
  /\ calculate_priority_with_aging 300000000000 4 0 = 1.
Proof.
  assert (H1 : 1 <= 4) by lia.
  assert (H2 : (4 - 1) * day_us <= 300000000000 - 0) by (unfold day_us; lia).
  split; [exact H1|]. split; [exact H2|].
  exact (proj1 (proj2 (aging_bounds 300000000000 4 0)) H1 H2).
Defined.

(** ** Accounts *)

Lemma init_db_steps now a :
  init_db now a
  = ensure_faculty now FACULTY_NAMES
      (ensure_user now (Some "qwerty123") "hod" 0 a HOD_EMAIL "Dr. Devesh").
Proof.
  unfold init_db, ensure_faculty.
  change (if count_email HOD_EMAIL a =? 0
          then insert_user HOD_EMAIL (Some "qwerty123") "hod" "Dr. Devesh" 0 now a
          else a)
    with (ensure_user now (Some "qwerty123") "hod" 0 a HOD_EMAIL "Dr. Devesh").
  generalize (ensure_user now (Some "qwerty123") "hod" 0 a HOD_EMAIL "Dr. Devesh").
  generalize FACULTY_NAMES.
  intros l. induction l as [|[email name] l IH]; intros a0; [reflexivity|].
  cbn [fold_left fst snd]. apply IH.
Qed.

Lemma count_email_nonneg email a : 0 <= count_email email a.
Proof. unfold count_email. lia. Qed.

Lemma count_email_insert e email password role name first_login now a :
  count_email e (insert_user email password role name first_login now a)
  = count_email e a + (if String.eqb email e then 1 else 0).
Proof.
  unfold count_email, insert_user. cbn [users].
  rewrite List.filter_app, length_app. cbn [List.filter u_email].
  destruct (String.eqb email e); cbn [length]; lia.
Qed.

Lemma ensure_user_count e now password role first_login a email name :
  count_email e a <= count_email e (ensure_user now password role first_login a email name)
  /\ 0 < count_email email (ensure_user now password role first_login a email name).
Proof.
  unfold ensure_user. pose proof (count_email_nonneg email a).
  destruct (Z.eqb_spec (count_email email a) 0) as [E|E].
  - rewrite !count_email_insert, String.eqb_refl.
    destruct (String.eqb email e); lia.
  - lia.
Qed.

Lemma ensure_user_present now password role first_login a email name :
  0 < count_email email a ->
  ensure_user now password role first_login a email name = a.
Proof.
  intros H. unfold ensure_user.
  destruct (Z.eqb_spec (count_email email a) 0); [lia | reflexivity].
Qed.

Lemma ensure_user_appends now password role first_login a email name :
  exists added,
    users (ensure_user now password role first_login a email name)
    = (users a ++ added)%list
    /\ Forall (fun u => u_email u = email /\ u_created_at u = now
                        /\ count_email email a = 0) added.
Proof.
  unfold ensure_user. destruct (Z.eqb_spec (count_email email a) 0) as [E|E].
  - eexists. split; [reflexivity|]. repeat constructor. exact E.
  - exists []. split; [symmetry; apply app_nil_r | constructor].
Qed.

Lemma ensure_faculty_count now l e a :
  count_email e a <= count_email e (ensure_faculty now l a)
  /\ (In e (map fst l) -> 0 < count_email e (ensure_faculty now l a)).
Proof.
  revert a. induction l as [|[email name] l IH]; intros a.
  - split; [reflexivity | intros []].
  - cbn [ensure_faculty fold_left fst snd map].
    fold (ensure_faculty now l (ensure_user now None "faculty" 1 a email name)).
    destruct (IH (ensure_user now None "faculty" 1 a email name)) as [Hle Hin].
    destruct (ensure_user_count e now None "faculty" 1 a email name) as [Hle' _].
    split; [lia|].
    intros [<- | He]; [|exact (Hin He)].
    destruct (ensure_user_count email now None "faculty" 1 a email name) as [_ Hpos].
    lia.
Qed.

Lemma ensure_faculty_present now l a :
  (forall e, In e (map fst l) -> 0 < count_email e a) ->
  ensure_faculty now l a = a.
Proof.
  revert a. induction l as [|[email name] l IH]; intros a H; [reflexivity|].
  cbn [ensure_faculty fold_left fst snd].
  rewrite ensure_user_present by (apply H; left; reflexivity).
  apply IH. intros e He. apply H. right. exact He.
Qed.

Lemma ensure_faculty_appends now l a :
  exists added,
    users (ensure_faculty now l a) = (users a ++ added)%list
    /\ Forall (fun u => u_created_at u = now /\ count_email (u_email u) a = 0) added.
Proof.
  revert a. induction l as [|[email name] l IH]; intros a.
  - exists []. split; [symmetry; apply app_nil_r | constructor].
  - cbn [ensure_faculty fold_left fst snd].
    fold (ensure_faculty now l (ensure_user now None "faculty" 1 a email name)).
    destruct (ensure_user_appends now None "faculty" 1 a email name) as (add1 & H1 & F1).
    destruct (IH (ensure_user now None "faculty" 1 a email name)) as (add2 & H2 & F2).
    exists (add1 ++ add2)%list. split; [rewrite H2, H1, app_assoc; reflexivity|].
    apply Forall_app. split.
    + eapply Forall_impl; [exact F1|]. intros u (-> & ? & ?). auto.
    + eapply Forall_impl; [exact F2|]. intros u [Hnow Hzero]. split; [exact Hnow|].
      destruct (ensure_user_count (u_email u) now None "faculty" 1 a email name)
        as [Hle _].
      pose proof (count_email_nonneg (u_email u) a). lia.
Qed.

Lemma ensure_user_unique e now password role first_login a email name :
  count_email e a <= 1 ->
  count_email e (ensure_user now password role first_login a email name) <= 1.
Proof.
  unfold ensure_user. intros H.
  destruct (Z.eqb_spec (count_email email a) 0) as [E|E]; [|exact H].
  rewrite count_email_insert.
  destruct (String.eqb_spec email e) as [<- | _]; lia.
Qed.

Lemma ensure_faculty_unique e now l a :
  count_email e a <= 1 -> count_email e (ensure_faculty now l a) <= 1.
Proof.
  revert a. induction l as [|[email name] l IH]; intros a H; [exact H|].
  cbn [ensure_faculty fold_left fst snd]. apply IH, ensure_user_unique, H.
Qed.

Lemma allowed_email_cases e :
  e ∈ ALLOWED_EMAILS <-> e = HOD_EMAIL \/ In e (map fst FACULTY_NAMES).
Proof.
  unfold ALLOWED_EMAILS. rewrite elem_of_list_to_set, list_elem_of_In.
  cbn [In map fst FACULTY_NAMES]. unfold HOD_EMAIL.
  split; intros H; repeat (destruct H as [H | H]; [subst e; tauto|]); tauto.
Qed.

(** X15.  [init_db] on the accounts: it keeps every row there is and only
    appends rows, stamped now, for emails that had none; afterwards every
    allowed email has an account; an email that had at most one row still
    has at most one; and running it again changes nothing, so passwords
    set in between survive a restart. *)
Theorem init_db_fills_accounts_once now a :
  (exists added,
      users (init_db now a) = (users a ++ added)%list
      /\ Forall (fun u => u_created_at u = now /\ count_email (u_email u) a = 0) added)
  /\ (forall e, e ∈ ALLOWED_EMAILS -> 0 < count_email e (init_db now a))
  /\ (forall e, count_email e a <= 1 -> count_email e (init_db now a) <= 1)
  /\ (forall now', init_db now' (init_db now a) = init_db now a)
  /\ (forall now' email password,
        init_db now' (set_password password email (init_db now a))
        = set_password password email (init_db now a)).
Proof.
  assert (Hall : forall e, e ∈ ALLOWED_EMAILS -> 0 < count_email e (init_db now a)).
  { intros e He. rewrite init_db_steps.
    apply allowed_email_cases in He as [-> | He].
    - destruct (ensure_faculty_count now FACULTY_NAMES HOD_EMAIL
                  (ensure_user now (Some "qwerty123") "hod" 0 a HOD_EMAIL "Dr. Devesh"))
        as [Hle _].
      destruct (ensure_user_count HOD_EMAIL now (Some "qwerty123") "hod" 0 a
                  HOD_EMAIL "Dr. Devesh") as [_ Hpos].
      lia.
    - apply ensure_faculty_count, He. }
  assert (Hagain : forall now' b,
             (forall e, e ∈ ALLOWED_EMAILS -> 0 < count_email e b) ->
             init_db now' b = b).
  { intros now' b Hb. rewrite init_db_steps.
    rewrite (ensure_user_present now' _ _ _ b HOD_EMAIL)
      by (apply Hb, allowed_email_cases; left; reflexivity).
    apply ensure_faculty_present. intros e He.
    apply Hb, allowed_email_cases. right. exact He. }
  split; [|split; [|split; [|split]]].
  - rewrite init_db_steps.
    destruct (ensure_user_appends now (Some "qwerty123") "hod" 0 a HOD_EMAIL "Dr. Devesh")
      as (add1 & H1 & F1).
    destruct (ensure_faculty_appends now FACULTY_NAMES
                (ensure_user now (Some "qwerty123") "hod" 0 a HOD_EMAIL "Dr. Devesh"))
      as (add2 & H2 & F2).
    exists (add1 ++ add2)%list. split; [rewrite H2, H1, app_assoc; reflexivity|].
    apply Forall_app. split.
    + eapply Forall_impl; [exact F1|]. intros u (-> & ? & ?). auto.
    + eapply Forall_impl; [exact F2|]. intros u [Hnow Hzero]. split; [exact Hnow|].
      destruct (ensure_user_count (u_email u) now (Some "qwerty123") "hod" 0 a
                  HOD_EMAIL "Dr. Devesh") as [Hle _].
      pose proof (count_email_nonneg (u_email u) a). lia.
  - exact Hall.
  - intros e He. rewrite init_db_steps.
    apply ensure_faculty_unique, ensure_user_unique, He.
  - intros now'. apply Hagain, Hall.
  - intros now' email password. apply Hagain.
    intros e He.
    replace (count_email e (set_password password email (init_db now a)))
      with (count_email e (init_db now a)); [apply Hall, He|].
    unfold count_email, set_password. cbn [users].
    induction (users (init_db now a)) as [|u l IH]; [reflexivity|].
    cbn [map List.filter].
    destruct (String.eqb (u_email u) email); cbn [u_email];
      destruct (String.eqb (u_email u) e); cbn [length]; lia.
Qed.

Lemma init_db_fills_accounts_once_witness :
  HOD_EMAIL ∈ ALLOWED_EMAILS
  /\ 0 < count_email HOD_EMAIL (init_db 1000000 no_accounts)
  /\ map u_email (users (init_db 1000000 no_accounts))
     = HOD_EMAIL :: map fst FACULTY_NAMES.
Proof.
  assert (H : HOD_EMAIL ∈ ALLOWED_EMAILS)
    by (apply allowed_email_cases; left; reflexivity).
  split; [exact H|]. split; [|vm_compute; reflexivity].
  exact (proj1 (proj2 (init_db_fills_accounts_once 1000000 no_accounts)) HOD_EMAIL H).
Defined.

(** *** Login *)

Lemma is_text_spec (v : json) (text : string) :
  is_text v text = true <-> v = JString text.
Proof.
  destruct v; cbn; try (split; [discriminate | intros [=]]).
  rewrite String.eqb_eq. split; [intros -> | intros [= ->]]; reflexivity.
Qed.

Lemma same_text_spec (column : option string) (v : json) :
  truthy v = true ->
  same_text column v = true <-> exists s, column = Some s /\ v = JString s.
Proof.
  intros Hv. destruct column as [text|], v; cbn in *;
    try discriminate Hv;
    try (split; [discriminate | intros (s0 & H1 & H2); discriminate]).
  rewrite String.eqb_eq. split.
  - intros ->. eauto.
  - intros (s0 & [= ->] & [= ->]). reflexivity.
Qed.


(** X16.  Refusals that do not look at the accounts.  A body whose email is
    not a text (a number, null, a list, ...) makes [strip] fail and is
    answered 500.  A body whose stripped email is empty, or whose password
    is empty or otherwise false for Python (null, false, 0, an empty list
    or object), is refused with 400.  Otherwise an email outside the
    allowed list is refused with 401, whatever the role asked for and
    whatever the accounts hold, even a matching row with that password.
    None of these changes the accounts. *)
Theorem login_refuses_unlisted_email
    (strip : string -> string) (real_text : spec_float -> option string) data a :
  ((forall s, get data "email" (JString "") <> JString s) ->
   login strip real_text data a = (Refused 500 "Server error", a))
  /\ (forall s,
        get data "email" (JString "") = JString s ->
        (strip s = "" \/ truthy (get data "password" (JString "")) = false ->
         login strip real_text data a
         = (Refused 400 "Email and password are required", a))
        /\ (strip s <> "" ->
            truthy (get data "password" (JString "")) = true ->
            strip s ∉ ALLOWED_EMAILS ->
            login strip real_text data a
            = (Refused 401
                 "Unauthorized email ID. Only assigned faculty emails are allowed.",
               a))).
Proof.
  unfold login, login_body. split.
  - intros Hns. destruct (get data "email" (JString "")) as [| | | |s| |];
      try reflexivity.
    exfalso. exact (Hns s eq_refl).
  - intros s ->. cbn [strip_of mbind option_bind]. split.
    + intros [-> | ->]; [reflexivity|]. rewrite orb_true_r. reflexivity.
    + intros He Hp Hout.
      destruct (String.eqb_spec (strip s) ""); [contradiction|].
      rewrite Hp. cbn [orb negb].
      rewrite bool_decide_eq_true_2 by exact Hout. reflexivity.
Qed.

Lemma login_refuses_unlisted_email_witness :
  login (fun s => s) (fun _ => None)
    {[ "email" := JString "someone@geu.ac.in"; "password" := JString "secret";
       "role" := JString "faculty" ]}
    (init_db 0 no_accounts)
  = (Refused 401 "Unauthorized email ID. Only assigned faculty emails are allowed.",
     init_db 0 no_accounts)
  /\ login (fun s => s) (fun _ => None)
       {[ "email" := JString "2000003@geu.ac.in"; "password" := JInt 0;
          "role" := JString "faculty" ]}
       (init_db 0 no_accounts)
     = (Refused 400 "Email and password are required", init_db 0 no_accounts)
  /\ login (fun s => s) (fun _ => None)
       {[ "email" := JInt 2000003; "password" := JString "secret";
          "role" := JString "faculty" ]}
       (init_db 0 no_accounts)
     = (Refused 500 "Server error", init_db 0 no_accounts).
Proof.
  split; [|split].
  - apply (proj2 (login_refuses_unlisted_email (fun s => s) (fun _ => None)
                    {[ "email" := JString "someone@geu.ac.in";
                       "password" := JString "secret";
                       "role" := JString "faculty" ]}
                    (init_db 0 no_accounts)) "someone@geu.ac.in").
    + reflexivity.
    + discriminate.
    + reflexivity.
    + apply (bool_decide_unpack _). vm_compute. exact I.
  - apply (proj2 (login_refuses_unlisted_email (fun s => s) (fun _ => None)
                    {[ "email" := JString "2000003@geu.ac.in";
                       "password" := JInt 0;
                       "role" := JString "faculty" ]}
                    (init_db 0 no_accounts)) "2000003@geu.ac.in").
    + reflexivity.
    + right. reflexivity.
  - apply (proj1 (login_refuses_unlisted_email (fun s => s) (fun _ => None)
                    {[ "email" := JInt 2000003; "password" := JString "secret";
                       "role" := JString "faculty" ]}
                    (init_db 0 no_accounts))).
    intros s. discriminate.
Defined.

Lemma set_password_identity password email a :
  map account_identity (users (set_password password email a))
  = map account_identity (users a).
Proof.
  unfold set_password. cbn [users]. rewrite map_map. apply map_ext. intros u.
  destruct (String.eqb (u_email u) email); reflexivity.
Qed.

(** X17.  [login] writes one thing only: on the first login of a faculty
    account it stores the password given, as the text SQLite makes of it,
    and clears [first_login].  Every other outcome leaves the accounts as
    they were, and no outcome adds or removes an account or touches its id,
    email, role, name or creation time. *)
Theorem login_writes_only_on_first_login
    (strip : string -> string) (real_text : spec_float -> option string)
    data a r a' :
  login strip real_text data a = (r, a') ->
  map account_identity (users a') = map account_identity (users a)
  /\ (a' = a
      \/ exists email u stored,
           strip_of strip (get data "email" (JString "")) = Some email
           /\ account_of email a = Some u
           /\ u_first_login u = 1
           /\ get data "role" (JString "") = JString "faculty"
           /\ text_column real_text (get data "password" (JString "")) = Some stored
           /\ r = LoggedIn
                    "Password set successfully! Please remember this password for future logins."
                    "faculty" email (u_name u) (Some true)
           /\ a' = set_password stored email a).
Proof.
  unfold login, login_body, account_of.
  destruct (strip_of strip (get data "email" (JString ""))) as [email|];
    cbn [mbind option_bind]; [|intros [= <- <-]; auto].
  set (password := get data "password" (JString "")).
  destruct (_ || _); [intros [= <- <-]; auto|].
  destruct (bool_decide _); [intros [= <- <-]; auto|].
  destruct (is_text (get data "role" (JString "")) "hod").
  - destruct (negb _); [intros [= <- <-]; auto|].
    destruct (find _ _) as [u|]; [|intros [= <- <-]; auto].
    destruct (_ && _); intros [= <- <-]; auto.
  - destruct (is_text (get data "role" (JString "")) "faculty") eqn:Hrole;
      [|intros [= <- <-]; auto].
    apply is_text_spec in Hrole.
    destruct (find _ _) as [u|] eqn:Hu; [|intros [= <- <-]; auto].
    destruct (Z.eqb_spec (u_first_login u) 1) as [Hfirst|].
    + destruct (text_column real_text password) as [stored|] eqn:Hstored;
        cbn [mbind option_bind]; [|intros [= <- <-]; auto].
      intros [= <- <-]. split; [apply set_password_identity|].
      right. exists email, u, stored. auto 10.
    + destruct (negb _); intros [= <- <-]; auto.
Qed.

Lemma login_writes_only_on_first_login_witness :
  exists r a',
    login (fun s => s) (fun _ => None)
      {[ "email" := JString "2000003@geu.ac.in"; "password" := JString "joshi-1";
         "role" := JString "faculty" ]}
      (init_db 0 no_accounts) = (r, a')
    /\ a' <> init_db 0 no_accounts
    /\ map account_identity (users a')
       = map account_identity (users (init_db 0 no_accounts)).
Proof.
  destruct (login (fun s => s) (fun _ => None)
              {[ "email" := JString "2000003@geu.ac.in";
                 "password" := JString "joshi-1";
                 "role" := JString "faculty" ]}
              (init_db 0 no_accounts)) as [r a'] eqn:E.
  exists r, a'. split; [reflexivity|]. split.
  - assert (E' := f_equal snd E). cbn [snd] in E'. rewrite <- E'.
    vm_compute. discriminate.
  - exact (proj1 (login_writes_only_on_first_login _ _ _ _ _ _ E)).
Defined.




(** X19.  A login under role [hod] succeeds exactly for the one HOD email
    with an account of role [hod] whose stored password is the text given
    (a password that is not a text never fits); any other allowed email,
    even with its own right password, is refused, and no such login
    changes the accounts. *)
Theorem hod_login_characterised
    (strip : string -> string) (real_text : spec_float -> option string)
    data a email :
  strip_of strip (get data "email" (JString "")) = Some email ->
  email ∈ ALLOWED_EMAILS ->
  email <> "" ->
  truthy (get data "password" (JString "")) = true ->
  get data "role" (JString "") = JString "hod" ->
  snd (login strip real_text data a) = a
  /\ ((exists name, fst (login strip real_text data a)
                    = LoggedIn "Login successful" "hod" HOD_EMAIL name None)
      <-> email = HOD_EMAIL
          /\ exists u s, account_of HOD_EMAIL a = Some u
                         /\ u_password u = Some s
                         /\ get data "password" (JString "") = JString s
                         /\ u_role u = "hod")
  /\ (email <> HOD_EMAIL ->
      fst (login strip real_text data a) = Refused 401 "Invalid HOD email ID").
Proof.
  intros Hemail Hallowed He Hp Hrole. unfold login, login_body, account_of.
  rewrite Hemail. cbn [mbind option_bind].
  destruct (String.eqb_spec email ""); [contradiction|].
  rewrite Hp. cbn [orb negb].
  rewrite bool_decide_eq_false_2 by (intros H; exact (H Hallowed)).
  rewrite Hrole. cbn [is_text String.eqb Ascii.eqb Bool.eqb].
  destruct (String.eqb_spec email HOD_EMAIL) as [-> | Hne]; cbn [negb].
  - destruct (find _ (users a)) as [u|].
    + destruct (same_text (u_password u) (get data "password" (JString ""))) eqn:Hpw.
      * apply same_text_spec in Hpw as (s & Hcol & Hs); [|exact Hp].
        destruct (String.eqb_spec (u_role u) "hod") as [Hr | Hr]; cbn [andb fst snd].
        -- split; [reflexivity|]. split; [|intros H; contradiction].
           split; [intros _; split; [reflexivity | exists u, s; auto] | intros _; eauto].
        -- split; [reflexivity|]. split; [|intros H; contradiction].
           split; [intros [? H]; discriminate H|].
           intros (_ & u' & s' & [= <-] & _ & _ & Hr'). contradiction.
      * cbn [andb fst snd].
        split; [reflexivity|]. split; [|intros H; contradiction].
        split; [intros [? H]; discriminate H|].
        intros (_ & u' & s' & [= <-] & Hcol & Hs & _).
        assert (Hyes : same_text (u_password u) (get data "password" (JString "")) = true)
          by (apply same_text_spec; [exact Hp | eauto]).
        congruence.
    + cbn [fst snd]. split; [reflexivity|]. split; [|intros H; contradiction].
      split; [intros [? H]; discriminate H | intros (_ & u' & s' & H & _); discriminate H].
  - cbn [fst snd]. split; [reflexivity|]. split; [|reflexivity].
    split; [intros [? H]; discriminate H | intros [H _]; contradiction].
Qed.

Lemma hod_login_characterised_witness :
  fst (login (fun s => s) (fun _ => None)
         {[ "email" := JString "deveshsir@geu.ac.in"; "password" := JString "qwerty123";
            "role" := JString "hod" ]}
         (init_db 0 no_accounts))
  = LoggedIn "Login successful" "hod" HOD_EMAIL "Dr. Devesh" None
  /\ fst (login (fun s => s) (fun _ => None)
            {[ "email" := JString "2000003@geu.ac.in"; "password" := JString "qwerty123";
               "role" := JString "hod" ]}
            (init_db 0 no_accounts))
     = Refused 401 "Invalid HOD email ID".
Proof.
  split.
  - destruct (hod_login_characterised (fun s => s) (fun _ => None)
                {[ "email" := JString "deveshsir@geu.ac.in";
                   "password" := JString "qwerty123";
                   "role" := JString "hod" ]}
                (init_db 0 no_accounts) HOD_EMAIL) as (_ & [_ Hyes] & _);
      [reflexivity | apply (bool_decide_unpack _); vm_compute; exact I
      | discriminate | reflexivity | reflexivity |].
    destruct Hyes as [name Hname].
    + split; [reflexivity|].
      destruct (account_of HOD_EMAIL (init_db 0 no_accounts)) as [u|] eqn:Hu;
        [|vm_compute in Hu; discriminate].
      exists u, "qwerty123". split; [reflexivity|].
      vm_compute in Hu. injection Hu as <-. repeat split.
    + rewrite Hname. f_equal.
      assert (H := Hname). vm_compute in H. injection H as <-. reflexivity.
  - apply (hod_login_characterised (fun s => s) (fun _ => None)
             {[ "email" := JString "2000003@geu.ac.in";
                "password" := JString "qwerty123";
                "role" := JString "hod" ]}
             (init_db 0 no_accounts) "2000003@geu.ac.in").
    + reflexivity.
    + apply (bool_decide_unpack _). vm_compute. exact I.
    + discriminate.
    + reflexivity.
    + reflexivity.
    + discriminate.
Defined.

(** ** The catalogue *)

Lemma text_le_total (a b : string) : text_le a b \/ text_le b a.
Proof. apply String.leb_total. Qed.

Lemma leb_false_text_lt (a b : string) : String.leb a b = false -> text_lt b a.
Proof.
  unfold String.leb, text_lt, String.ltb.
  rewrite (String.compare_antisym b a).
  destruct (String.compare a b); try discriminate. reflexivity.
Qed.

Lemma In_sort_by {A} (le : A -> A -> bool) (l : list A) (v : A) :
  In v (sort_by le l) <-> In v l.
Proof.
  split; apply Permutation_in; [apply sort_by_perm | symmetry; apply sort_by_perm].
Qed.

Lemma distinct_ordered_spec (column : timetable_row -> string) db :
  (forall v, In v (distinct_ordered column db)
             <-> exists t, In t (timetable db) /\ column t = v)
  /\ StronglySorted text_lt (distinct_ordered column db).
Proof.
  unfold distinct_ordered. split.
  - intros v. rewrite In_sort_by.
    rewrite <- list_elem_of_In, elem_of_remove_dups, list_elem_of_In, in_map_iff.
    split; intros (t & H1 & H2); exists t; auto.
  - assert (Hle : StronglySorted text_le
                    (sort_by String.leb (remove_dups (map column (timetable db))))).
    { apply (sort_by_sorted String.leb text_le (fun _ => True)).
      - intros a b c. apply text_le_trans.
      - intros a b _ _ H. exact H.
      - intros a b _ _ H. apply text_le_cases. left. apply leb_false_text_lt, H.
      - apply Forall_forall. intros; exact I. }
    assert (Hnd : NoDup (sort_by String.leb (remove_dups (map column (timetable db))))).
    { rewrite (sort_by_perm String.leb). apply NoDup_remove_dups. }
    revert Hle Hnd. generalize (sort_by String.leb (remove_dups (map column (timetable db)))).
    intros l Hle. induction Hle as [|x l Hs IH Hx]; intros Hnd; [constructor|].
    apply NoDup_cons in Hnd as [Hx' Hnd]. constructor; [auto|].
    rewrite Forall_forall in Hx |- *. intros y Hy.
    destruct (proj1 (text_le_cases x y) (Hx y Hy)) as [H | ->]; [exact H|].
    contradiction.
Qed.

Lemma describe_room_id room : r_id (describe_room room) = room.
Proof.
  unfold describe_room.
  repeat match goal with |- context [if ?c then _ else _] => destruct c end;
    reflexivity.
Qed.

Lemma get_rooms_ids db : map r_id (get_rooms db) = distinct_ordered tt_room db.
Proof.
  unfold get_rooms. rewrite map_map.
  rewrite <- (map_id (distinct_ordered tt_room db)) at 2. apply map_ext.
  apply describe_room_id.
Qed.

(** X20.  [get_rooms] and [get_faculty] list every room, respectively
    every faculty, of the timetable exactly once, in strictly ascending
    byte order, and nothing else.  The type and capacity of an entry go by
    the first prefix of the room name that fits: A or B a classroom for 60
    students, Lab a computer lab with 35 systems, Seminar a seminar hall
    for 100 people, LT a lecture theatre for 80 students, anything else a
    room of various capacity. *)
Theorem catalogue_is_distinct_and_ordered db :
  (forall room, In room (map r_id (get_rooms db))
                <-> exists t, In t (timetable db) /\ tt_room t = room)
  /\ StronglySorted text_lt (map r_id (get_rooms db))
  /\ Forall (fun r =>
               (r_type r, r_capacity r)
               = if String.prefix "A" (r_id r) || String.prefix "B" (r_id r)
                 then ("Classroom", "60 Students")
                 else if String.prefix "Lab" (r_id r)
                 then ("Computer Lab", "35 Systems")
                 else if String.prefix "Seminar" (r_id r)
                 then ("Seminar Hall", "100 People")
                 else if String.prefix "LT" (r_id r)
                 then ("Lecture Theatre", "80 Students")
                 else ("Room", "Various"))
            (get_rooms db)
  /\ (forall name, In name (get_faculty db)
                   <-> exists t, In t (timetable db) /\ tt_faculty t = name)
  /\ StronglySorted text_lt (get_faculty db).
Proof.
  rewrite get_rooms_ids. unfold get_faculty.
  destruct (distinct_ordered_spec tt_room db) as [Hr1 Hr2].
  destruct (distinct_ordered_spec tt_faculty db) as [Hf1 Hf2].
  repeat split; try apply Hr1; try apply Hf1; try assumption.
  unfold get_rooms. apply Forall_forall. intros r Hr.
  apply list_elem_of_In, in_map_iff in Hr as (room & <- & _).
  rewrite describe_room_id. unfold describe_room.
  repeat match goal with |- context [if ?c then _ else _] => destruct c end;
    reflexivity.
Qed.

(** Eight timetable rows over six rooms and four teachers. *)
Lemma catalogue_is_distinct_and_ordered_witness :
  map tt_room (timetable campus)
  = ["Lab-2"; "A-101"; "Lab-2"; "LT-1"; "Seminar Hall"; "C-101"; "B-12"; "A-101"]
  /\ map (fun r => (r_id r, r_type r, r_capacity r)) (get_rooms campus)
     = [("A-101", "Classroom", "60 Students");
        ("B-12", "Classroom", "60 Students");
        ("C-101", "Room", "Various");
        ("LT-1", "Lecture Theatre", "80 Students");
        ("Lab-2", "Computer Lab", "35 Systems");
        ("Seminar Hall", "Seminar Hall", "100 People")]
  /\ get_faculty campus = ["Dr. Iyer"; "Dr. Khan"; "Dr. Rao"; "Prof. Singh"]
  /\ StronglySorted text_lt (map r_id (get_rooms campus))
  /\ StronglySorted text_lt (get_faculty campus)
  /\ In "Lab-2" (map r_id (get_rooms campus)).
Proof.
  pose proof (catalogue_is_distinct_and_ordered campus)
    as (Hrooms & Hsorted & _ & _ & Hfaculty).
  split; [reflexivity|]. split; [vm_compute; reflexivity|].
  split; [vm_compute; reflexivity|].
  split; [exact Hsorted|]. split; [exact Hfaculty|].
  apply Hrooms. eexists. split; [left; reflexivity | reflexivity].
Defined.

(** ** Decisions and later requests *)

Lemma answered_decision set verb locked booking_id db answer db' :
  on_connection (decide_booking set verb locked booking_id) db = (Ok answer, db') ->
  db' = snd (update_where_id set booking_id db).
Proof.
  intros H. pose proof (decided_store set verb locked booking_id db) as Hs.
  rewrite H in Hs. cbn [snd] in Hs. rewrite Hs.
  unfold decide_booking, bind_int in H.
  destruct (int64 booking_id); [|discriminate H].
  destruct locked; [discriminate H | reflexivity].
Qed.

(** X21.  A decision takes effect on the requests that follow.  Once a
    stored booking has been approved, a request for its room whose start
    lies in its interval is answered Conflict and writes nothing.  Once it
    has been rejected, and no other booking of the room was approved, the
    same request is stored. *)
Theorem approval_blocks_rejection_frees
    now decided data s db b room_id start end_ faculty purpose :
  In b (bookings db) ->
  b_room b = room_id ->
  text_le (b_start_time b) start ->
  text_lt start (b_end_time b) ->
  booking_semaphore s <> 0 ->
  lock_held room_id (room_locks s) = false ->
  data !! "room" = Some room_id ->
  data !! "start" = Some start ->
  data !! "end" = Some end_ ->
  data !! "faculty" = Some faculty ->
  data !! "purpose" = Some purpose ->
  (forall locked answer,
      approve_booking decided locked (b_id b) db = (Ok answer, store s) ->
      exists s', create_booking now false data s = Some (Conflict, s')
                 /\ store s' = store s)
  /\ (forall locked answer,
        reject_booking decided locked (b_id b) db = (Ok answer, store s) ->
        (forall c, In c (bookings db) -> b_room c = room_id ->
                   b_status c = "approved" -> b_id c = b_id b) ->
        exists s',
          create_booking now false data s
          = Some (Created (next_rowid (store s)) (get data "priority" "normal"), s')
          /\ bookings (store s')
             = (bookings (store s)
                  ++ [new_row now data room_id faculty purpose start end_ (store s)])%list).
Proof.
  intros Hb Hbroom Hle Hlt Hsem Hfree Hroom Hstart Hend Hfac Hpur.
  destruct (create_booking_through now false data s room_id Hsem Hroom Hfree)
    as (s' & Hcall & Hstore & _).
  unfold reserve_outcome in Hcall, Hstore.
  rewrite Hstart, Hend, Hfac, Hpur in Hcall, Hstore.
  split.
  - intros locked answer Hs. apply answered_decision in Hs. exists s'.
    assert (Hpos : 0 < count_conflicts room_id start end_ (store s)).
    { apply count_conflicts_positive. exists (set_approved decided b). split.
      - rewrite Hs.
        cbn [update_where_id snd bookings].
        apply in_map_iff. exists b. rewrite Z.eqb_refl. auto.
      - apply conflicts_with_spec. cbn [set_approved b_room b_status b_start_time b_end_time].
        auto. }
    apply Z.ltb_lt in Hpos. rewrite Hpos in Hcall, Hstore.
    split; [exact Hcall | exact Hstore].
  - intros locked answer Hs Hothers. apply answered_decision in Hs. exists s'.
    assert (Hnone : count_conflicts room_id start end_ (store s) <= 0).
    { apply no_approved_no_conflict. intros c Hc Hcroom Hcst.
      rewrite Hs in Hc.
      cbn [update_where_id snd bookings] in Hc.
      apply in_map_iff in Hc as (c0 & Hc0 & Hin).
      destruct (Z.eqb_spec (b_id c0) (b_id b)) as [E | E]; subst c.
      - cbn [set_rejected b_status] in Hcst. discriminate.
      - apply E. exact (Hothers c0 Hin Hcroom Hcst). }
    apply Z.ltb_ge in Hnone. rewrite Hnone in Hcall, Hstore.
    split; [exact Hcall|]. rewrite Hstore. reflexivity.
Qed.

Lemma approval_blocks_rejection_frees_witness :
  (exists s',
     create_booking 9000000 false
       (sample_request "C-101" "2024-03-04 10:30" "2024-03-04 11:30")
       (boot (snd (approve_booking 5000000 false 1 two_pending)))
     = Some (Conflict, s'))
  /\ (exists s',
        create_booking 9000000 false
          (sample_request "C-101" "2024-03-04 10:30" "2024-03-04 11:30")
          (boot (snd (reject_booking 5000000 false 1 one_approved)))
        = Some (Created 2 "normal", s')).
Proof.
  split.
  - destruct (approval_blocks_rejection_frees 9000000 5000000
                (sample_request "C-101" "2024-03-04 10:30" "2024-03-04 11:30")
                (boot (snd (approve_booking 5000000 false 1 two_pending)))
                two_pending
                (hd approved_row (bookings two_pending))
                "C-101" "2024-03-04 10:30" "2024-03-04 11:30"
                "2000001@geu.ac.in" "Seminar") as [H _];
      try reflexivity; try (vm_compute; tauto); try (vm_compute; discriminate).
    destruct (H false (Ack "Booking for C-101 has been approved") eq_refl)
      as (s' & Hs' & _).
    exists s'. exact Hs'.
  - destruct (approval_blocks_rejection_frees 9000000 5000000
                (sample_request "C-101" "2024-03-04 10:30" "2024-03-04 11:30")
                (boot (snd (reject_booking 5000000 false 1 one_approved)))
                one_approved approved_row
                "C-101" "2024-03-04 10:30" "2024-03-04 11:30"
                "2000001@geu.ac.in" "Seminar") as [_ H];
      try reflexivity; try (vm_compute; tauto); try (vm_compute; discriminate).
    destruct (H false (Ack "Booking for C-101 has been rejected") eq_refl)
      as (s' & Hs' & _).
    + intros c [<- | []] _ _. reflexivity.
    + exists s'. exact Hs'.
Defined.

(** ** The read side of the lock *)

Lemma read_side_run (evs : list rw_event) (l : rw_state) :
  forallb read_side evs = true ->
  writers l = 0 ->
  read_ready l = [] ->
  read_mutex l = None ->
  writers (rw_run evs l) = 0
  /\ read_ready (rw_run evs l) = []
  /\ write_ready (rw_run evs l) = write_ready l
  /\ woken (rw_run evs l) = woken l
  /\ granted (rw_run evs l)
     = (granted l ++ map (fun t => (t, Shared)) (acquired evs))%list
  /\ readers (rw_run evs l)
     = readers l + Z.of_nat (length (acquired evs)) - released evs.
Proof.
  revert l. induction evs as [|e evs IH]; intros l Hevs Hw Hr Hfree.
  - unfold released. cbn. rewrite app_nil_r. repeat split; try assumption. lia.
  - cbn [forallb] in Hevs. apply andb_prop in Hevs as [He Hevs].
    cbn [rw_run fold_left]. fold (rw_run evs (rw_step l e)).
    destruct e as [t| | | | | | | |]; try discriminate; cbn [rw_step];
      rewrite Hfree; cbn [free].
    + rewrite acquire_read_granted by lia.
      destruct (IH {| readers := readers l + 1; writers := writers l;
                      read_ready := read_ready l; write_ready := write_ready l;
                      woken := woken l;
                      granted := granted l ++ [(t, Shared)];
                      read_mutex := None; write_mutex := write_mutex l |}
                   Hevs Hw Hr eq_refl)
        as (-> & -> & -> & -> & -> & ->).
      cbn [readers writers read_ready write_ready woken granted].
      repeat split.
      * cbn [acquired flat_map app map]. rewrite <- app_assoc. reflexivity.
      * unfold released, acquired. cbn [flat_map app length List.filter]. lia.
    + assert (Hstep : release_read l
                      = {| readers := readers l - 1; writers := writers l;
                           read_ready := []; write_ready := write_ready l;
                           woken := woken l; granted := granted l;
                           read_mutex := None; write_mutex := write_mutex l |}).
      { unfold release_read. rewrite Hr. cbn [map]. rewrite app_nil_r.
        destruct (readers l - 1 =? 0); reflexivity. }
      rewrite Hstep.
      destruct (IH {| readers := readers l - 1; writers := writers l;
                      read_ready := []; write_ready := write_ready l;
                      woken := woken l; granted := granted l;
                      read_mutex := None; write_mutex := write_mutex l |}
                   Hevs Hw eq_refl eq_refl)
        as (-> & -> & -> & -> & -> & ->).
      cbn [readers writers read_ready write_ready woken granted].
      repeat split.
      unfold released, acquired. cbn [flat_map app length List.filter]. lia.
Qed.

(** X22.  The server only ever takes the read side of the lock (in the
    listing).  Whatever the interleaving of takes and releases of the read
    side, from the lock as created: no writer is active, no thread waits or
    was put to wait, every take is granted at once in the order of arrival,
    and the reader count is the number of takes less the number of
    releases; it is back at zero whenever each take has been released. *)
Theorem read_side_never_waits (evs : list rw_event) :
  forallb read_side evs = true ->
  writers (rw_run evs rw_init) = 0
  /\ read_ready (rw_run evs rw_init) = []
  /\ write_ready (rw_run evs rw_init) = []
  /\ woken (rw_run evs rw_init) = []
  /\ granted (rw_run evs rw_init) = map (fun t => (t, Shared)) (acquired evs)
  /\ readers (rw_run evs rw_init)
     = Z.of_nat (length (acquired evs)) - released evs
  /\ (released evs = Z.of_nat (length (acquired evs)) ->
      readers (rw_run evs rw_init) = 0).
Proof.
  intros Hevs.
  destruct (read_side_run evs rw_init Hevs eq_refl eq_refl eq_refl)
    as (Hw & Hr & Hwr & Hwo & Hg & Hn).
  cbn [rw_init readers write_ready woken granted app] in Hwr, Hwo, Hg, Hn.
  repeat split; try assumption; lia.
Qed.

Lemma read_side_never_waits_witness :
  granted (rw_run [AcquireRead 1; AcquireRead 2; ReleaseRead; AcquireRead 3;
                   ReleaseRead; ReleaseRead] rw_init)
  = [(1%nat, Shared); (2%nat, Shared); (3%nat, Shared)]
  /\ readers (rw_run [AcquireRead 1; AcquireRead 2; ReleaseRead; AcquireRead 3;
                      ReleaseRead; ReleaseRead] rw_init) = 0.
Proof.
  destruct (read_side_never_waits
              [AcquireRead 1; AcquireRead 2; ReleaseRead; AcquireRead 3;
               ReleaseRead; ReleaseRead] eq_refl)
    as (_ & _ & _ & _ & Hg & _ & Hz).
  split; [exact Hg | exact (Hz eq_refl)].
Defined.

(** ** Readers against writers *)

(** X23.  The lock does not keep a reader and a writer apart.  The two
    conditions have a mutex each, so a reader and a writer can both be past
    their [while] test before either has raised its counter, and both are
    then granted.  From a lock that nobody holds, in each order of the two
    tests and the two increments, also with [acquire_read] run in one go
    between the test and the increment of the writer, the reader and the
    writer end up holding the lock together. *)
Theorem reader_and_writer_both_granted l r w evs :
  readers l <= 0 ->
  writers l <= 0 ->
  read_mutex l = None ->
  write_mutex l = None ->
  In evs [[Test r Shared; Test w Exclusive; Enter r Shared; Enter w Exclusive];
          [Test r Shared; Test w Exclusive; Enter w Exclusive; Enter r Shared];
          [Test w Exclusive; Test r Shared; Enter r Shared; Enter w Exclusive];
          [Test w Exclusive; Test r Shared; Enter w Exclusive; Enter r Shared];
          [Test w Exclusive; AcquireRead r; Enter w Exclusive]] ->
  readers (rw_run evs l) = readers l + 1
  /\ writers (rw_run evs l) = writers l + 1
  /\ In (r, Shared) (granted (rw_run evs l))
  /\ In (w, Exclusive) (granted (rw_run evs l))
  /\ read_ready (rw_run evs l) = read_ready l
  /\ write_ready (rw_run evs l) = write_ready l.
Proof.
  intros Hr Hw Hrm Hwm Hin.
  destruct l as [rd wr rr wrr wk gr rm wm].
  cbn [readers writers read_mutex write_mutex read_ready write_ready] in *.
  subst rm wm.
  assert (Hw' : (0 <? wr) = false) by (apply Z.ltb_ge; lia).
  assert (Hr' : (0 <? rd) = false) by (apply Z.ltb_ge; lia).
  cbn [In] in Hin.
  destruct Hin as [<- | [<- | [<- | [<- | [<- | []]]]]];
    repeat (lazymatch goal with
            | |- context [rw_run (?e :: ?es) ?l0] =>
                change (rw_run (e :: es) l0) with (rw_run es (rw_step l0 e))
            end;
            cbv [rw_step mutex unwake test_read test_write enter_read enter_write
                 acquire_read free passed];
            cbn [readers writers read_ready write_ready
                 woken granted read_mutex write_mutex];
            rewrite ?Hw', ?Hr', ?Nat.eqb_refl;
            cbn [readers writers read_ready write_ready
                 woken granted read_mutex write_mutex orb]);
    cbn [rw_run fold_left readers writers read_ready write_ready granted];
    repeat split; rewrite ?in_app_iff; cbn [In]; tauto.
Qed.

Lemma reader_and_writer_both_granted_witness :
  readers (rw_run [Test 1 Shared; Test 2 Exclusive; Enter 2 Exclusive; Enter 1 Shared]
                  rw_init) = 1
  /\ writers (rw_run [Test 1 Shared; Test 2 Exclusive; Enter 2 Exclusive; Enter 1 Shared]
                     rw_init) = 1
  /\ granted (rw_run [Test 1 Shared; Test 2 Exclusive; Enter 2 Exclusive; Enter 1 Shared]
                     rw_init)
     = [(2%nat, Exclusive); (1%nat, Shared)].
Proof.
  destruct (reader_and_writer_both_granted rw_init 1 2
              [Test 1 Shared; Test 2 Exclusive; Enter 2 Exclusive; Enter 1 Shared])
    as (Hreaders & Hwriters & _);
    [cbn; lia | cbn; lia | reflexivity | reflexivity | right; left; reflexivity |].
  split; [exact Hreaders|]. split; [exact Hwriters|]. reflexivity.
Defined.
